(** * iDea energy controller: the control plane, embedded and verified

    Shallow embedding of [idea_controller_unificato.py] (the unified
    controller: telemetry parser, flag store, ToiDea command writer,
    self-consumption, battery emergency, scheduled services, reset watchdog)
    and of [idea_server.py] (foreign-master detector, ToiDea watcher, the
    write phase of the I/O worker).

    Modelling conventions.
    - Python [int] is [Z].
    - Python [float] is [Q]: exact rational arithmetic, no rounding, no
      [nan]/[inf].  [int(x)] on a float is truncation toward zero.
    - [str] is [string]; a character is a code point below 256.
    - [try: ... except Exception:] is a [result] that the handler consumes.
    - Files and the serial bus are inputs of the functions that use them. *)

From Stdlib Require Import ZArith QArith Qround Qabs String Ascii List Lia Lqa Bool.
From stdpp Require Import base gmap strings pretty sorting.

Open Scope Z_scope.

(** [w |> f |> g]: the statements [f] then [g] run on the state [w]. *)
Notation "x |> f" := (f x) (at level 68, left associativity, only parsing).

(** ** Python values *)

Module Py.

Inductive exn : Type :=
| ValueError     (* [float], [int] on a text that is not a number *)
| ParseError.    (* [ET.parse] on a text that is not XML *)

Inductive result (A : Type) : Type :=
| Ok (a : A)
| Raise (e : exn).
Arguments Ok {A} a.
Arguments Raise {A} e.

(** [int(x)] for a float [x]. *)
Definition int_of_float (x : Q) : Z := Z.quot (Qnum x) (Zpos (Qden x)).

Definition ltb (x y : Q) : bool := negb (Qle_bool y x).
Definition leb (x y : Q) : bool := Qle_bool x y.
Definition eqb (x y : Q) : bool := Qeq_bool x y.

(** [str.isspace] on one character. *)
Definition is_space (c : ascii) : bool :=
  let n := nat_of_ascii c in
  ((9 <=? n)%nat && (n <=? 13)%nat)
  || ((28 <=? n)%nat && (n <=? 32)%nat)
  || (n =? 133)%nat || (n =? 160)%nat.

Fixpoint lstrip (s : string) : string :=
  match s with
  | EmptyString => EmptyString
  | String c r => if is_space c then lstrip r else s
  end.

Fixpoint rstrip (s : string) : string :=
  match s with
  | EmptyString => EmptyString
  | String c r =>
      match rstrip r with
      | EmptyString => if is_space c then EmptyString else String c EmptyString
      | r' => String c r'
      end
  end.

(** [s.strip()] *)
Definition strip (s : string) : string := rstrip (lstrip s).

(** [s.replace(a, b)] for one-character [a] and [b]. *)
Fixpoint replace (a b : ascii) (s : string) : string :=
  match s with
  | EmptyString => EmptyString
  | String c r => String (if Ascii.eqb c a then b else c) (replace a b r)
  end.

(** [s.find(sub, start)]; [None] is Python's [-1]. *)
Definition find (sub s : string) (start : nat) : option nat :=
  String.index start sub s.

(** [s[i:j]] *)
Definition slice (s : string) (i j : nat) : string :=
  String.substring i (j - i) s.

(** [sub in s] *)
Definition contains (sub s : string) : bool :=
  match find sub s 0 with Some _ => true | None => false end.

End Py.

Import Py.

(** A small decimal reader, used as the concrete [float(...)] in the worked
    examples: optional sign, digits, optional fraction. *)
Module Dec.

Definition digit (c : ascii) : option Z :=
  let n := nat_of_ascii c in
  if ((48 <=? n)%nat && (n <=? 57)%nat)%bool then Some (Z.of_nat n - 48) else None.

Fixpoint digits (acc : Z) (s : string) : option (Z * string) :=
  match s with
  | EmptyString => Some (acc, EmptyString)
  | String c r =>
      match digit c with
      | Some d => digits (10 * acc + d) r
      | None => Some (acc, s)
      end
  end.

Fixpoint frac (num : Z) (den : positive) (s : string) : option (Z * positive) :=
  match s with
  | EmptyString => Some (num, den)
  | String c r =>
      match digit c with
      | Some d => frac (10 * num + d) (10 * den)%positive r
      | None => None
      end
  end.

Definition unsigned (s : string) : option Q :=
  match s with
  | EmptyString => None
  | String c _ =>
      match digit c with
      | None => None
      | Some _ =>
          match digits 0 s with
          | Some (n, EmptyString) => Some (inject_Z n)
          | Some (n, String "." r) =>
              match frac n 1 r with
              | Some (m, d) => Some (m # d)%Q
              | None => None
              end
          | _ => None
          end
      end
  end.

Definition float (s : string) : option Q :=
  match s with
  | String "-" r => option_map Qopp (unsigned r)
  | String "+" r => unsigned r
  | _ => unsigned s
  end.

Definition int (s : string) : option Z :=
  match float (strip s) with
  | Some q => if (Zpos (Qden q) =? 1) then Some (Qnum q) else None
  | None => None
  end.

End Dec.

(** ** Telemetry tag parser ([_get_value_from_tag]) *)

Section Parser.

(** Python's [float(str)]: [None] when it raises [ValueError]. *)
Variable py_float : string -> option Q.

(** The body of the [try] block. *)
Definition _get_value_from_tag_try (xml_text tag_name : string) : result Q :=
  let open_tag := ("<" ++ tag_name ++ ">")%string in
  let close_tag := ("</" ++ tag_name ++ ">")%string in
  match find open_tag xml_text 0 with
  | None => Ok 0%Q
  | Some start_index =>
      let start_index := (start_index + String.length open_tag)%nat in
      match find close_tag xml_text start_index with
      | None => Ok 0%Q
      | Some end_index =>
          let inner_text := strip (slice xml_text start_index end_index) in
          let inner_text := replace "," "." inner_text in
          match py_float inner_text with
          | Some v => Ok v
          | None => Raise ValueError
          end
      end
  end.

Definition _get_value_from_tag (xml_text tag_name : string) : Q :=
  match _get_value_from_tag_try xml_text tag_name with
  | Ok v => v
  | Raise _ => 0%Q
  end.

End Parser.

(** A text file as the program sees it when it opens it for reading. *)
Inductive File : Type :=
| NoFile                    (* [os.path.exists] is false *)
| Unreadable                (* [open]/[read] raises *)
| Content (txt : string).

(** ** ConfigManager: the flag store

    The five flags of [cfg.data["flags"]].  Each setter also rewrites a
    legacy sidecar file; the unified controller never reads those files back,
    so the mirror is left out. *)

Record Flags : Type := {
  autoconsumo_enabled : bool;
  service_active : bool;
  macchina_allarme : bool;
  debito_energetico : bool;
  sharing_enabled : bool
}.

Definition default_flags : Flags :=
  {| autoconsumo_enabled := true; service_active := false;
     macchina_allarme := false; debito_energetico := false;
     sharing_enabled := true |}.

(** ** ToiDea.xml and the ToiDeaManager *)

(** The text of the [ID], [CMD], [IND] and [VAL] nodes; [None] when the
    node is absent. *)
Record ToiDoc : Type := {
  doc_ID : option string;
  doc_CMD : option string;
  doc_IND : option string;
  doc_VAL : option string
}.

Inductive ToiFile : Type :=
| ToiMissing                               (* the file does not exist *)
| ToiMalformed                             (* [ET.parse] raises *)
| ToiXml (d : ToiDoc) (writable : bool).   (* [tree.write] raises iff not writable *)

Record ToiDeaManager : Type := {
  current_id : Z;
  last_values : gmap Z Z
}.

Module ToiDea.

Definition init : ToiDeaManager := {| current_id := 0; last_values := ∅ |}.

(** [node.text = txt] when the node exists. *)
Definition set_text (node : option string) (txt : string) : option string :=
  match node with Some _ => Some txt | None => None end.

(** What became of a call. *)
Inductive outcome : Type :=
| Written        (* the [try] block ran to its end *)
| NotFound       (* early return: no file *)
| Failed.        (* the handler ran *)

Definition write_register_full (reg val : Z) (file : ToiFile) (toi : ToiDeaManager)
  : outcome * ToiDeaManager * ToiFile :=
  match file with
  | ToiMissing => (NotFound, toi, file)
  | ToiMalformed => (Failed, toi, file)
  | ToiXml d writable =>
      let id := current_id toi + 1 in
      let id := if id >=? 6000 then 0 else id in
      let d' := {| doc_ID := set_text (doc_ID d) (pretty id);
                   doc_CMD := doc_CMD d;
                   doc_IND := set_text (doc_IND d) (pretty reg);
                   doc_VAL := set_text (doc_VAL d) (pretty val) |} in
      if writable
      then (Written,
            {| current_id := id; last_values := <[reg := val]> (last_values toi) |},
            ToiXml d' writable)
      else (Failed, {| current_id := id; last_values := last_values toi |}, file)
  end.

Definition write_register (reg val : Z) (file : ToiFile) (toi : ToiDeaManager)
  : ToiDeaManager * ToiFile :=
  let '(_, toi', file') := write_register_full reg val file toi in (toi', file').

Definition succeeds (reg val : Z) (file : ToiFile) (toi : ToiDeaManager) : Prop :=
  (write_register_full reg val file toi).1.1 = Written.

Definition get_register (reg : Z) (default : Z) (toi : ToiDeaManager) : Z :=
  match last_values toi !! reg with Some v => v | None => default end.

End ToiDea.

(** ** The state shared by the controllers *)

Record World : Type := {
  flags : Flags;
  toi : ToiDeaManager;
  toidea_xml : ToiFile;
  issued : list (Z * Z)    (* every [write_register(reg, val)] call, oldest first *)
}.

Definition init_world (f : Flags) (file : ToiFile) : World :=
  {| flags := f; toi := ToiDea.init; toidea_xml := file; issued := [] |}.

Definition with_flags (f : Flags -> Flags) (w : World) : World :=
  {| flags := f (flags w); toi := toi w; toidea_xml := toidea_xml w; issued := issued w |}.

Definition set_autoconsumo_enabled (enabled : bool) : World -> World :=
  with_flags (fun f =>
    {| autoconsumo_enabled := enabled; service_active := service_active f;
       macchina_allarme := macchina_allarme f; debito_energetico := debito_energetico f;
       sharing_enabled := sharing_enabled f |}).

Definition set_service_active (active : bool) : World -> World :=
  with_flags (fun f =>
    {| autoconsumo_enabled := autoconsumo_enabled f; service_active := active;
       macchina_allarme := macchina_allarme f; debito_energetico := debito_energetico f;
       sharing_enabled := sharing_enabled f |}).

Definition set_debito_energetico (active : bool) : World -> World :=
  with_flags (fun f =>
    {| autoconsumo_enabled := autoconsumo_enabled f; service_active := service_active f;
       macchina_allarme := macchina_allarme f; debito_energetico := active;
       sharing_enabled := sharing_enabled f |}).

Definition set_macchina_allarme (active : bool) : World -> World :=
  with_flags (fun f =>
    {| autoconsumo_enabled := autoconsumo_enabled f; service_active := service_active f;
       macchina_allarme := active; debito_energetico := debito_energetico f;
       sharing_enabled := sharing_enabled f |}).

Definition is_autoconsumo_enabled (w : World) : bool := autoconsumo_enabled (flags w).
Definition is_service_active (w : World) : bool := service_active (flags w).
Definition is_debito_energetico (w : World) : bool := debito_energetico (flags w).
Definition is_macchina_allarme (w : World) : bool := macchina_allarme (flags w).
Definition is_sharing_enabled (w : World) : bool := sharing_enabled (flags w).

(** [self.toi.write_register(reg, val)] from a controller. *)
Definition toi_write (reg val : Z) (w : World) : World :=
  let '(t, f) := ToiDea.write_register reg val (toidea_xml w) (toi w) in
  {| flags := flags w; toi := t; toidea_xml := f; issued := issued w ++ [(reg, val)] |}.

(** The values written to one register, oldest first. *)
Definition writes_to (reg : Z) (w : World) : list Z :=
  map snd (filter (fun rv => rv.1 = reg) (issued w)).

(** The calls a step added to the log. *)
Definition new_calls (before after : World) : list (Z * Z) :=
  drop (length (issued before)) (issued after).

(** ** IdeaNodeControllerUnified: self-consumption and community sharing *)

Module Autocons.

(** The [autoconsumo] section of the configuration, copied by [__init__]. *)
Record Params : Type := {
  param1101_min : Z;
  param1101_max : Z;
  grid_setpoint_1090 : Z;
  grid_deadband : Z;
  step_local : Z;
  step_community : Z;
  bt_loss_factor : Q;
  soc_threshold_community : Z
}.

Definition default_params : Params :=
  {| param1101_min := 70; param1101_max := 6000; grid_setpoint_1090 := 5000;
     grid_deadband := 50; step_local := 20; step_community := 20;
     bt_loss_factor := (1 # 10)%Q; soc_threshold_community := 950 |}.

(** [self.values] *)
Record Values : Type := { v1040 : Q; v1070 : Q; v1090 : Q; v1060 : Q }.

Record t : Type := {
  params : Params;
  current_setpoint_1101 : Z;
  values : Values
}.

Definition init (p : Params) : t :=
  {| params := p; current_setpoint_1101 := param1101_min p;
     values := {| v1040 := 0; v1070 := 0; v1090 := 0; v1060 := 0 |} |}.

Definition set_setpoint (sp : Z) (c : t) : t :=
  {| params := params c; current_setpoint_1101 := sp; values := values c |}.

Definition set_values (v : Values) (c : t) : t :=
  {| params := params c; current_setpoint_1101 := current_setpoint_1101 c; values := v |}.

Section WithFloat.

Variable py_float : string -> option Q.

(** [None] is the method's [False]. *)
Definition _read_local_fromidea (from_local : File) (c : t) : option t :=
  match from_local with
  | NoFile => None
  | Unreadable => None
  | Content xml_text =>
      let get := _get_value_from_tag py_float xml_text in
      Some (set_values {| v1040 := get "1040"%string; v1070 := get "1070"%string;
                          v1090 := get "1090"%string; v1060 := get "1060"%string |} c)
  end.

Definition _read_remote_1090 (from_remote : File) : Q :=
  match from_remote with
  | NoFile => 0%Q
  | Unreadable => 0%Q
  | Content xml_text => _get_value_from_tag py_float xml_text "1090"
  end.

Definition _regolazione_autoconsumo_locale (sensor1090 : Q) (c : t) (w : World)
  : t * World :=
  let p := params c in
  let misura := int_of_float sensor1090 in
  if (misura <? 0) || (misura >? 10000) then (c, w) else
  let errore := grid_setpoint_1090 p - misura in
  let sp := current_setpoint_1101 c in
  let sp := if Z.abs errore <=? grid_deadband p then sp
            else if errore >? 0 then sp + step_local p
            else sp - step_local p in
  let sp := if sp <? param1101_min p then param1101_min p else sp in
  let sp := if sp >? param1101_max p then param1101_max p else sp in
  let w := if (sp >=? param1101_max p)
              && (misura <? grid_setpoint_1090 p - grid_deadband p)
           then set_debito_energetico true w
           else set_debito_energetico false w in
  (set_setpoint sp c, w |> toi_write 1101 sp).

Definition _balance_energy (local1090 remote1090 : Q) (c : t) (w : World)
  : t * World :=
  let p := params c in
  let misura_local := int_of_float local1090 in
  let misura_remote := int_of_float remote1090 in
  if (misura_local <? 0) || (misura_local >? 10000) then (c, w) else
  if (misura_remote <? 0) || (misura_remote >? 10000) then (c, w) else
  if misura_remote >=? grid_setpoint_1090 p then (c, w) else
  let diff_remote := grid_setpoint_1090 p - misura_remote in
  if diff_remote <=? 0 then (c, w) else
  let target_local :=
    (inject_Z (grid_setpoint_1090 p + diff_remote)
     + inject_Z diff_remote * bt_loss_factor p)%Q in
  let errore_local := (target_local - inject_Z misura_local)%Q in
  if leb (Qabs errore_local) (inject_Z (grid_deadband p)) then (c, w) else
  let sp := current_setpoint_1101 c in
  let sp := if ltb 0 errore_local then sp + step_community p
            else sp - step_community p in
  let sp := if sp >? param1101_max p then param1101_max p else sp in
  let sp := if sp <? param1101_min p then param1101_min p else sp in
  (set_setpoint sp c, w |> toi_write 1101 sp).

(** [sharing_active] of [tick]. *)
Definition community_predicate (c : t) (w : World) (remote1090 : Q) : bool :=
  let p := params c in
  let misura1090 := v1090 (values c) in
  let soc1040 := v1040 (values c) in
  let cond_debito := negb (is_debito_energetico w) in
  let cond_soc := leb (inject_Z (soc_threshold_community p)) soc1040 in
  let cond_sharing := is_sharing_enabled w in
  let cond_remote_deficit :=
    ltb 0 remote1090 && ltb remote1090 (inject_Z (grid_setpoint_1090 p)) in
  let cond_locale_ok :=
    leb (inject_Z (grid_setpoint_1090 p - 2 * grid_deadband p)) misura1090 in
  cond_debito && cond_soc && cond_sharing && cond_remote_deficit && cond_locale_ok.

Definition tick (from_local from_remote : File) (c : t) (w : World) : t * World :=
  if negb (is_autoconsumo_enabled w) then (c, w) else
  match _read_local_fromidea from_local c with
  | None => (c, w)
  | Some c =>
      let misura1090 := v1090 (values c) in
      if ltb misura1090 0 || ltb 10000 misura1090 then (c, w) else
      let sharing_ok := is_sharing_enabled w in
      let remote1090 := if sharing_ok then _read_remote_1090 from_remote else 0%Q in
      if community_predicate c w remote1090
      then _balance_energy misura1090 remote1090 c w
      else _regolazione_autoconsumo_locale misura1090 c w
  end.

(** [n] ticks on the same input files. *)
Fixpoint ticks (n : nat) (from_local from_remote : File) (c : t) (w : World)
  : t * World :=
  match n with
  | O => (c, w)
  | S n' =>
      let '(c', w') := tick from_local from_remote c w in
      ticks n' from_local from_remote c' w'
  end.

End WithFloat.

End Autocons.

(** ** BatteryControllerUnified: emergency charge *)

Module Battery.

(** The [meter] and [battery] sections of the configuration, copied by
    [__init__]. *)
Record Params : Type := {
  contatore_prelievo_w : Z;
  contatore_immissione_w : Z;
  emergency_start_soc_dec : Z;
  emergency_stop_soc_dec : Z;
  guardrail_1101_min : Z;
  ibat_low_min : Z;
  ibat_low_max : Z;
  ibat_min : Z;
  ibat_max : Z;
  step_emergency_1101 : Z;
  emergency_1101_max : Z;
  emergency_use_meter : bool;
  emergency_grid_limit_w : Z;
  emergency_grid_hysteresis_w : Z
}.

(** [ConfigManager._default_config], with the [__init__] fallbacks for the
    keys it does not list ([ibat_min], [ibat_max]). *)
Definition default_params : Params :=
  {| contatore_prelievo_w := 3000; contatore_immissione_w := 3000;
     emergency_start_soc_dec := 50; emergency_stop_soc_dec := 400;
     guardrail_1101_min := -2500;
     ibat_low_min := 0; ibat_low_max := 500;
     ibat_min := 5000; ibat_max := 6000;
     step_emergency_1101 := 50; emergency_1101_max := 0;
     emergency_use_meter := true;
     emergency_grid_limit_w := 2800; emergency_grid_hysteresis_w := 100 |}.

Record Values : Type := { v1040 : Q; v1013 : Q; v1090 : Q }.

Record t : Type := {
  params : Params;
  emergency_active : bool;
  values : Values
}.

Definition init (p : Params) : t :=
  {| params := p; emergency_active := false;
     values := {| v1040 := 0; v1013 := 0; v1090 := 0 |} |}.

Definition set_emergency_active (b : bool) (c : t) : t :=
  {| params := params c; emergency_active := b; values := values c |}.

Definition set_values (v : Values) (c : t) : t :=
  {| params := params c; emergency_active := emergency_active c; values := v |}.

(** (P_prelievo, P_immissione) in W from the grid-exchange sensor. *)
Definition _meter_convert_1090_to_power (c : t) (par1090 : Q) : Q * Q :=
  let v := par1090 in
  if leb v 5000 then
    let ratio := ((5000 - v) / 5000)%Q in
    ((ratio * inject_Z (contatore_prelievo_w (params c)))%Q, 0%Q)
  else
    let ratio := ((v - 5000) / 5000)%Q in
    (0%Q, (ratio * inject_Z (contatore_immissione_w (params c)))%Q).

Definition _handle_emergency_charge (c : t) (w : World) : t * World :=
  let p := params c in
  let soc := v1040 (values c) in
  let ibat := v1013 (values c) in
  let par1090 := v1090 (values c) in
  (* entry *)
  let '(c, w) :=
    if negb (emergency_active c)
       && eqb soc (inject_Z (emergency_start_soc_dec p))
       && (leb (inject_Z (ibat_low_min p)) ibat && leb ibat (inject_Z (ibat_low_max p)))
    then (set_emergency_active true c,
          w |> toi_write 1102 1 |> set_autoconsumo_enabled false)
    else (c, w) in
  if negb (emergency_active c) then (c, w) else
  (* exit *)
  if leb (inject_Z (emergency_stop_soc_dec p)) soc then
    (set_emergency_active false c,
     w |> toi_write 1102 3 |> set_autoconsumo_enabled true |> toi_write 1101 0)
  else
  (* regulation from the meter *)
  if negb (emergency_use_meter p) then (c, w) else
  let '(p_pre, p_imm) := _meter_convert_1090_to_power c par1090 in
  let limit := inject_Z (emergency_grid_limit_w p) in
  let hyst := inject_Z (emergency_grid_hysteresis_w p) in
  let current_1101 := ToiDea.get_register 1101 0 (toi w) in
  let step := step_emergency_1101 p in
  let nuovo_1101 :=
    if ltb p_pre (limit - hyst)%Q then Some (current_1101 - step)
    else if ltb (limit + hyst)%Q p_pre then Some (current_1101 + step)
    else None in
  match nuovo_1101 with
  | None => (c, w)
  | Some nuovo_1101 =>
      let nuovo_1101 :=
        if nuovo_1101 <? guardrail_1101_min p then guardrail_1101_min p
        else nuovo_1101 in
      let nuovo_1101 :=
        if nuovo_1101 >? emergency_1101_max p then emergency_1101_max p
        else nuovo_1101 in
      let nuovo_1101 :=
        if ltb (inject_Z (ibat_max p)) ibat
        then Z.max (nuovo_1101 + step) (emergency_1101_max p)
        else nuovo_1101 in
      (c, w |> toi_write 1101 nuovo_1101)
  end.

Section WithFloat.

Variable py_float : string -> option Q.

Definition _read_fromidea (from_local : File) (c : t) : option t :=
  match from_local with
  | NoFile => None
  | Unreadable => None
  | Content xml_text =>
      let get := _get_value_from_tag py_float xml_text in
      Some (set_values {| v1040 := get "1040"%string; v1013 := get "1013"%string;
                          v1090 := get "1090"%string |} c)
  end.

(** The missing-energy report and the meter line are printed only. *)
Definition tick (from_local : File) (c : t) (w : World) : t * World :=
  match _read_fromidea from_local c with
  | None => (c, w)
  | Some c =>
      if is_service_active w then (c, w)
      else _handle_emergency_charge c w
  end.

End WithFloat.

End Battery.

(** ** Scheduled services

    [now], [event_start] and [event_end] are [datetime] values, counted in
    microseconds. *)

Inductive ServiceState : Type :=
| INIT | PRE_DISCHARGE | PRE_CHARGE | WAIT_EVENT | EVENT_ACTIVE | DONE.

Definition state_eqb (a b : ServiceState) : bool :=
  match a, b with
  | INIT, INIT | PRE_DISCHARGE, PRE_DISCHARGE | PRE_CHARGE, PRE_CHARGE
  | WAIT_EVENT, WAIT_EVENT | EVENT_ACTIVE, EVENT_ACTIVE | DONE, DONE => true
  | _, _ => false
  end.

(** The attributes the four service classes share. *)
Record Service : Type := {
  state : ServiceState;
  active : bool;
  event_start : Z;
  event_end : Z;
  soc_1040 : Q;            (* [self.values["1040"]] *)
  target_soc_high_dec : Z; (* DSO discharge, trading charge *)
  min_soc_dec : Z;         (* DSO discharge *)
  target_min_soc_dec : Z   (* trading discharge *)
}.

Definition set_state (s : ServiceState) (c : Service) : Service :=
  {| state := s; active := active c; event_start := event_start c;
     event_end := event_end c; soc_1040 := soc_1040 c;
     target_soc_high_dec := target_soc_high_dec c; min_soc_dec := min_soc_dec c;
     target_min_soc_dec := target_min_soc_dec c |}.

Definition set_soc (v : Q) (c : Service) : Service :=
  {| state := state c; active := active c; event_start := event_start c;
     event_end := event_end c; soc_1040 := v;
     target_soc_high_dec := target_soc_high_dec c; min_soc_dec := min_soc_dec c;
     target_min_soc_dec := target_min_soc_dec c |}.

(** A service as [__init__] leaves it when it finds a program for today. *)
Definition activated (start_ end_ high low part : Z) : Service :=
  {| state := INIT; active := true; event_start := start_; event_end := end_;
     soc_1040 := 0; target_soc_high_dec := high; min_soc_dec := low;
     target_min_soc_dec := part |}.

Section Services.

Variable py_float : string -> option Q.

(** [_read_fromidea] of the four classes ([1013] is read for a log line
    only). *)
Definition service_read_fromidea (from_local : File) (c : Service) : option Service :=
  match from_local with
  | NoFile => None
  | Unreadable => None
  | Content txt => Some (set_soc (_get_value_from_tag py_float txt "1040") c)
  end.

(** *** CaricaForzataDSOUnified *)

Definition dso_carica_finish_event (w : World) : World :=
  w |> toi_write 1102 3 |> set_autoconsumo_enabled true |> set_service_active false.

Definition dso_carica_tick (now : Z) (from_local : File) (c : Service) (w : World)
  : Service * World :=
  if negb (active c) then (c, w) else
  if (now >=? event_end c) && negb (state_eqb (state c) DONE) then
    (set_state DONE c, dso_carica_finish_event w)
  else
  match service_read_fromidea from_local c with
  | None => (c, w)
  | Some c =>
      let soc := soc_1040 c in
      if now <? event_start c then
        if ltb 50 soc then
          (set_state PRE_DISCHARGE c,
           w |> set_autoconsumo_enabled false |> toi_write 1102 3 |> toi_write 1101 6000)
        else if negb (state_eqb (state c) WAIT_EVENT) then
          (set_state WAIT_EVENT c,
           w |> toi_write 1102 0 |> set_autoconsumo_enabled true)
        else (c, w)
      else if (event_start c <=? now) && (now <? event_end c) then
        (set_state EVENT_ACTIVE c,
         w |> set_autoconsumo_enabled false |> toi_write 1102 1 |> toi_write 1101 (-6000))
      else (c, w)
  end.

(** *** ScaricaForzataDSOUnified *)

Definition dso_scarica_finish_event (w : World) : World :=
  w |> toi_write 1102 3 |> toi_write 1101 0
    |> set_autoconsumo_enabled true |> set_service_active false.

Definition dso_scarica_tick (now : Z) (from_local : File) (c : Service) (w : World)
  : Service * World :=
  if negb (active c) then (c, w) else
  if (now >=? event_end c) && negb (state_eqb (state c) DONE) then
    (set_state DONE c, dso_scarica_finish_event w)
  else
  match service_read_fromidea from_local c with
  | None => (c, w)
  | Some c =>
      let soc := soc_1040 c in
      if now <? event_start c then
        if ltb soc (inject_Z (target_soc_high_dec c)) then
          (set_state PRE_CHARGE c,
           w |> set_autoconsumo_enabled false |> toi_write 1102 1 |> toi_write 1101 (-6000))
        else if negb (state_eqb (state c) WAIT_EVENT) then
          (set_state WAIT_EVENT c,
           w |> toi_write 1102 0 |> set_autoconsumo_enabled true)
        else (c, w)
      else if (event_start c <=? now) && (now <? event_end c) then
        let w := w |> set_autoconsumo_enabled false in
        if ltb (inject_Z (min_soc_dec c)) soc then
          (set_state EVENT_ACTIVE c, w |> toi_write 1102 3 |> toi_write 1101 6000)
        else
          (set_state EVENT_ACTIVE c, w |> toi_write 1101 0)
      else (c, w)
  end.

(** *** TradingScaricaUnified *)

Definition trading_scarica_finish_event (w : World) : World :=
  w |> toi_write 1102 3 |> toi_write 1101 0
    |> set_autoconsumo_enabled true |> set_service_active false.

Definition trading_scarica_tick (now : Z) (from_local : File) (c : Service) (w : World)
  : Service * World :=
  if negb (active c) then (c, w) else
  if (now >=? event_end c) && negb (state_eqb (state c) DONE) then
    (set_state DONE c, trading_scarica_finish_event w)
  else
  match service_read_fromidea from_local c with
  | None => (c, w)
  | Some c =>
      let soc := soc_1040 c in
      if now <? event_start c then (set_state WAIT_EVENT c, w)
      else if (event_start c <=? now) && (now <? event_end c) then
        let w := w |> set_autoconsumo_enabled false in
        if ltb (inject_Z (target_min_soc_dec c)) soc then
          (set_state EVENT_ACTIVE c, w |> toi_write 1102 3 |> toi_write 1101 6000)
        else
          (set_state EVENT_ACTIVE c, w |> toi_write 1101 0)
      else (c, w)
  end.

(** *** TradingCaricaUnified *)

Definition trading_carica_finish_event (w : World) : World :=
  w |> toi_write 1102 3 |> toi_write 1101 0
    |> set_autoconsumo_enabled true |> set_service_active false.

Definition trading_carica_tick (now : Z) (from_local : File) (c : Service) (w : World)
  : Service * World :=
  if negb (active c) then (c, w) else
  if (now >=? event_end c) && negb (state_eqb (state c) DONE) then
    (set_state DONE c, trading_carica_finish_event w)
  else
  match service_read_fromidea from_local c with
  | None => (c, w)
  | Some c =>
      let soc := soc_1040 c in
      if now <? event_start c then (set_state WAIT_EVENT c, w)
      else if (event_start c <=? now) && (now <? event_end c) then
        if ltb soc (inject_Z (target_soc_high_dec c)) then
          (set_state EVENT_ACTIVE c,
           w |> set_autoconsumo_enabled false |> toi_write 1102 1 |> toi_write 1101 (-6000))
        else
          (set_state EVENT_ACTIVE c, w |> toi_write 1101 0)
      else (c, w)
  end.

End Services.

(** The four services, by name. *)
Inductive ServiceKind : Type :=
| DsoCarica | DsoScarica | TradingScarica | TradingCarica.

Definition finish_event (k : ServiceKind) : World -> World :=
  match k with
  | DsoCarica => dso_carica_finish_event
  | DsoScarica => dso_scarica_finish_event
  | TradingScarica => trading_scarica_finish_event
  | TradingCarica => trading_carica_finish_event
  end.

Definition service_tick (py_float : string -> option Q) (k : ServiceKind)
  : Z -> File -> Service -> World -> Service * World :=
  match k with
  | DsoCarica => dso_carica_tick py_float
  | DsoScarica => dso_scarica_tick py_float
  | TradingScarica => trading_scarica_tick py_float
  | TradingCarica => trading_carica_tick py_float
  end.

(** ** MachineStateResetUnified: the reset watchdog *)

Module Reset.

Record t : Type := {
  reset_attempts : Z;
  max_attempts : Z;
  alarm_active : bool;
  v1070 : Q               (* [self.values["1070"]] *)
}.

Definition init : t :=
  {| reset_attempts := 0; max_attempts := 5; alarm_active := false; v1070 := 0 |}.

Definition set_reset_attempts (n : Z) (c : t) : t :=
  {| reset_attempts := n; max_attempts := max_attempts c;
     alarm_active := alarm_active c; v1070 := v1070 c |}.

Definition set_alarm_active (b : bool) (c : t) : t :=
  {| reset_attempts := reset_attempts c; max_attempts := max_attempts c;
     alarm_active := b; v1070 := v1070 c |}.

Definition set_v1070 (v : Q) (c : t) : t :=
  {| reset_attempts := reset_attempts c; max_attempts := max_attempts c;
     alarm_active := alarm_active c; v1070 := v |}.

Definition _write_alarm_message (active : bool) : World -> World :=
  set_macchina_allarme active.

(** The body of [tick] once register 1070 has been read. *)
Definition tick_stato (stato : Z) (c : t) (w : World) : t * World :=
  if stato =? 2 then
    let c := set_reset_attempts 0 c in
    if alarm_active c
    then (set_alarm_active false c, w |> _write_alarm_message false)
    else (c, w)
  else if (stato =? 0) || (stato =? 1) then
    if alarm_active c then (c, w)
    else if reset_attempts c <? max_attempts c then
      (set_reset_attempts (reset_attempts c + 1) c, w |> toi_write 1103 10)
    else
      (set_alarm_active true c, w |> _write_alarm_message true)
  else (c, w).

Section WithFloat.

Variable py_float : string -> option Q.

Definition _read_state_1070 (from_local : File) (c : t) : option t :=
  match from_local with
  | NoFile => None
  | Unreadable => None
  | Content xml_text => Some (set_v1070 (_get_value_from_tag py_float xml_text "1070") c)
  end.

Definition tick (from_local : File) (c : t) (w : World) : t * World :=
  match _read_state_1070 from_local c with
  | None => (c, w)
  | Some c => tick_stato (int_of_float (v1070 c)) c w
  end.

(** One tick per snapshot of the list. *)
Fixpoint run (snapshots : list File) (c : t) (w : World) : t * World :=
  match snapshots with
  | [] => (c, w)
  | f :: rest => let '(c', w') := tick f c w in run rest c' w'
  end.

End WithFloat.

End Reset.

(** ** controllo_reset_macchina.py: the stand-alone watchdog

    [MachineStateResetService] keeps its own command ID and writes ToiDea.xml
    and the alarm file itself. *)

Module LegacyReset.

Record t : Type := {
  current_id : Z;
  reset_attempts : Z;
  max_attempts : Z;
  alarm_active : bool;
  v1070 : Q
}.

(** The files the script writes, and its [update_toi_dea] calls. *)
Record Disk : Type := {
  to_file : ToiFile;
  alarm_file : option string;
  alarm_writable : bool;       (* [open(alarm_file_path, "w")] succeeds *)
  sent : list (Z * Z)
}.

Definition init : t :=
  {| current_id := 0; reset_attempts := 0; max_attempts := 5;
     alarm_active := false; v1070 := 0 |}.

Definition update_toi_dea (ind_value val_value : Z) (c : t) (d : Disk) : t * Disk :=
  let log := sent d ++ [(ind_value, val_value)] in
  match to_file d with
  | ToiXml doc writable =>
      let id := current_id c + 1 in
      let id := if id >=? 6000 then 0 else id in
      let doc' := {| doc_ID := ToiDea.set_text (doc_ID doc) (pretty id);
                     doc_CMD := doc_CMD doc;
                     doc_IND := ToiDea.set_text (doc_IND doc) (pretty ind_value);
                     doc_VAL := ToiDea.set_text (doc_VAL doc) (pretty val_value) |} in
      ({| current_id := id; reset_attempts := reset_attempts c;
          max_attempts := max_attempts c; alarm_active := alarm_active c;
          v1070 := v1070 c |},
       {| to_file := if writable then ToiXml doc' writable else to_file d;
          alarm_file := alarm_file d; alarm_writable := alarm_writable d; sent := log |})
  | _ =>
      (c, {| to_file := to_file d; alarm_file := alarm_file d;
             alarm_writable := alarm_writable d; sent := log |})
  end.

Definition write_alarm_message (active : bool) (d : Disk) : Disk :=
  if alarm_writable d then
    {| to_file := to_file d;
       alarm_file := Some (if active then "MACCHINA IN ALLARME" else "MACCHINA OK")%string;
       alarm_writable := alarm_writable d; sent := sent d |}
  else d.

Definition set_reset_attempts (n : Z) (c : t) : t :=
  {| current_id := current_id c; reset_attempts := n; max_attempts := max_attempts c;
     alarm_active := alarm_active c; v1070 := v1070 c |}.

Definition set_alarm_active (b : bool) (c : t) : t :=
  {| current_id := current_id c; reset_attempts := reset_attempts c;
     max_attempts := max_attempts c; alarm_active := b; v1070 := v1070 c |}.

Definition set_v1070 (v : Q) (c : t) : t :=
  {| current_id := current_id c; reset_attempts := reset_attempts c;
     max_attempts := max_attempts c; alarm_active := alarm_active c; v1070 := v |}.

(** The body of [tick] once register 1070 has been read. *)
Definition tick_stato (stato : Z) (c : t) (d : Disk) : t * Disk :=
  if stato =? 2 then
    let c := set_reset_attempts 0 c in
    if alarm_active c
    then (set_alarm_active false c, write_alarm_message false d)
    else (c, d)
  else if (stato =? 0) || (stato =? 1) then
    if alarm_active c then (c, d)
    else if reset_attempts c <? max_attempts c then
      update_toi_dea 1103 10 (set_reset_attempts (reset_attempts c + 1) c) d
    else
      (set_alarm_active true c, write_alarm_message true d)
  else (c, d).

Section WithFloat.

Variable py_float : string -> option Q.

Definition read_state_1070 (from_file : File) (c : t) : option t :=
  match from_file with
  | NoFile => None
  | Unreadable => None
  | Content xml_text => Some (set_v1070 (_get_value_from_tag py_float xml_text "1070") c)
  end.

Definition tick (from_file : File) (c : t) (d : Disk) : t * Disk :=
  match read_state_1070 from_file c with
  | None => (c, d)
  | Some c => tick_stato (int_of_float (v1070 c)) c d
  end.

(** One tick per snapshot of the list. *)
Fixpoint run (snapshots : list File) (c : t) (d : Disk) : t * Disk :=
  match snapshots with
  | [] => (c, d)
  | f :: rest => let '(c', d') := tick f c d in run rest c' d'
  end.

End WithFloat.

End LegacyReset.

(** ** IdeaUnifiedApp: the scheduler *)

Record App : Type := {
  autocons : Autocons.t;
  batt : Battery.t;
  reset : Reset.t;
  dso_carica : Service;
  dso_scarica : Service;
  trading_scarica : Service;
  trading_carica : Service
}.

Definition set_autocons (c : Autocons.t) (a : App) : App :=
  {| autocons := c; batt := batt a; reset := reset a; dso_carica := dso_carica a;
     dso_scarica := dso_scarica a; trading_scarica := trading_scarica a;
     trading_carica := trading_carica a |}.

Definition set_batt (c : Battery.t) (a : App) : App :=
  {| autocons := autocons a; batt := c; reset := reset a; dso_carica := dso_carica a;
     dso_scarica := dso_scarica a; trading_scarica := trading_scarica a;
     trading_carica := trading_carica a |}.

Definition set_reset (c : Reset.t) (a : App) : App :=
  {| autocons := autocons a; batt := batt a; reset := c; dso_carica := dso_carica a;
     dso_scarica := dso_scarica a; trading_scarica := trading_scarica a;
     trading_carica := trading_carica a |}.

Definition set_dso_carica (c : Service) (a : App) : App :=
  {| autocons := autocons a; batt := batt a; reset := reset a; dso_carica := c;
     dso_scarica := dso_scarica a; trading_scarica := trading_scarica a;
     trading_carica := trading_carica a |}.

Definition set_dso_scarica (c : Service) (a : App) : App :=
  {| autocons := autocons a; batt := batt a; reset := reset a; dso_carica := dso_carica a;
     dso_scarica := c; trading_scarica := trading_scarica a;
     trading_carica := trading_carica a |}.

Definition set_trading_scarica (c : Service) (a : App) : App :=
  {| autocons := autocons a; batt := batt a; reset := reset a; dso_carica := dso_carica a;
     dso_scarica := dso_scarica a; trading_scarica := c;
     trading_carica := trading_carica a |}.

Definition set_trading_carica (c : Service) (a : App) : App :=
  {| autocons := autocons a; batt := batt a; reset := reset a; dso_carica := dso_carica a;
     dso_scarica := dso_scarica a; trading_scarica := trading_scarica a;
     trading_carica := c |}.

(** The keys of [intervals] and [next_run]. *)
Inductive Job : Type :=
| job_cfg_reload | job_autocons | job_batt | job_reset
| job_dso_carica | job_dso_scarica | job_trading_scarica | job_trading_carica.

Definition job_eqb (j j' : Job) : bool :=
  match j, j' with
  | job_cfg_reload, job_cfg_reload | job_autocons, job_autocons
  | job_batt, job_batt | job_reset, job_reset
  | job_dso_carica, job_dso_carica | job_dso_scarica, job_dso_scarica
  | job_trading_scarica, job_trading_scarica
  | job_trading_carica, job_trading_carica => true
  | _, _ => false
  end.

(** [intervals], in seconds. *)
Definition intervals (j : Job) : Q :=
  match j with
  | job_cfg_reload => 1
  | job_autocons => 1 # 2
  | job_batt => 5
  | job_reset => 30
  | job_dso_carica | job_dso_scarica | job_trading_scarica | job_trading_carica => 5
  end.

(** [next_run], in seconds of [time.time()]. *)
Definition NextRun : Type := Job -> Q.

(** [now >= next_run[j]] *)
Definition due (now : Q) (n : NextRun) (j : Job) : bool := leb (n j) now.

(** [next_run[j] = now + intervals[j]] *)
Definition rearm (now : Q) (j : Job) (n : NextRun) : NextRun :=
  fun j' => if job_eqb j' j then (now + intervals j)%Q else n j'.

(** What one pass of the loop sees of the outside. *)
Record Env : Type := {
  time_now : Q;              (* [time.time()] *)
  datetime_now : Z;          (* [datetime.now()], one reading per pass *)
  from_local : File;         (* FromiDea.xml *)
  from_remote : File;        (* FromiDea_remoto.xml *)
  cfg_changed : option Flags (* the flags of the JSON, when its mtime changed *)
}.

Section Scheduler.

Variable py_float : string -> option Q.

(** The controllers copy their parameters when they are built, so a reload
    only shows in the flags. *)
Definition reload_if_changed (e : Env) (w : World) : World :=
  match cfg_changed e with
  | Some f => with_flags (fun _ => f) w
  | None => w
  end.

(** One pass of the [while True] body. *)
Definition loop_body (e : Env) (s : App * NextRun * World) : App * NextRun * World :=
  let '(a, n, w) := s in
  let now := time_now e in
  let '(a, n, w) :=
    if due now n job_cfg_reload
    then (a, rearm now job_cfg_reload n, reload_if_changed e w)
    else (a, n, w) in
  let '(a, n, w) :=
    if due now n job_autocons then
      let '(c, w) := Autocons.tick py_float (from_local e) (from_remote e) (autocons a) w in
      (set_autocons c a, rearm now job_autocons n, w)
    else (a, n, w) in
  let '(a, n, w) :=
    if due now n job_batt then
      let '(c, w) := Battery.tick py_float (from_local e) (batt a) w in
      (set_batt c a, rearm now job_batt n, w)
    else (a, n, w) in
  let '(a, n, w) :=
    if due now n job_reset then
      let '(c, w) := Reset.tick py_float (from_local e) (reset a) w in
      (set_reset c a, rearm now job_reset n, w)
    else (a, n, w) in
  let '(a, n, w) :=
    if active (dso_carica a) && due now n job_dso_carica then
      let '(c, w) :=
        dso_carica_tick py_float (datetime_now e) (from_local e) (dso_carica a) w in
      (set_dso_carica c a, rearm now job_dso_carica n, w)
    else (a, n, w) in
  let '(a, n, w) :=
    if active (dso_scarica a) && due now n job_dso_scarica then
      let '(c, w) :=
        dso_scarica_tick py_float (datetime_now e) (from_local e) (dso_scarica a) w in
      (set_dso_scarica c a, rearm now job_dso_scarica n, w)
    else (a, n, w) in
  let '(a, n, w) :=
    if active (trading_scarica a) && due now n job_trading_scarica then
      let '(c, w) :=
        trading_scarica_tick py_float (datetime_now e) (from_local e)
          (trading_scarica a) w in
      (set_trading_scarica c a, rearm now job_trading_scarica n, w)
    else (a, n, w) in
  if active (trading_carica a) && due now n job_trading_carica then
    let '(c, w) :=
      trading_carica_tick py_float (datetime_now e) (from_local e)
        (trading_carica a) w in
    (set_trading_carica c a, rearm now job_trading_carica n, w)
  else (a, n, w).

End Scheduler.

(** The [finally] clause of [run_forever]. *)
Definition run_forever_finally (w : World) : World :=
  w |> set_service_active false.

(** [run_forever], interrupted (Ctrl-C) after the passes of [envs]:
    every [next_run] entry starts at the time of the first pass. *)
Definition run_forever (py_float : string -> option Q) (envs : list Env)
  (a : App) (w : World) : App * World :=
  let t0 := match envs with e :: _ => time_now e | [] => 0%Q end in
  let '(a, _, w) :=
    fold_left (fun s e => loop_body py_float e s) envs (a, fun _ => t0, w) in
  (a, run_forever_finally w).

(** ** idea_server.py: the bus server

    [time.time()] is a rational number of seconds. *)

Module Server.

(** The keys of the YAML configuration that the modelled functions read. *)
Record Cfg : Type := {
  foreign_window_s : Q;
  foreign_threshold : Z;
  verify_writes : bool;
  write_retries : Z;
  writer_commit_register : Z;
  writer_commit_value : Z;
  retry_backoff_ms : Q;
  writer_sleep_ms : Q
}.

(** The fallbacks of the [CFG.get] calls. *)
Definition default_cfg : Cfg :=
  {| foreign_window_s := 10; foreign_threshold := 3; verify_writes := true;
     write_retries := 3; writer_commit_register := 0; writer_commit_value := 1;
     retry_backoff_ms := 80; writer_sleep_ms := 200 |}.

(** [WriteCmd]: [{"ID", "CMD", "IND", "VAL"}] *)
Record WriteCmd : Type := {
  cmd_ID : string;
  cmd_CMD : string;
  cmd_IND : Z;
  cmd_VAL : Z
}.

Record Stats : Type := {
  read_ok : Z; read_err : Z; write_ok : Z; write_err : Z; resyncs : Z
}.

Inductive LogLine : Type :=
| LogAlert                         (* [ALERT] possible second master *)
| LogWriterErr (msg : string)      (* [WRITER ERR] msg *)
| LogReadBackOk                    (* [WRITER] confirmed by read-back *)
| LogReadBackFailed                (* [WRITER WARN] read-back failed *)
| LogExecuted (id : string)        (* [WRITER] executed ID=... *)
| LogNotExecuted (id : string)     (* [WRITER ERR] not executed ID=... *)
| LogInvalidCmd (cmd : string)     (* [WRITER] CMD not valid *)
| LogWatchErr.                     (* [WRITER WATCH ERR] *)

(** The module globals. *)
Record Globals : Type := {
  STATS : Stats;
  LAST_WRITER_ID : string;
  FOREIGN_TIMES : list Q;          (* [deque(maxlen=100)] *)
  FOREIGN_FRAMES_TOTAL : Z;
  FOREIGN_ALERT : Z;
  FOREIGN_LAST_ISO : option Q;     (* the instant of [now_iso()]; [None] is the empty text *)
  PENDING_CMD : option WriteCmd;
  LAST_TOIDEA_ID : string;
  console : list LogLine           (* what was printed, oldest first *)
}.

Definition init : Globals :=
  {| STATS := {| read_ok := 0; read_err := 0; write_ok := 0; write_err := 0; resyncs := 0 |};
     LAST_WRITER_ID := ""; FOREIGN_TIMES := []; FOREIGN_FRAMES_TOTAL := 0;
     FOREIGN_ALERT := 0; FOREIGN_LAST_ISO := None; PENDING_CMD := None;
     LAST_TOIDEA_ID := ""; console := [] |}.

Definition print (l : LogLine) (s : Globals) : Globals :=
  {| STATS := STATS s; LAST_WRITER_ID := LAST_WRITER_ID s;
     FOREIGN_TIMES := FOREIGN_TIMES s; FOREIGN_FRAMES_TOTAL := FOREIGN_FRAMES_TOTAL s;
     FOREIGN_ALERT := FOREIGN_ALERT s; FOREIGN_LAST_ISO := FOREIGN_LAST_ISO s;
     PENDING_CMD := PENDING_CMD s; LAST_TOIDEA_ID := LAST_TOIDEA_ID s;
     console := console s ++ [l] |}.

Definition set_pending (c : option WriteCmd) (s : Globals) : Globals :=
  {| STATS := STATS s; LAST_WRITER_ID := LAST_WRITER_ID s;
     FOREIGN_TIMES := FOREIGN_TIMES s; FOREIGN_FRAMES_TOTAL := FOREIGN_FRAMES_TOTAL s;
     FOREIGN_ALERT := FOREIGN_ALERT s; FOREIGN_LAST_ISO := FOREIGN_LAST_ISO s;
     PENDING_CMD := c; LAST_TOIDEA_ID := LAST_TOIDEA_ID s; console := console s |}.

Definition set_last_toidea_id (id : string) (s : Globals) : Globals :=
  {| STATS := STATS s; LAST_WRITER_ID := LAST_WRITER_ID s;
     FOREIGN_TIMES := FOREIGN_TIMES s; FOREIGN_FRAMES_TOTAL := FOREIGN_FRAMES_TOTAL s;
     FOREIGN_ALERT := FOREIGN_ALERT s; FOREIGN_LAST_ISO := FOREIGN_LAST_ISO s;
     PENDING_CMD := PENDING_CMD s; LAST_TOIDEA_ID := id; console := console s |}.

Definition set_last_writer_id (id : string) (s : Globals) : Globals :=
  {| STATS := STATS s; LAST_WRITER_ID := id;
     FOREIGN_TIMES := FOREIGN_TIMES s; FOREIGN_FRAMES_TOTAL := FOREIGN_FRAMES_TOTAL s;
     FOREIGN_ALERT := FOREIGN_ALERT s; FOREIGN_LAST_ISO := FOREIGN_LAST_ISO s;
     PENDING_CMD := PENDING_CMD s; LAST_TOIDEA_ID := LAST_TOIDEA_ID s;
     console := console s |}.

Definition set_stats (st : Stats) (s : Globals) : Globals :=
  {| STATS := st; LAST_WRITER_ID := LAST_WRITER_ID s;
     FOREIGN_TIMES := FOREIGN_TIMES s; FOREIGN_FRAMES_TOTAL := FOREIGN_FRAMES_TOTAL s;
     FOREIGN_ALERT := FOREIGN_ALERT s; FOREIGN_LAST_ISO := FOREIGN_LAST_ISO s;
     PENDING_CMD := PENDING_CMD s; LAST_TOIDEA_ID := LAST_TOIDEA_ID s;
     console := console s |}.

Definition bump_write_ok (s : Globals) : Globals :=
  set_stats {| read_ok := read_ok (STATS s); read_err := read_err (STATS s);
               write_ok := write_ok (STATS s) + 1; write_err := write_err (STATS s);
               resyncs := resyncs (STATS s) |} s.

Definition bump_write_err (s : Globals) : Globals :=
  set_stats {| read_ok := read_ok (STATS s); read_err := read_err (STATS s);
               write_ok := write_ok (STATS s); write_err := write_err (STATS s) + 1;
               resyncs := resyncs (STATS s) |} s.

(** *** Foreign-master detection *)

(** [deque.append] on a deque with [maxlen]: a full deque drops its
    leftmost entry. *)
Definition deque_append (maxlen : nat) (x : Q) (d : list Q) : list Q :=
  if (length d <? maxlen)%nat then d ++ [x] else tl d ++ [x].

(** [while d and t - d[0] > window: d.popleft()] *)
Fixpoint popleft_older (t window : Q) (d : list Q) : list Q :=
  match d with
  | [] => []
  | x :: r => if ltb window (t - x) then popleft_older t window r else d
  end.

(** [note_foreign()], called at the instant [t]. *)
Definition note_foreign (cfg : Cfg) (t : Q) (s : Globals) : Globals :=
  let times := deque_append 100 t (FOREIGN_TIMES s) in
  let times := popleft_older t (foreign_window_s cfg) times in
  let alert := if Z.of_nat (length times) >=? foreign_threshold cfg then 1 else 0 in
  let s := {| STATS := STATS s; LAST_WRITER_ID := LAST_WRITER_ID s;
              FOREIGN_TIMES := times;
              FOREIGN_FRAMES_TOTAL := FOREIGN_FRAMES_TOTAL s + 1;
              FOREIGN_ALERT := alert; FOREIGN_LAST_ISO := Some t;
              PENDING_CMD := PENDING_CMD s; LAST_TOIDEA_ID := LAST_TOIDEA_ID s;
              console := console s |} in
  if alert =? 0 then s else print LogAlert s.

(** What the bus worker meets, in time order: a reply with an unexpected
    function code, or a poll cycle without one. *)
Inductive BusEvent : Type :=
| ForeignFrame (t : Q)
| QuietPoll (t : Q).

Definition on_event (cfg : Cfg) (s : Globals) (e : BusEvent) : Globals :=
  match e with
  | ForeignFrame t => note_foreign cfg t s
  | QuietPoll _ => s
  end.

Definition run_events (cfg : Cfg) (evs : list BusEvent) (s : Globals) : Globals :=
  fold_left (on_event cfg) evs s.

(** The [FOREIGN_ALERT] entry that [write_fromidea] publishes. *)
Definition published_alert (s : Globals) : string :=
  if FOREIGN_ALERT s =? 0 then "0" else "1".

(** Is the instant [x] within the window that ends at [t]? *)
Definition in_window (cfg : Cfg) (t x : Q) : bool :=
  negb (ltb (foreign_window_s cfg) (t - x)).

(** *** The ToiDea watcher *)

Section Watcher.

(** Python's [int(str)]: [None] when it raises [ValueError]. *)
Variable py_int : string -> option Z.

(** [root.findtext(tag) or ""] *)
Definition text_or_empty (node : option string) : string :=
  match node with Some txt => txt | None => "" end.

(** [int(root.findtext(tag, 0))] *)
Definition int_field (node : option string) : result Z :=
  match node with
  | None => Ok 0
  | Some txt =>
      match py_int txt with
      | Some n => Ok n
      | None => Raise ValueError
      end
  end.

(** The [try] block of one pass of the [while True] loop. *)
Definition toidea_watcher_try (file : ToiFile) (s : Globals) : result Globals :=
  match file with
  | ToiMissing => Ok s
  | ToiMalformed => Raise ParseError
  | ToiXml d _ =>
      let cid := strip (text_or_empty (doc_ID d)) in
      if (cid =? "")%string || (cid =? LAST_TOIDEA_ID s)%string then Ok s else
      let cmd := strip (text_or_empty (doc_CMD d)) in
      match int_field (doc_IND d) with
      | Raise e => Raise e
      | Ok ind =>
          match int_field (doc_VAL d) with
          | Raise e => Raise e
          | Ok val =>
              if negb ((cmd =? "07")%string || (cmd =? "09")%string) then
                Ok (s |> print (LogInvalidCmd cmd) |> set_last_toidea_id cid)
              else
                Ok (s |> set_pending (Some {| cmd_ID := cid; cmd_CMD := cmd;
                                               cmd_IND := ind; cmd_VAL := val |})
                      |> set_last_toidea_id cid)
          end
      end
  end.

(** One pass, with the [except Exception] handler. *)
Definition toidea_watcher (file : ToiFile) (s : Globals) : Globals :=
  match toidea_watcher_try file s with
  | Ok s' => s'
  | Raise _ => print LogWatchErr s
  end.

(** Does a pass on this file reach the inbox code with a fresh ID? *)
Definition processes (file : ToiFile) (s : Globals) : bool :=
  match file with
  | ToiXml d _ =>
      let cid := strip (text_or_empty (doc_ID d)) in
      negb ((cid =? "")%string || (cid =? LAST_TOIDEA_ID s)%string)
  | ToiMalformed => true
  | ToiMissing => false
  end.

End Watcher.

(** *** The write phase of the I/O worker *)

Section Writer.

(** The serial line and the clock.  An operation returns [inl msg] when
    it raises an exception whose text is [msg]. *)
Context {Wire : Type}.
Variable write_reg : Z -> Z -> Wire -> (string + unit) * Wire.
Variable read_regs : Z -> Z -> Wire -> (string + option (list Z)) * Wire.
Variable sleep : Q -> Wire -> Wire.
Variable time : Wire -> Q.

Variable cfg : Cfg.

(** The inner [try]: the write and, for command [09], the commit. *)
Definition try_write (cmd : WriteCmd) (b : Wire) : (string + unit) * Wire :=
  match write_reg (cmd_IND cmd) (cmd_VAL cmd) b with
  | (inl msg, b) => (inl msg, b)
  | (inr _, b) =>
      if (cmd_CMD cmd =? "09")%string && (writer_commit_register cfg >? 0)
      then write_reg (writer_commit_register cfg) (writer_commit_value cfg) b
      else (inr tt, b)
  end.

Definition backoff (b : Wire) : Wire :=
  sleep (retry_backoff_ms cfg / 1000)%Q b.

(** The read-back after a failed write; [true] when it confirms. *)
Definition read_back (cmd : WriteCmd) (s : Globals) (b : Wire)
  : bool * Globals * Wire :=
  match read_regs (cmd_IND cmd) 1 b with
  | (inr (Some (v :: _)), b) =>
      if v =? cmd_VAL cmd then (true, print LogReadBackOk s, b)
      else (false, s, backoff b)
  | (inr (Some []), b) => (false, print LogReadBackFailed s, backoff b)
  | (inr None, b) => (false, s, backoff b)
  | (inl _, b) => (false, print LogReadBackFailed s, backoff b)
  end.

(** [while attempts < w_retries and not ok], with [left] passes left. *)
Fixpoint write_loop (left : nat) (cmd : WriteCmd) (attempts : Z)
  (s : Globals) (b : Wire) : bool * Z * Globals * Wire :=
  match left with
  | O => (false, attempts, s, b)
  | S left' =>
      let attempts := attempts + 1 in
      match try_write cmd b with
      | (inr _, b) => (true, attempts, s, b)
      | (inl msg, b) =>
          let s := print (LogWriterErr msg) s in
          let s :=
            if contains "Wrong functioncode" msg || contains "functioncode" msg
            then note_foreign cfg (time b) s else s in
          if verify_writes cfg then
            let '(ok, s, b) := read_back cmd s b in
            if ok then (true, attempts, s, b)
            else write_loop left' cmd attempts s b
          else write_loop left' cmd attempts s (backoff b)
      end
  end.

(** Step 1 of a pass of [io_worker]: take the pending command and write
    it.  The result also tells how many attempts were made. *)
Definition io_worker_write (s : Globals) (b : Wire) : Z * Globals * Wire :=
  match PENDING_CMD s with
  | None => (0, s, b)
  | Some cmd =>
      let s := set_pending None s in
      let '(ok, attempts, s, b) :=
        write_loop (Z.to_nat (write_retries cfg)) cmd 0 s b in
      if ok then
        (attempts,
         s |> set_last_writer_id (cmd_ID cmd) |> bump_write_ok
           |> print (LogExecuted (cmd_ID cmd)), b)
      else
        (attempts, s |> bump_write_err |> print (LogNotExecuted (cmd_ID cmd)), b)
  end.

End Writer.

(** A scripted line for the worked examples: the replies to the coming
    writes and reads, and a clock that only sleeping advances. *)
Record Script : Type := {
  write_replies : list (string + unit);
  read_replies : list (string + option (list Z));
  clock : Q
}.

Definition script_write (_ _ : Z) (b : Script) : (string + unit) * Script :=
  match write_replies b with
  | [] => (inl "No communication with the instrument"%string, b)
  | r :: rest =>
      (r, {| write_replies := rest; read_replies := read_replies b; clock := clock b |})
  end.

Definition script_read (_ _ : Z) (b : Script) : (string + option (list Z)) * Script :=
  match read_replies b with
  | [] => (inl "No communication with the instrument"%string, b)
  | r :: rest =>
      (r, {| write_replies := write_replies b; read_replies := rest; clock := clock b |})
  end.

Definition script_sleep (d : Q) (b : Script) : Script :=
  {| write_replies := write_replies b; read_replies := read_replies b;
     clock := (clock b + d)%Q |}.

End Server.

(** ** Vocabulary of the statements *)

(** The managers that [write_register] calls can produce from a fresh one. *)
Inductive toi_reachable : ToiDeaManager -> Prop :=
| toi_reach_init : toi_reachable ToiDea.init
| toi_reach_write reg val file toi :
    toi_reachable toi ->
    toi_reachable (ToiDea.write_register reg val file toi).1.

(** The three ways [_get_value_from_tag] falls back: no opening tag, no
    closing tag after it, or an inner text that [float] rejects. *)
Definition falls_back (py_float : string -> option Q) (xml_text tag_name : string) : Prop :=
  let open_tag := ("<" ++ tag_name ++ ">")%string in
  let close_tag := ("</" ++ tag_name ++ ">")%string in
  find open_tag xml_text 0 = None
  \/ (exists i,
        find open_tag xml_text 0 = Some i
        /\ find close_tag xml_text (i + String.length open_tag) = None)
  \/ (exists i j,
        find open_tag xml_text 0 = Some i
        /\ find close_tag xml_text (i + String.length open_tag) = Some j
        /\ py_float (replace "," "."
                       (strip (slice xml_text (i + String.length open_tag) j))) = None).

(** Does a watchdog tick on this snapshot see register 1070 equal to 2? *)
Definition observes_2 (py_float : string -> option Q) (f : File) : bool :=
  match f with
  | Content txt => int_of_float (_get_value_from_tag py_float txt "1070") =? 2
  | _ => false
  end.

(** Every write to register 1101 among the calls [l] carries a value in
    [lo, hi]. *)
Definition writes_1101_within (lo hi : Z) (l : list (Z * Z)) : Prop :=
  Forall (fun rv => rv.1 = 1101 -> lo <= rv.2 <= hi) l.

(** Clamping to [lo, hi]. *)
Definition clamp (lo hi x : Z) : Z := Z.max lo (Z.min hi x).

(** The local trim: one [step_local] toward the grid setpoint, nothing
    within the deadband. *)
Definition local_adjust (p : Autocons.Params) (sp misura : Z) : Z :=
  let errore := Autocons.grid_setpoint_1090 p - misura in
  if Z.abs errore <=? Autocons.grid_deadband p then sp
  else if errore >? 0 then sp + Autocons.step_local p
  else sp - Autocons.step_local p.

(** The community error: the sharing target minus the local sensor. *)
Definition community_error (p : Autocons.Params) (local1090 remote1090 : Q) : Q :=
  let diff_remote := Autocons.grid_setpoint_1090 p - int_of_float remote1090 in
  (inject_Z (Autocons.grid_setpoint_1090 p + diff_remote)
   + inject_Z diff_remote * Autocons.bt_loss_factor p
   - inject_Z (int_of_float local1090))%Q.

(** The instants of the foreign frames of a run, oldest first. *)
Definition frame_times (evs : list Server.BusEvent) : list Q :=
  flat_map (fun e => match e with
                     | Server.ForeignFrame t => [t]
                     | Server.QuietPoll _ => []
                     end) evs.

Definition is_quiet (e : Server.BusEvent) : bool :=
  match e with Server.QuietPoll _ => true | Server.ForeignFrame _ => false end.

(** How many of the instants [ts] lie within the window that ends at [t]. *)
Fixpoint count_in_window (cfg : Server.Cfg) (t : Q) (ts : list Q) : nat :=
  match ts with
  | [] => 0
  | x :: r => ((if Server.in_window cfg t x then 1 else 0) + count_in_window cfg t r)%nat
  end.

(** [x] has left the window that ends at [t]. *)
Definition left_window (cfg : Server.Cfg) (t x : Q) : Prop :=
  ltb (Server.foreign_window_s cfg) (t - x) = true.

(** The deque once [note_foreign] has run at the instant [t]. *)
Definition deque_after (cfg : Server.Cfg) (t : Q) (d : list Q) : list Q :=
  Server.popleft_older t (Server.foreign_window_s cfg) (Server.deque_append 100 t d).

(** The deque [d] holds the latest of the frames [ts]: everything before it
    has left the window of any later instant, unless the deque is full. *)
Definition deque_inv (cfg : Server.Cfg) (ts d : list Q) : Prop :=
  exists pre,
    ts = pre ++ d /\ (length d <= 100)%nat
    /\ (length d = 100%nat
        \/ forall t', Forall (fun x => (x <= t')%Q) ts -> Forall (left_window cfg t') pre).

(** ** Worked inputs *)

Module Examples.

(** A snapshot file with the registers 1040, 1013, 1070 and 1090. *)
Definition snapshot_text (r1040 r1013 r1070 r1090 : string) : string :=
  ("<rootmain><DATA>07/12/2025 10:00:00</DATA><1040>" ++ r1040
   ++ "</1040><1013>" ++ r1013 ++ "</1013><1070>" ++ r1070
   ++ "</1070><1090>" ++ r1090 ++ "</1090></rootmain>")%string.

Definition snapshot (r1040 r1013 r1070 r1090 : string) : File :=
  Content (snapshot_text r1040 r1013 r1070 r1090).

(** A well-formed, writable ToiDea.xml. *)
Definition toidea_ok : ToiFile :=
  ToiXml {| doc_ID := Some "0"%string; doc_CMD := Some "07"%string;
            doc_IND := Some "0"%string; doc_VAL := Some "0"%string |} true.

Definition world0 : World := init_world default_flags toidea_ok.

(** The files of the stand-alone watchdog. *)
Definition disk0 : LegacyReset.Disk :=
  {| LegacyReset.to_file := toidea_ok; LegacyReset.alarm_file := None;
     LegacyReset.alarm_writable := true; LegacyReset.sent := [] |}.

(** A snapshot with the machine in error (1070 = 1). *)
Definition machine_error : File := snapshot "500" "0" "1" "5000".

(** The flag store once a service has been activated at start-up. *)
Definition world_service : World := set_service_active true world0.

(** A service that found no program for today. *)
Definition idle_service : Service :=
  {| state := INIT; active := false; event_start := 0; event_end := 0;
     soc_1040 := 0; target_soc_high_dec := 950; min_soc_dec := 50;
     target_min_soc_dec := 300 |}.

(** A service with an event from instant 10 to instant 100. *)
Definition todays_service : Service := activated 10 100 950 50 300.

(** The application with the DSO charge service activated. *)
Definition app_dso_carica : App :=
  {| autocons := Autocons.init Autocons.default_params;
     batt := Battery.init Battery.default_params;
     reset := Reset.init;
     dso_carica := todays_service;
     dso_scarica := idle_service;
     trading_scarica := idle_service;
     trading_carica := idle_service |}.

(** One pass of the scheduler during the event, battery at 60 %. *)
Definition env_in_event : Env :=
  {| time_now := 0; datetime_now := 50;
     from_local := snapshot "600" "0" "2" "5000"; from_remote := NoFile;
     cfg_changed := None |}.

(** ToiDea.xml with a fresh ID, a command that is neither 07 nor 09, and
    integer IND and VAL. *)
Definition toidea_unknown_cmd : ToiFile :=
  ToiXml {| doc_ID := Some "7"%string; doc_CMD := Some "08"%string;
            doc_IND := Some "1101"%string; doc_VAL := Some "1020"%string |} true.

(** ToiDea.xml with a fresh ID and an IND that is not an integer. *)
Definition toidea_bad_ind : ToiFile :=
  ToiXml {| doc_ID := Some "7"%string; doc_CMD := Some "07"%string;
            doc_IND := Some "11o1"%string; doc_VAL := Some "1020"%string |} true.

(** A pending write of 1020 to register 1101. *)
Definition pending_1101 : Server.WriteCmd :=
  {| Server.cmd_ID := "42"; Server.cmd_CMD := "07";
     Server.cmd_IND := 1101; Server.cmd_VAL := 1020 |}.

Definition server_pending : Server.Globals :=
  Server.set_pending (Some pending_1101) Server.init.

(** The write is answered with a wrong function code, the read-back with
    the value just sent. *)
Definition glitch_then_match : Server.Script :=
  {| Server.write_replies := [inl "Wrong functioncode: 3"%string];
     Server.read_replies := [inr (Some [1020])];
     Server.clock := 5 |}.

End Examples.

(** ** idea_server.py: the read plan

    The addresses of [read_blocks] are grouped into runs of consecutive
    addresses, and every run is cut into requests of at most
    [read_max_chunk] registers. *)

Module Poller.

(** [sorted({int(a) for a in addrs})] *)
Definition uniq_sorted (addrs : list Z) : list Z :=
  merge_sort Z.le (remove_dups addrs).

(** A Python [range(start, stop)]. *)
Record range : Type := { start : Z; stop : Z }.

(** [list(r)] *)
Definition range_list (r : range) : list Z := seqZ (start r) (stop r - start r).

(** The body of [for prev, cur in zip(a, a[1:])], on the pair
    [(blocks, start)]. *)
Definition blocks_step (acc : list range * Z) (pc : Z * Z) : list range * Z :=
  let '(blocks, start) := acc in
  let '(prev, cur) := pc in
  if negb (cur =? prev + 1)
  then (blocks ++ [{| start := start; stop := prev + 1 |}], cur)
  else (blocks, start).

Definition contiguous_blocks (addrs : list Z) : list range :=
  match addrs with
  | [] => []
  | _ :: _ =>
      let a := uniq_sorted addrs in
      match a with
      | [] => []                      (* [a[0]]: not reached, [a] is not empty *)
      | a0 :: a1 =>
          let '(blocks, start) := fold_left blocks_step (zip a a1) ([], a0) in
          blocks ++ [{| start := start; stop := List.last a 0 + 1 |}]
      end
  end.

(** [while s < e: ...] of [split_range], with [fuel] passes left; [None]
    when the passes run out before the loop ends. *)
Fixpoint split_range_loop (fuel : nat) (s e max_len : Z) (out : list (Z * Z))
  : option (list (Z * Z)) :=
  if s <? e then
    match fuel with
    | O => None
    | S fuel' =>
        let ln := Z.min max_len (e - s) in
        split_range_loop fuel' (s + ln) e max_len (out ++ [(s, ln)])
    end
  else Some out.

Definition split_range (fuel : nat) (r : range) (max_len : Z) : option (list (Z * Z)) :=
  split_range_loop fuel (start r) (stop r) max_len [].

(** The addresses a request [(s, ln)] asks for. *)
Definition request_addrs (req : Z * Z) : list Z := seqZ req.1 req.2.

(** *** The read phase of the I/O worker *)

(** The keys of the YAML configuration that the read phase reads. *)
Record ReadCfg : Type := {
  read_blocks : list Z;
  read_max_chunk : Z;
  read_min_chunk : Z;
  max_retry : Z;
  from_include_meta : bool;
  xml_ignore_errors : bool
}.

(** The fallbacks of the [CFG.get] calls. *)
Definition default_read_cfg (blocks : list Z) : ReadCfg :=
  {| read_blocks := blocks; read_max_chunk := 4; read_min_chunk := 1; max_retry := 4;
     from_include_meta := true; xml_ignore_errors := false |}.

(** What [BUS.read_regs] raises. *)
Inductive BusError : Type :=
| NoResponseError
| OtherError (msg : string).    (* any other exception; [msg] is [str(e)] *)

Inductive BusLog : Type :=
| LogBusErr (msg : string)      (* [BUS ERR] msg *)
| LogNoAnswer (first last : Z)  (* [BUS] no answer for the block first-last *)
| LogXmlWarn                    (* [WARN] FromiDea in use *)
| LogXmlErr                     (* [ERR] XML write *)
| LogErrWorker.                 (* [ERR worker] *)

(** The module globals that the read phase uses, with the locals [values]
    and [any_ok] of the pass. *)
Record Pass : Type := {
  globals : Server.Globals;
  LAST_OK : gmap Z Z;
  last_reset_iso : string;      (* [STATS["last_reset_iso"]] *)
  values : gmap Z Z;
  any_ok : bool;
  bus_console : list BusLog
}.

Definition with_globals (f : Server.Globals -> Server.Globals) (p : Pass) : Pass :=
  {| globals := f (globals p); LAST_OK := LAST_OK p; last_reset_iso := last_reset_iso p;
     values := values p; any_ok := any_ok p; bus_console := bus_console p |}.

Definition log (l : BusLog) (p : Pass) : Pass :=
  {| globals := globals p; LAST_OK := LAST_OK p; last_reset_iso := last_reset_iso p;
     values := values p; any_ok := any_ok p; bus_console := bus_console p ++ [l] |}.

(** [values[addr] = iv; LAST_OK[addr] = iv] *)
Definition set_value (addr iv : Z) (p : Pass) : Pass :=
  {| globals := globals p; LAST_OK := <[addr := iv]> (LAST_OK p);
     last_reset_iso := last_reset_iso p;
     values := <[addr := iv]> (values p); any_ok := any_ok p;
     bus_console := bus_console p |}.

Definition set_any_ok (ok : bool) (p : Pass) : Pass :=
  {| globals := globals p; LAST_OK := LAST_OK p; last_reset_iso := last_reset_iso p;
     values := values p; any_ok := ok; bus_console := bus_console p |}.

(** [values = {}; any_ok = False] *)
Definition start_pass (p : Pass) : Pass :=
  {| globals := globals p; LAST_OK := LAST_OK p; last_reset_iso := last_reset_iso p;
     values := ∅; any_ok := false; bus_console := bus_console p |}.

Definition init_pass : Pass :=
  {| globals := Server.init; LAST_OK := ∅; last_reset_iso := ""; values := ∅;
     any_ok := false; bus_console := [] |}.

Definition bump_read_ok (s : Server.Globals) : Server.Globals :=
  Server.set_stats
    {| Server.read_ok := Server.read_ok (Server.STATS s) + 1;
       Server.read_err := Server.read_err (Server.STATS s);
       Server.write_ok := Server.write_ok (Server.STATS s);
       Server.write_err := Server.write_err (Server.STATS s);
       Server.resyncs := Server.resyncs (Server.STATS s) |} s.

Definition bump_read_err (s : Server.Globals) : Server.Globals :=
  Server.set_stats
    {| Server.read_ok := Server.read_ok (Server.STATS s);
       Server.read_err := Server.read_err (Server.STATS s) + 1;
       Server.write_ok := Server.write_ok (Server.STATS s);
       Server.write_err := Server.write_err (Server.STATS s);
       Server.resyncs := Server.resyncs (Server.STATS s) |} s.

(** [for off, v in enumerate(regs): ...], from the offset [off] on. *)
Fixpoint store (s off : Z) (regs : list Z) (p : Pass) : Pass :=
  match regs with
  | [] => p
  | v :: regs' => store s (off + 1) regs' (set_value (s + off) v p)
  end.

(** The children of [rootmain]: tag and text. *)
Definition Doc : Type := list (string * string).

(** What [tree.write] and [os.replace] meet. *)
Inductive DiskReply : Type :=
| DiskOk
| DiskPermissionError
| DiskOtherError.

Section Reader.

(** The serial line and the clock, as in the write phase; [read_regs] tells
    a [NoResponseError] from the other exceptions. *)
Context {Wire : Type}.
Variable read_regs : Z -> Z -> Wire -> (BusError + option (list Z)) * Wire.
Variable sleep : Q -> Wire -> Wire.
Variable time : Wire -> Q.

(** [now.strftime("%d/%m/%Y %H:%M:%S")] and [isoformat(timespec="seconds")] *)
Variable strftime : Q -> string.
Variable isoformat : Q -> string.

Variable cfg : Server.Cfg.
Variable rcfg : ReadCfg.

(** [back_ms = int(CFG.get("retry_backoff_ms", 80))] *)
Definition back_ms : Z := int_of_float (Server.retry_backoff_ms cfg).

(** [for _ in range(max_retry)], with [n] passes left: the registers read,
    [None] when every attempt raised. *)
Fixpoint read_retry (n : nat) (s cur : Z) (p : Pass) (b : Wire)
  : option (list Z) * Pass * Wire :=
  match n with
  | O => (None, p, b)
  | S n' =>
      match read_regs s cur b with
      | (inr regs, b) => (regs, p, b)
      | (inl NoResponseError, b) =>
          read_retry n' s cur p (sleep (inject_Z back_ms / 1000)%Q b)
      | (inl (OtherError msg), b) =>
          let p := log (LogBusErr msg) p in
          let p :=
            if contains "Wrong functioncode" msg || contains "functioncode" msg
            then with_globals (Server.note_foreign cfg (time b)) p else p in
          read_retry n' s cur p (sleep (inject_Z back_ms / 1000)%Q b)
      end
  end.

(** [while cur >= min_chunk], with [fuel] passes left; [None] when the
    passes run out before the loop ends. *)
Fixpoint read_chunk (fuel : nat) (s ln cur : Z) (p : Pass) (b : Wire)
  : option (Pass * Wire) :=
  if cur >=? read_min_chunk rcfg then
    match fuel with
    | O => None
    | S fuel' =>
        match read_retry (Z.to_nat (max_retry rcfg)) s cur p b with
        | (None, p, b) =>
            let p := with_globals bump_read_err p in
            let cur := cur / 2 in
            let p := if cur <? read_min_chunk rcfg
                     then log (LogNoAnswer s (s + ln - 1)) p else p in
            read_chunk fuel' s ln cur p b
        | (Some regs, p, b) =>
            let p := with_globals bump_read_ok p in
            Some (set_any_ok true (store s 0 regs p), b)
        end
    end
  else Some (p, b).

(** [for s, ln in split_range(block, max_chunk)] *)
Fixpoint read_chunks (fuel : nat) (chunks : list (Z * Z)) (p : Pass) (b : Wire)
  : option (Pass * Wire) :=
  match chunks with
  | [] => Some (p, b)
  | (s, ln) :: rest =>
      match read_chunk fuel s ln ln p b with
      | Some (p, b) => read_chunks fuel rest p b
      | None => None
      end
  end.

(** [for block in contiguous_blocks(addrs)] *)
Fixpoint read_all_blocks (fuel : nat) (blocks : list range) (p : Pass) (b : Wire)
  : option (Pass * Wire) :=
  match blocks with
  | [] => Some (p, b)
  | block :: rest =>
      match split_range fuel block (read_max_chunk rcfg) with
      | None => None
      | Some chunks =>
          match read_chunks fuel chunks p b with
          | Some (p, b) => read_all_blocks fuel rest p b
          | None => None
          end
      end
  end.

(** The element tree that [write_fromidea(values, any_ok)] builds at the
    instant [now]. *)
Definition fromidea_document (now : Q) (p : Pass) : Doc :=
  let g := globals p in
  let st := Server.STATS g in
  [("DATA", strftime now)]
  ++ (if from_include_meta rcfg then
        [("BUS_OK", if any_ok p then "1" else "0");
         ("TS_ISO", isoformat now);
         ("READ_OK_TOTAL", pretty (Server.read_ok st));
         ("READ_ERR_TOTAL", pretty (Server.read_err st));
         ("WRITE_OK_TOTAL", pretty (Server.write_ok st));
         ("WRITE_ERR_TOTAL", pretty (Server.write_err st));
         ("RESYNCS", pretty (Server.resyncs st));
         ("LAST_RESET_ISO", last_reset_iso p);
         ("WRITER_LAST_ID", Server.LAST_WRITER_ID g);
         ("FOREIGN_FRAMES_TOTAL", pretty (Server.FOREIGN_FRAMES_TOTAL g));
         ("FOREIGN_ALERT", if Server.FOREIGN_ALERT g =? 0 then "0" else "1");
         ("FOREIGN_LAST_ISO",
          match Server.FOREIGN_LAST_ISO g with Some t => isoformat t | None => "" end)]
      else [])
  ++ map (fun a =>
            (pretty a,
             pretty (match values p !! a with
                     | Some v => v
                     | None => match LAST_OK p !! a with Some v => v | None => 0 end
                     end)))
         (read_blocks rcfg).

(** [write_fromidea]: the pass with what it printed and the content of
    FromiDea.xml; [inl] when the function raises. *)
Definition write_fromidea (now : Q) (reply : DiskReply) (p : Pass) (from_file : option Doc)
  : unit + Pass * option Doc :=
  match reply with
  | DiskOk => inr (p, Some (fromidea_document now p))
  | DiskPermissionError =>
      if xml_ignore_errors rcfg then inr (log LogXmlWarn p, from_file) else inl tt
  | DiskOtherError => inr (log LogXmlErr p, from_file)
  end.

(** Step 2 of a pass of [io_worker]: the reads and the snapshot file.  With
    no address to read the pass ends before the file is written. *)
Definition io_worker_read (fuel : nat) (now : Q) (reply : DiskReply)
  (p : Pass) (b : Wire) (from_file : option Doc) : option (Pass * Wire * option Doc) :=
  let addrs := uniq_sorted (read_blocks rcfg) in
  match addrs with
  | [] => Some (p, sleep (1 # 5)%Q b, from_file)
  | _ :: _ =>
      match read_all_blocks fuel (contiguous_blocks addrs) (start_pass p) b with
      | None => None
      | Some (p, b) =>
          match write_fromidea now reply p from_file with
          | inr (p, from_file) => Some (p, b, from_file)
          | inl _ => Some (log LogErrWorker p, b, from_file)
          end
      end
  end.

End Reader.

(** A scripted line for the worked examples: the replies to the coming
    reads, oldest first. *)
Record ReadScript : Type := {
  replies : list (BusError + option (list Z));
  slept : Q
}.

Definition script_read (_ _ : Z) (b : ReadScript) : (BusError + option (list Z)) * ReadScript :=
  match replies b with
  | [] => (inl NoResponseError, b)
  | r :: rest => (r, {| replies := rest; slept := slept b |})
  end.

Definition script_sleep (d : Q) (b : ReadScript) : ReadScript :=
  {| replies := replies b; slept := (slept b + d)%Q |}.

(** Two lines whose state is the clock alone: one answers every request
    from the register file [reg], the other answers none. *)
Definition file_read (reg : Z -> Z) (s n : Z) (b : Q)
  : (BusError + option (list Z)) * Q :=
  (inr (Some (map reg (seqZ s n))), b).

Definition dead_read (_ _ : Z) (b : Q) : (BusError + option (list Z)) * Q :=
  (inl NoResponseError, b).

Definition clock_sleep (d : Q) (b : Q) : Q := (b + d)%Q.

End Poller.

(** ** ConfigManager: the legacy files

    Every flag setter also rewrites a file of the base directory, which the
    stand-alone scripts read.  A file is named by the result of
    [os.path.join(base_path, rel)]. *)

Module ConfigManager.

(** What a file of the base directory holds. *)
Inductive Entry : Type :=
| TextFile (txt : string)                     (* written with [f.write] *)
| XmlFile (children : list (string * string)). (* the children of [rootmain] *)

Inductive CfgLog : Type :=
| LogWrote (key : string) (value : string)    (* [CFG] key -> value *)
| LogWriteError (key : string)                (* the handler of a writer *)
| LogLoaded                                   (* [CFG] JSON loaded *)
| LogChanged.                                 (* [CFG] external change *)

Record t : Type := {
  cflags : Flags;                 (* [data["flags"]], as the getters read it *)
  paths : gmap string string;     (* [data["paths"]] *)
  base_path : string;
  _last_mtime : Q;
  dir : gmap string Entry;        (* the files, by joined path *)
  locked : gset string;           (* the paths that cannot be opened for writing *)
  cfg_console : list CfgLog
}.

Definition with_cflags (f : Flags -> Flags) (m : t) : t :=
  {| cflags := f (cflags m); paths := paths m; base_path := base_path m;
     _last_mtime := _last_mtime m;
     dir := dir m; locked := locked m; cfg_console := cfg_console m |}.

Definition print (l : CfgLog) (m : t) : t :=
  {| cflags := cflags m; paths := paths m; base_path := base_path m;
     _last_mtime := _last_mtime m;
     dir := dir m; locked := locked m; cfg_console := cfg_console m ++ [l] |}.

Definition put (p : string) (e : Entry) (m : t) : t :=
  {| cflags := cflags m; paths := paths m; base_path := base_path m;
     _last_mtime := _last_mtime m;
     dir := <[p := e]> (dir m); locked := locked m; cfg_console := cfg_console m |}.

Section WithJoin.

(** [os.path.join(base, rel)] *)
Variable join : string -> string -> string.

(** [path(key)]: [None] when it raises [KeyError]. *)
Definition path (key : string) (m : t) : option string :=
  match paths m !! key with
  | Some rel => if (rel =? "")%string then None else Some (join (base_path m) rel)
  | None => None
  end.

(** The body shared by the five writers: [path(key)], the write, the log
    line; the handler when any of them raises. *)
Definition write_legacy (key : string) (e : Entry) (shown : string) (m : t) : t :=
  match path key m with
  | None => print (LogWriteError key) m
  | Some p =>
      if decide (p ∈ locked m) then print (LogWriteError key) m
      else print (LogWrote key shown) (put p e m)
  end.

Definition bit (b : bool) : string := if b then "1" else "0".

Definition _write_guardrail_txt (enabled : bool) : t -> t :=
  write_legacy "guardrail_txt" (TextFile ("AUTOCONSUMO=" ++ bit enabled)) (bit enabled).

Definition _write_service_status_txt (active : bool) : t -> t :=
  write_legacy "service_status_txt" (TextFile ("SERVICE=" ++ bit active)) (bit active).

Definition _write_debito_txt (active : bool) : t -> t :=
  write_legacy "debito_txt" (TextFile ("DebitoEnergetico=" ++ bit active)) (bit active).

Definition _write_macchina_allarme_txt (active : bool) : t -> t :=
  write_legacy "macchina_allarme_txt"
    (TextFile (if active then "MACCHINA IN ALLARME" else "MACCHINA OK"))
    (if active then "IN ALLARME" else "OK").

(** [now] is the text of [datetime.now().strftime("%d/%m/%Y %H:%M:%S")]. *)
Definition _write_sharing_xml (now : string) (enabled : bool) : t -> t :=
  write_legacy "sharing_xml" (XmlFile [("DATA", now); ("sharing", bit enabled)])
    (bit enabled).

Definition is_autoconsumo_enabled (m : t) : bool := autoconsumo_enabled (cflags m).
Definition is_service_active (m : t) : bool := service_active (cflags m).
Definition is_debito_energetico (m : t) : bool := debito_energetico (cflags m).
Definition is_macchina_allarme (m : t) : bool := macchina_allarme (cflags m).
Definition is_sharing_enabled (m : t) : bool := sharing_enabled (cflags m).

Definition set_autoconsumo_enabled (enabled : bool) (m : t) : t :=
  m |> with_cflags (fun f =>
         {| autoconsumo_enabled := enabled; service_active := service_active f;
            macchina_allarme := macchina_allarme f;
            debito_energetico := debito_energetico f;
            sharing_enabled := sharing_enabled f |})
    |> _write_guardrail_txt enabled.

Definition set_service_active (active : bool) (m : t) : t :=
  m |> with_cflags (fun f =>
         {| autoconsumo_enabled := autoconsumo_enabled f; service_active := active;
            macchina_allarme := macchina_allarme f;
            debito_energetico := debito_energetico f;
            sharing_enabled := sharing_enabled f |})
    |> _write_service_status_txt active.

Definition set_debito_energetico (active : bool) (m : t) : t :=
  m |> with_cflags (fun f =>
         {| autoconsumo_enabled := autoconsumo_enabled f;
            service_active := service_active f;
            macchina_allarme := macchina_allarme f; debito_energetico := active;
            sharing_enabled := sharing_enabled f |})
    |> _write_debito_txt active.

Definition set_macchina_allarme (active : bool) (m : t) : t :=
  m |> with_cflags (fun f =>
         {| autoconsumo_enabled := autoconsumo_enabled f;
            service_active := service_active f;
            macchina_allarme := active; debito_energetico := debito_energetico f;
            sharing_enabled := sharing_enabled f |})
    |> _write_macchina_allarme_txt active.

Definition set_sharing_enabled (now : string) (enabled : bool) (m : t) : t :=
  m |> with_cflags (fun f =>
         {| autoconsumo_enabled := autoconsumo_enabled f;
            service_active := service_active f;
            macchina_allarme := macchina_allarme f;
            debito_energetico := debito_energetico f; sharing_enabled := enabled |})
    |> _write_sharing_xml now enabled.

Definition sync_flag_files (now : string) (m : t) : t :=
  m |> _write_guardrail_txt (is_autoconsumo_enabled m)
    |> _write_service_status_txt (is_service_active m)
    |> _write_debito_txt (is_debito_energetico m)
    |> _write_macchina_allarme_txt (is_macchina_allarme m)
    |> _write_sharing_xml now (is_sharing_enabled m).

(** What [_load] reads: the JSON object of the file, and the modification
    time it asks for after reading ([None] when [os.path.getmtime] raises
    there). *)
Record Json : Type := {
  json_base_path : option string;   (* the entry base_path, when present *)
  json_flags : Flags;
  json_paths : gmap string string;
  json_mtime : option Q
}.

(** The configuration file as [reload_if_changed] finds it. *)
Inductive ConfigFile : Type :=
| StatFails                                  (* [os.path.getmtime] raises *)
| Stat (mtime : Q) (content : option Json).  (* [None]: [open] or [json.load] raises *)

Definition _load (j : Json) (m : t) : t :=
  print LogLoaded
    {| cflags := json_flags j; paths := json_paths j;
       base_path := match json_base_path j with Some b => b | None => base_path m end;
       _last_mtime := match json_mtime j with Some t => t | None => 0 end;
       dir := dir m; locked := locked m; cfg_console := cfg_console m |}.

(** [reload_if_changed]; [None] when [_load] raises, which nothing here
    catches. *)
Definition reload_if_changed (now : string) (file : ConfigFile) (m : t) : option t :=
  match file with
  | StatFails => Some m
  | Stat mtime content =>
      if negb (Qeq_bool mtime (_last_mtime m))
      then match content with
           | Some j => Some (m |> print LogChanged |> _load j |> sync_flag_files now)
           | None => None
           end
      else Some m
  end.

(** The calls that change the flag store while the application runs. *)
Inductive Call : Type :=
| CallSetAutoconsumo (enabled : bool)
| CallSetService (active : bool)
| CallSetDebito (active : bool)
| CallSetAllarme (active : bool)
| CallSetSharing (now : string) (enabled : bool)
| CallReload (now : string) (file : ConfigFile).

Definition call (m : t) (c : Call) : option t :=
  match c with
  | CallSetAutoconsumo b => Some (set_autoconsumo_enabled b m)
  | CallSetService b => Some (set_service_active b m)
  | CallSetDebito b => Some (set_debito_energetico b m)
  | CallSetAllarme b => Some (set_macchina_allarme b m)
  | CallSetSharing now b => Some (set_sharing_enabled now b m)
  | CallReload now file => reload_if_changed now file m
  end.

(** The calls of [cs] one after the other; [None] as soon as one raises. *)
Fixpoint calls (m : t) (cs : list Call) : option t :=
  match cs with
  | [] => Some m
  | c :: cs' =>
      match call m c with
      | Some m' => calls m' cs'
      | None => None
      end
  end.

End WithJoin.

(** [_default_config()["paths"]], the five legacy files. *)
Definition default_paths : gmap string string :=
  {[ "guardrail_txt" := "guardrail_auto-consumo_locale.txt";
     "service_status_txt" := "service_status.txt";
     "debito_txt" := "DebitoEnergetico.txt";
     "macchina_allarme_txt" := "MacchinaAllarme.txt";
     "sharing_xml" := "sharingiDea.xml" ]}%string.

(** The manager of a first start in an empty, writable directory, before
    [sync_flag_files]. *)
Definition fresh : t :=
  {| cflags := default_flags; paths := default_paths; base_path := ".";
     _last_mtime := 0; dir := ∅; locked := ∅; cfg_console := [] |}.

End ConfigManager.

(** ** The readers of the stand-alone scripts *)

Module Legacy.

(** [s.upper()] on the letters a to z.  The code points above 127 are left
    as they are: the readers only compare the result with the text 1 and look
    for the suffix =1, which no such character produces. *)
Definition upper_char (c : ascii) : ascii :=
  let n := nat_of_ascii c in
  if ((97 <=? n)%nat && (n <=? 122)%nat)%bool then ascii_of_nat (n - 32) else c.

Fixpoint upper (s : string) : string :=
  match s with
  | EmptyString => EmptyString
  | String c r => String (upper_char c) (upper r)
  end.

(** [s.endswith(suffix)] *)
Definition endswith (suffix s : string) : bool :=
  let n := String.length s in
  let k := String.length suffix in
  (k <=? n)%nat && (String.substring (n - k) k s =? suffix)%string.

(** [controller_idea.py], [IdeaNodeController.read_guardrail_autoconsumo] *)
Definition read_guardrail_autoconsumo (guardrail : File) : bool :=
  match guardrail with
  | NoFile => true
  | Unreadable => true
  | Content txt => endswith "=1" (upper (strip txt))
  end.

(** [controller_idea.py], [IdeaNodeController.read_energy_debt] *)
Definition read_energy_debt (debt : File) : bool :=
  match debt with
  | NoFile => false
  | Unreadable => false
  | Content txt => endswith "=1" (upper (strip txt))
  end.

(** [battery_controller.py], [BatteryController.read_service_active] *)
Definition read_service_active (status : File) : bool :=
  match status with
  | NoFile => false
  | Unreadable => false
  | Content txt =>
      let s := upper (strip txt) in
      (s =? "1")%string || endswith "=1" s
  end.

(** An XML file as [ET.parse] sees it: the elements below the root in
    document order, each with its tag and its [text]. *)
Inductive XmlFileView : Type :=
| XmlMissing
| XmlMalformed
| XmlTree (children : list (string * option string)).

(** [root.find(".//tag")]: the first element below the root with that tag. *)
Fixpoint find_node (tag : string) (children : list (string * option string))
  : option (option string) :=
  match children with
  | [] => None
  | (t, txt) :: rest => if (t =? tag)%string then Some txt else find_node tag rest
  end.

Section WithInt.

Variable py_int : string -> option Z.

(** [controller_idea.py], [IdeaNodeController.read_sharing_flag] *)
Definition read_sharing_flag (sharing : XmlFileView) : bool :=
  match sharing with
  | XmlMissing => false
  | XmlMalformed => false
  | XmlTree children =>
      match find_node "sharing" children with
      | None => false
      | Some None => false                     (* [None.strip()] raises *)
      | Some (Some txt) =>
          match py_int (strip txt) with
          | Some v => v =? 1
          | None => false
          end
      end
  end.

End WithInt.

(** The writers of the scripts: the new content of the file. *)

(** [controller_idea.py], [write_energy_debt] *)
Definition write_energy_debt (debito : bool) (writable : bool) (old : File) : File :=
  if writable
  then Content (if debito then "DebitoEnergetico=1" else "DebitoEnergetico=0")
  else old.

(** [battery_controller.py] and [carica_forzata_dso.py],
    [write_guardrail_autoconsumo] *)
Definition write_guardrail_autoconsumo (enable : bool) (writable : bool) (old : File)
  : File :=
  if writable then Content ("AUTOCONSUMO=" ++ (if enable then "1" else "0")) else old.

(** [carica_forzata_dso.py], [write_service_status] *)
Definition write_service_status (active : bool) (writable : bool) (old : File) : File :=
  if writable then Content ("SERVICE=" ++ (if active then "1" else "0")) else old.

(** What [ET.parse] returns for a file whose tree [ET] wrote: an empty
    text comes back as [None]. *)
Definition parsed (e : option ConfigManager.Entry) : XmlFileView :=
  match e with
  | None => XmlMissing
  | Some (ConfigManager.TextFile _) => XmlMalformed
  | Some (ConfigManager.XmlFile children) =>
      XmlTree (map (fun '(t, txt) => (t, if (txt =? "")%string then None else Some txt))
                 children)
  end.

(** The text files as the scripts open them. *)
Definition opened (e : option ConfigManager.Entry) : option File :=
  match e with
  | None => Some NoFile
  | Some (ConfigManager.TextFile txt) => Some (Content txt)
  | Some (ConfigManager.XmlFile _) => None
  end.

End Legacy.

(** ** Vocabulary of the further statements *)

(** The runs of consecutive addresses of [prev :: rest], the first one
    starting at [start]. *)
Fixpoint runs (start prev : Z) (rest : list Z) : list Poller.range :=
  match rest with
  | [] => [{| Poller.start := start; Poller.stop := prev + 1 |}]
  | cur :: rest' =>
      if cur =? prev + 1 then runs start cur rest'
      else {| Poller.start := start; Poller.stop := prev + 1 |} :: runs cur cur rest'
  end.

(** A gap of at least one address lies between two blocks. *)
Definition apart (r1 r2 : Poller.range) : Prop := Poller.stop r1 < Poller.start r2.

(** Every value read in this pass is also the last good value of its
    address. *)
Definition consistent (p : Poller.Pass) : Prop :=
  forall a v, Poller.values p !! a = Some v -> Poller.LAST_OK p !! a = Some v.

(** No address loses its last good value between [p] and [p']. *)
Definition keeps_last_ok (p p' : Poller.Pass) : Prop :=
  forall a, is_Some (Poller.LAST_OK p !! a) -> is_Some (Poller.LAST_OK p' !! a).

(** The text published for the address [a]: its last good value, 0 when it
    was never read. *)
Definition last_good (p : Poller.Pass) (a : Z) : string * string :=
  (pretty a, pretty (match Poller.LAST_OK p !! a with Some v => v | None => 0 end)).

(** Between [p] and [p'] the addresses of [l] took the values of the
    register file [reg], in [values] and in [LAST_OK], and nothing else
    changed there. *)
Definition filled (reg : Z -> Z) (l : list Z) (p p' : Poller.Pass) : Prop :=
  (forall a, Poller.values p' !! a
             = if decide (a ∈ l) then Some (reg a) else Poller.values p !! a)
  /\ (forall a, Poller.LAST_OK p' !! a
                = if decide (a ∈ l) then Some (reg a) else Poller.LAST_OK p !! a).

(** What a pass leaves alone when no read succeeds. *)
Definition untouched (p p' : Poller.Pass) : Prop :=
  Poller.values p' = Poller.values p
  /\ Poller.LAST_OK p' = Poller.LAST_OK p
  /\ Poller.any_ok p' = Poller.any_ok p
  /\ Server.read_ok (Server.STATS (Poller.globals p'))
     = Server.read_ok (Server.STATS (Poller.globals p)).

(** ** Further worked inputs *)

Module MoreExamples.

(** Three addresses in two blocks, 1040..1041 and 1090. *)
Definition rcfg3 : Poller.ReadCfg := Poller.default_read_cfg [1040; 1041; 1090].

Definition stamp (_ : Q) : string := "07/12/2025 10:00:00".
Definition iso (_ : Q) : string := "2025-12-07T10:00:00".

(** A server that read 1041 = 7 in an earlier pass. *)
Definition pass_with_history : Poller.Pass :=
  {| Poller.globals := Server.init; Poller.LAST_OK := {[ 1041 := 7 ]};
     Poller.last_reset_iso := ""; Poller.values := ∅; Poller.any_ok := false;
     Poller.bus_console := [] |}.

(** The request for 1040..1041 is not answered four times, the request for
    1040 alone is answered with 500, the request for 1090 with 4800. *)
Definition half_answer : Poller.ReadScript :=
  {| Poller.replies :=
       [inl Poller.NoResponseError; inl Poller.NoResponseError;
        inl Poller.NoResponseError; inl Poller.NoResponseError;
        inr (Some [500]); inr (Some [4800])];
     Poller.slept := 0 |}.

(** A register file: SOC 50 %, battery current 7, grid sensor at 4800. *)
Definition regfile (a : Z) : Z :=
  if a =? 1040 then 500 else if a =? 1041 then 7 else if a =? 1090 then 4800 else 0.

(** Two passes of the scheduler at and after the end of the event of
    [Examples.todays_service]. *)
Definition env_at_end : Env :=
  {| time_now := 10; datetime_now := 100;
     from_local := Examples.snapshot "600" "0" "2" "5000"; from_remote := NoFile;
     cfg_changed := None |}.

Definition env_later : Env :=
  {| time_now := 20; datetime_now := 200;
     from_local := Examples.snapshot "600" "0" "2" "5000"; from_remote := NoFile;
     cfg_changed := None |}.

(** Every job due from the instant 0 on. *)
Definition next0 : NextRun := fun _ => 0%Q.

(** [os.path.join] on a relative second part. *)
Definition join_slash (base rel : string) : string := (base ++ "/" ++ rel)%string.

(** The flags of a configuration edited by hand: a service marked active,
    an energy debt, no sharing. *)
Definition flags_moved : Flags :=
  {| autoconsumo_enabled := true; service_active := true; macchina_allarme := false;
     debito_energetico := true; sharing_enabled := false |}.

(** That configuration, with the files moved to /data. *)
Definition json_moved : ConfigManager.Json :=
  {| ConfigManager.json_base_path := Some "/data"%string;
     ConfigManager.json_flags := flags_moved;
     ConfigManager.json_paths := ConfigManager.default_paths;
     ConfigManager.json_mtime := Some 5%Q |}.

(** A service stops the local self-consumption, then the edited
    configuration is found. *)
Definition flag_calls : list ConfigManager.Call :=
  [ConfigManager.CallSetAutoconsumo false;
   ConfigManager.CallReload "07/12/2025 10:05:00"
     (ConfigManager.Stat 5 (Some json_moved))].

End MoreExamples.

(** ToiDea.xml has the three nodes that [write_register] fills in. *)
Definition has_command_nodes (d : ToiDoc) : Prop :=
  doc_ID d <> None /\ doc_IND d <> None /\ doc_VAL d <> None.

(** The command word of the file is one the server executes. *)
Definition executable (d : ToiDoc) : Prop :=
  let cmd := strip (Server.text_or_empty (doc_CMD d)) in
  cmd = "07"%string \/ cmd = "09"%string.

(** The flags other than [debito_energetico] agree. *)
Definition same_but_debito (f f' : Flags) : Prop :=
  autoconsumo_enabled f' = autoconsumo_enabled f
  /\ service_active f' = service_active f
  /\ macchina_allarme f' = macchina_allarme f
  /\ sharing_enabled f' = sharing_enabled f.

(** The flags other than [autoconsumo_enabled] agree. *)
Definition same_but_autoconsumo (f f' : Flags) : Prop :=
  service_active f' = service_active f
  /\ macchina_allarme f' = macchina_allarme f
  /\ debito_energetico f' = debito_energetico f
  /\ sharing_enabled f' = sharing_enabled f.

(** The flags other than [macchina_allarme] agree. *)
Definition same_but_allarme (f f' : Flags) : Prop :=
  autoconsumo_enabled f' = autoconsumo_enabled f
  /\ service_active f' = service_active f
  /\ debito_energetico f' = debito_energetico f
  /\ sharing_enabled f' = sharing_enabled f.

(** What a service may do to the flags: set [autoconsumo_enabled] and clear
    [service_active]. *)
Definition service_may (f f' : Flags) : Prop :=
  (service_active f' = true -> service_active f = true)
  /\ macchina_allarme f' = macchina_allarme f
  /\ debito_energetico f' = debito_energetico f
  /\ sharing_enabled f' = sharing_enabled f.

(** Between two flag stores [sharing_enabled] is kept and [service_active]
    was not set. *)
Definition passes_keep (f f' : Flags) : Prop :=
  sharing_enabled f' = sharing_enabled f
  /\ (service_active f' = true -> service_active f = true).

(** The passes of [run_forever] over [envs], without the [finally] clause. *)
Definition passes (py_float : string -> option Q) (envs : list Env)
  (s : App * NextRun * World) : App * NextRun * World :=
  fold_left (fun s e => loop_body py_float e s) envs s.

(** The write sequences a service tick can issue. *)
Definition service_write_sequences : list (list (Z * Z)) :=
  [ [];
    [(1102, 3)];                   (* completion of DSO charge *)
    [(1102, 3); (1101, 0)];        (* completion of the other services *)
    [(1102, 3); (1101, 6000)];     (* forced discharge *)
    [(1102, 1); (1101, -6000)];    (* forced charge *)
    [(1102, 0)];                   (* battery excluded while waiting *)
    [(1101, 0)] ].                 (* hold *)

(** The keys of the five legacy files. *)
Definition legacy_keys : list string :=
  ["guardrail_txt"; "service_status_txt"; "debito_txt"; "macchina_allarme_txt";
   "sharing_xml"]%string.

(** What the file of a key holds when it agrees with the flags [f]; [now]
    is the time stamp of the sharing file. *)
Definition expected (key : string) (f : Flags) (now : string) : ConfigManager.Entry :=
  if (key =? "guardrail_txt")%string then
    ConfigManager.TextFile ("AUTOCONSUMO=" ++ ConfigManager.bit (autoconsumo_enabled f))
  else if (key =? "service_status_txt")%string then
    ConfigManager.TextFile ("SERVICE=" ++ ConfigManager.bit (service_active f))
  else if (key =? "debito_txt")%string then
    ConfigManager.TextFile ("DebitoEnergetico=" ++ ConfigManager.bit (debito_energetico f))
  else if (key =? "macchina_allarme_txt")%string then
    ConfigManager.TextFile
      (if macchina_allarme f then "MACCHINA IN ALLARME" else "MACCHINA OK")
  else
    ConfigManager.XmlFile [("DATA", now); ("sharing", ConfigManager.bit (sharing_enabled f))]%string.

(** With this base directory and these paths every legacy file can be
    written and no two keys name the same file. *)
Definition usable_paths (join : string -> string -> string) (base : string)
  (paths : gmap string string) (locked : gset string) : Prop :=
  (forall k, k ∈ legacy_keys ->
     exists rel, paths !! k = Some rel /\ rel <> ""%string /\ join base rel ∉ locked)
  /\ (forall k1 k2 rel1 rel2, k1 ∈ legacy_keys -> k2 ∈ legacy_keys -> k1 <> k2 ->
        paths !! k1 = Some rel1 -> paths !! k2 = Some rel2 ->
        join base rel1 <> join base rel2).

Definition usable (join : string -> string -> string) (m : ConfigManager.t) : Prop :=
  usable_paths join (ConfigManager.base_path m) (ConfigManager.paths m)
    (ConfigManager.locked m).

(** The files of the keys [ks] agree with the flags [f]. *)
Definition mirrored_on (join : string -> string -> string) (ks : list string) (f : Flags)
  (m : ConfigManager.t) : Prop :=
  forall k p, k ∈ ks -> ConfigManager.path join k m = Some p ->
    exists now, ConfigManager.dir m !! p = Some (expected k f now).

(** Every legacy file agrees with the flags in memory. *)
Definition mirrored (join : string -> string -> string) (m : ConfigManager.t) : Prop :=
  mirrored_on join legacy_keys (ConfigManager.cflags m) m.

(** A call is harmless in [m] unless it is a reload of a configuration
    whose paths are not usable. *)
Definition harmless (join : string -> string -> string) (m : ConfigManager.t)
  (c : ConfigManager.Call) : Prop :=
  match c with
  | ConfigManager.CallReload _ (ConfigManager.Stat _ (Some j)) =>
      usable_paths join
        (match ConfigManager.json_base_path j with
         | Some b => b | None => ConfigManager.base_path m end)
        (ConfigManager.json_paths j) (ConfigManager.locked m)
  | _ => True
  end.

(** Every call of [cs] is harmless in the state it is made in. *)
Fixpoint harmless_calls (join : string -> string -> string) (m : ConfigManager.t)
  (cs : list ConfigManager.Call) : Prop :=
  match cs with
  | [] => True
  | c :: cs' =>
      harmless join m c
      /\ match ConfigManager.call join m c with
         | Some m' => harmless_calls join m' cs'
         | None => True
         end
  end.

(** What a stand-alone script reads from the text file of [key]. *)
Definition script_reads (join : string -> string -> string) (reader : File -> bool)
  (key : string) (m : ConfigManager.t) : option bool :=
  match ConfigManager.path join key m with
  | Some p =>
      match Legacy.opened (ConfigManager.dir m !! p) with
      | Some file => Some (reader file)
      | None => None
      end
  | None => None
  end.

(** What [read_sharing_flag] reads from the sharing file. *)
Definition script_reads_sharing (join : string -> string -> string)
  (py_int : string -> option Z) (m : ConfigManager.t) : option bool :=
  match ConfigManager.path join "sharing_xml" m with
  | Some p => Some (Legacy.read_sharing_flag py_int (Legacy.parsed (ConfigManager.dir m !! p)))
  | None => None
  end.

(** ** The stand-alone scripts

    [controller_idea.py], [battery_controller.py] and
    [carica_forzata_dso.py] run as separate processes on the files of one
    directory: each keeps its own command ID, writes ToiDea.xml itself and
    tells the others what it wants through the flag files. *)

Module Scripts.

(** The files the scripts share, with the log of the [update_toi_dea] calls. *)
Record Desk : Type := {
  to_file : ToiFile;                 (* ToiDea.xml *)
  guardrail : File;                  (* guardrail_auto-consumo_locale.txt *)
  guardrail_writable : bool;
  debt : File;                       (* DebitoEnergetico.txt *)
  debt_writable : bool;
  service_status : File;             (* service_status.txt *)
  service_status_writable : bool;
  sharing : Legacy.XmlFileView;      (* sharingiDea.xml *)
  sent : list (Z * Z)                (* every call (ind, val), oldest first *)
}.

Definition with_to_file (f : ToiFile) (log : list (Z * Z)) (d : Desk) : Desk :=
  {| to_file := f; guardrail := guardrail d; guardrail_writable := guardrail_writable d;
     debt := debt d; debt_writable := debt_writable d;
     service_status := service_status d;
     service_status_writable := service_status_writable d;
     sharing := sharing d; sent := log |}.

(** [update_toi_dea], the same method in the three scripts: the new
    [current_id] and the files. *)
Definition update_toi_dea (ind_value val_value : Z) (current_id : Z) (d : Desk)
  : Z * Desk :=
  let log := sent d ++ [(ind_value, val_value)] in
  match to_file d with
  | ToiXml doc writable =>
      let id := current_id + 1 in
      let id := if id >=? 6000 then 0 else id in
      let doc' := {| doc_ID := ToiDea.set_text (doc_ID doc) (pretty id);
                     doc_CMD := doc_CMD doc;
                     doc_IND := ToiDea.set_text (doc_IND doc) (pretty ind_value);
                     doc_VAL := ToiDea.set_text (doc_VAL doc) (pretty val_value) |} in
      (id, with_to_file (if writable then ToiXml doc' writable else to_file d) log d)
  | _ => (current_id, with_to_file (to_file d) log d)
  end.

Definition write_guardrail_autoconsumo (enable : bool) (d : Desk) : Desk :=
  {| to_file := to_file d;
     guardrail := Legacy.write_guardrail_autoconsumo enable (guardrail_writable d)
                    (guardrail d);
     guardrail_writable := guardrail_writable d;
     debt := debt d; debt_writable := debt_writable d;
     service_status := service_status d;
     service_status_writable := service_status_writable d;
     sharing := sharing d; sent := sent d |}.

Definition write_energy_debt (debito : bool) (d : Desk) : Desk :=
  {| to_file := to_file d; guardrail := guardrail d;
     guardrail_writable := guardrail_writable d;
     debt := Legacy.write_energy_debt debito (debt_writable d) (debt d);
     debt_writable := debt_writable d;
     service_status := service_status d;
     service_status_writable := service_status_writable d;
     sharing := sharing d; sent := sent d |}.

Definition write_service_status (active : bool) (d : Desk) : Desk :=
  {| to_file := to_file d; guardrail := guardrail d;
     guardrail_writable := guardrail_writable d;
     debt := debt d; debt_writable := debt_writable d;
     service_status := Legacy.write_service_status active (service_status_writable d)
                         (service_status d);
     service_status_writable := service_status_writable d;
     sharing := sharing d; sent := sent d |}.

(** The calls a step added to the log. *)
Definition new_sent (before after : Desk) : list (Z * Z) :=
  drop (length (sent before)) (sent after).

(** *** controller_idea.py *)

Module Idea.

(** Of [self.values] the tick uses 1090 and 1040; the other thirteen tags
    are stored and three of them printed. *)
Record t : Type := {
  params : Autocons.Params;
  current_setpoint_1101 : Z;
  energy_debt : bool;
  sharing_active : bool;
  v1040 : Q;
  v1090 : Q;
  current_id : Z
}.

(** The parameters of [__init__]. *)
Definition script_params : Autocons.Params :=
  {| Autocons.param1101_min := 70; Autocons.param1101_max := 6000;
     Autocons.grid_setpoint_1090 := 5000; Autocons.grid_deadband := 50;
     Autocons.step_local := 5; Autocons.step_community := 5;
     Autocons.bt_loss_factor := (1 # 10)%Q;
     Autocons.soc_threshold_community := 950 |}.

(** The attributes as [__init__] sets them, before its first reading. *)
Definition attributes : t :=
  {| params := script_params; current_setpoint_1101 := 70; energy_debt := false;
     sharing_active := false; v1040 := 0; v1090 := 0; current_id := 0 |}.

Definition set_setpoint (sp : Z) (c : t) : t :=
  {| params := params c; current_setpoint_1101 := sp; energy_debt := energy_debt c;
     sharing_active := sharing_active c; v1040 := v1040 c; v1090 := v1090 c;
     current_id := current_id c |}.

Definition set_energy_debt (b : bool) (c : t) : t :=
  {| params := params c; current_setpoint_1101 := current_setpoint_1101 c;
     energy_debt := b; sharing_active := sharing_active c; v1040 := v1040 c;
     v1090 := v1090 c; current_id := current_id c |}.

Definition set_sharing_active (b : bool) (c : t) : t :=
  {| params := params c; current_setpoint_1101 := current_setpoint_1101 c;
     energy_debt := energy_debt c; sharing_active := b; v1040 := v1040 c;
     v1090 := v1090 c; current_id := current_id c |}.

Definition set_values (soc sensor : Q) (c : t) : t :=
  {| params := params c; current_setpoint_1101 := current_setpoint_1101 c;
     energy_debt := energy_debt c; sharing_active := sharing_active c;
     v1040 := soc; v1090 := sensor; current_id := current_id c |}.

Definition set_current_id (id : Z) (c : t) : t :=
  {| params := params c; current_setpoint_1101 := current_setpoint_1101 c;
     energy_debt := energy_debt c; sharing_active := sharing_active c;
     v1040 := v1040 c; v1090 := v1090 c; current_id := id |}.

(** [self.update_toi_dea(ind, val)] *)
Definition send (ind_value val_value : Z) (c : t) (d : Desk) : t * Desk :=
  let '(id, d) := update_toi_dea ind_value val_value (current_id c) d in
  (set_current_id id c, d).

Definition regolazione_autoconsumo_locale (sensor1090 : Q) (c : t) (d : Desk)
  : t * Desk :=
  let p := params c in
  let misura := int_of_float sensor1090 in
  if (misura <? 0) || (misura >? 10000) then (c, d) else
  let errore := Autocons.grid_setpoint_1090 p - misura in
  let sp := current_setpoint_1101 c in
  let sp := if Z.abs errore <=? Autocons.grid_deadband p then sp
            else if errore >? 0 then sp + Autocons.step_local p
            else sp - Autocons.step_local p in
  let sp := if sp <? Autocons.param1101_min p then Autocons.param1101_min p else sp in
  let sp := if sp >? Autocons.param1101_max p then Autocons.param1101_max p else sp in
  let debito :=
    (sp >=? Autocons.param1101_max p)
    && (misura <? Autocons.grid_setpoint_1090 p - Autocons.grid_deadband p) in
  let c := c |> set_setpoint sp |> set_energy_debt debito in
  send 1101 sp c (write_energy_debt debito d).

Definition balance_energy (local1090 remote1090 : Q) (c : t) (d : Desk) : t * Desk :=
  let p := params c in
  let misura_local := int_of_float local1090 in
  let misura_remote := int_of_float remote1090 in
  if (misura_local <? 0) || (misura_local >? 10000) then (c, d) else
  if (misura_remote <? 0) || (misura_remote >? 10000) then (c, d) else
  if misura_remote >=? Autocons.grid_setpoint_1090 p then (c, d) else
  let diff_remote := Autocons.grid_setpoint_1090 p - misura_remote in
  if diff_remote <=? 0 then (c, d) else
  let target_local :=
    (inject_Z (Autocons.grid_setpoint_1090 p + diff_remote)
     + inject_Z diff_remote * Autocons.bt_loss_factor p)%Q in
  let errore_local := (target_local - inject_Z misura_local)%Q in
  if leb (Qabs errore_local) (inject_Z (Autocons.grid_deadband p)) then (c, d) else
  let sp := current_setpoint_1101 c in
  let sp := if ltb 0 errore_local then sp + Autocons.step_community p
            else sp - Autocons.step_community p in
  let sp := if sp >? Autocons.param1101_max p then Autocons.param1101_max p else sp in
  let sp := if sp <? Autocons.param1101_min p then Autocons.param1101_min p else sp in
  send 1101 sp (set_setpoint sp c) d.

Section WithParsers.

Variable py_float : string -> option Q.
Variable py_int : string -> option Z.

(** [None] is the method's [False]. *)
Definition read_local_from_idea (from_local : File) (c : t) : option t :=
  match from_local with
  | NoFile => None
  | Unreadable => None
  | Content xml_text =>
      let get := _get_value_from_tag py_float xml_text in
      Some (set_values (get "1040"%string) (get "1090"%string) c)
  end.

(** [__init__]: a first reading, and the debt file reset. *)
Definition init (from_local : File) (d : Desk) : t * Desk :=
  let c := match read_local_from_idea from_local attributes with
           | Some c => c
           | None => attributes
           end in
  (c, write_energy_debt false d).

Definition read_remote_1090 (from_remote : File) : Q :=
  match from_remote with
  | NoFile => 0%Q
  | Unreadable => 0%Q
  | Content xml_text => _get_value_from_tag py_float xml_text "1090"
  end.

Definition tick (from_local from_remote : File) (c : t) (d : Desk) : t * Desk :=
  if negb (Legacy.read_guardrail_autoconsumo (guardrail d)) then (c, d) else
  match read_local_from_idea from_local c with
  | None => (c, d)
  | Some c =>
      let p := params c in
      let misura1090 := v1090 c in
      let soc1040 := v1040 c in
      if ltb misura1090 0 || ltb 10000 misura1090 then (c, d) else
      let debito_da_file := Legacy.read_energy_debt (debt d) in
      let sharing_ok := Legacy.read_sharing_flag py_int (sharing d) in
      let remote1090 := if sharing_ok then read_remote_1090 from_remote else 0%Q in
      let cond_debito := negb debito_da_file in
      let cond_soc := leb (inject_Z (Autocons.soc_threshold_community p)) soc1040 in
      let cond_sharing := sharing_ok in
      let cond_remote_deficit :=
        ltb 0 remote1090 && ltb remote1090 (inject_Z (Autocons.grid_setpoint_1090 p)) in
      let cond_locale_ok :=
        leb (inject_Z (Autocons.grid_setpoint_1090 p - 2 * Autocons.grid_deadband p))
          misura1090 in
      let active :=
        cond_debito && cond_soc && cond_sharing && cond_remote_deficit && cond_locale_ok in
      let c := set_sharing_active active c in
      if active
      then balance_energy misura1090 remote1090 c d
      else regolazione_autoconsumo_locale misura1090 c d
  end.

End WithParsers.

End Idea.

(** *** battery_controller.py *)

Module Batt.

Record Params : Type := {
  emergency_start_soc_dec : Z;
  emergency_stop_soc_dec : Z;
  guardrail_1101_min : Z;
  ibat_low_min : Z;
  ibat_low_max : Z;
  ibat_min : Z;
  ibat_max : Z;
  step_emergency_1101 : Z;
  emergency_1101_max : Z
}.

(** The values of [__init__], which [load_schedule] may replace. *)
Definition default_params : Params :=
  {| emergency_start_soc_dec := 50; emergency_stop_soc_dec := 400;
     guardrail_1101_min := 0;
     ibat_low_min := 0; ibat_low_max := 500;
     ibat_min := 5000; ibat_max := 6000;
     step_emergency_1101 := 50; emergency_1101_max := 0 |}.

Record t : Type := {
  params : Params;
  emergency_active : bool;
  current_id : Z;
  v1040 : Q;
  v1013 : Q;
  v1090 : Q
}.

Definition init (p : Params) : t :=
  {| params := p; emergency_active := false; current_id := 0;
     v1040 := 0; v1013 := 0; v1090 := 0 |}.

Definition set_emergency_active (b : bool) (c : t) : t :=
  {| params := params c; emergency_active := b; current_id := current_id c;
     v1040 := v1040 c; v1013 := v1013 c; v1090 := v1090 c |}.

Definition set_current_id (id : Z) (c : t) : t :=
  {| params := params c; emergency_active := emergency_active c; current_id := id;
     v1040 := v1040 c; v1013 := v1013 c; v1090 := v1090 c |}.

Definition set_values (soc ibat sensor : Q) (c : t) : t :=
  {| params := params c; emergency_active := emergency_active c;
     current_id := current_id c; v1040 := soc; v1013 := ibat; v1090 := sensor |}.

Definition send (ind_value val_value : Z) (c : t) (d : Desk) : t * Desk :=
  let '(id, d) := update_toi_dea ind_value val_value (current_id c) d in
  (set_current_id id c, d).

Section WithParsers.

Variable py_float : string -> option Q.
Variable py_int : string -> option Z.

(** The VAL of ToiDea.xml, whichever register the file names; 0 when the
    file, the node or its text is missing or the text is no integer. *)
Definition current_1101_from_toi_dea (d : Desk) : Z :=
  match to_file d with
  | ToiMissing => 0
  | ToiMalformed => 0
  | ToiXml doc _ =>
      match doc_VAL doc with
      | None => 0
      | Some txt =>
          if (txt =? "")%string then 0            (* [None.strip()] raises *)
          else match py_int (strip txt) with
               | Some v => v
               | None => 0
               end
      end
  end.

Definition handle_emergency_charge (c : t) (d : Desk) : t * Desk :=
  let p := params c in
  let soc := v1040 c in
  let ibat := v1013 c in
  (* entry *)
  let '(c, d) :=
    if negb (emergency_active c)
       && eqb soc (inject_Z (emergency_start_soc_dec p))
       && (leb (inject_Z (ibat_low_min p)) ibat && leb ibat (inject_Z (ibat_low_max p)))
    then
      let '(c, d) := send 1102 1 (set_emergency_active true c) d in
      (c, write_guardrail_autoconsumo false d)
    else (c, d) in
  if negb (emergency_active c) then (c, d) else
  (* exit *)
  if leb (inject_Z (emergency_stop_soc_dec p)) soc then
    let '(c, d) := send 1102 3 (set_emergency_active false c) d in
    (c, write_guardrail_autoconsumo true d)
  else
  (* regulation on the battery current *)
  let current_1101 := current_1101_from_toi_dea d in
  let nuovo_1101 :=
    if ltb ibat (inject_Z (ibat_min p)) then Some (current_1101 - step_emergency_1101 p)
    else if ltb (inject_Z (ibat_max p)) ibat
         then Some (current_1101 + step_emergency_1101 p)
         else None in
  match nuovo_1101 with
  | None => (c, d)
  | Some nuovo_1101 =>
      let nuovo_1101 :=
        if nuovo_1101 <? guardrail_1101_min p then guardrail_1101_min p
        else nuovo_1101 in
      let nuovo_1101 :=
        if nuovo_1101 >? emergency_1101_max p then emergency_1101_max p
        else nuovo_1101 in
      send 1101 nuovo_1101 c d
  end.

Definition read_from_idea (from_local : File) (c : t) : option t :=
  match from_local with
  | NoFile => None
  | Unreadable => None
  | Content xml_text =>
      let get := _get_value_from_tag py_float xml_text in
      Some (set_values (get "1040"%string) (get "1013"%string) (get "1090"%string) c)
  end.

(** The missing-energy report and the meter line, which follow, are printed
    only. *)
Definition tick (from_local : File) (c : t) (d : Desk) : t * Desk :=
  match read_from_idea from_local c with
  | None => (c, d)
  | Some c =>
      if Legacy.read_service_active (service_status d) then (c, d)
      else handle_emergency_charge c d
  end.

End WithParsers.

End Batt.

(** *** carica_forzata_dso.py *)

Module Dso.

(** The attributes of [CaricaForzataDSO] are those of [Service], with the
    command ID of the script. *)
Record t : Type := {
  service : Service;
  current_id : Z
}.

(** The script as [__init__] leaves it when it finds a program for today. *)
Definition init (start_ end_ : Z) : t :=
  {| service := activated start_ end_ 0 0 0; current_id := 0 |}.

Definition with_service (f : Service -> Service) (c : t) : t :=
  {| service := f (service c); current_id := current_id c |}.

Definition send (ind_value val_value : Z) (c : t) (d : Desk) : t * Desk :=
  let '(id, d) := update_toi_dea ind_value val_value (current_id c) d in
  ({| service := service c; current_id := id |}, d).

Definition finish_event (c : t) (d : Desk) : t * Desk :=
  let '(c, d) := send 1102 3 c d in
  (c, d |> write_guardrail_autoconsumo true |> write_service_status false).

Section WithFloat.

Variable py_float : string -> option Q.

Definition read_from_idea (from_local : File) (c : t) : option t :=
  match from_local with
  | NoFile => None
  | Unreadable => None
  | Content txt => Some (with_service (set_soc (_get_value_from_tag py_float txt "1040")) c)
  end.

Definition tick (now : Z) (from_local : File) (c : t) (d : Desk) : t * Desk :=
  if negb (active (service c)) then (c, d) else
  if (now >=? event_end (service c)) && negb (state_eqb (state (service c)) DONE) then
    let '(c, d) := finish_event c d in
    (with_service (set_state DONE) c, d)
  else
  match read_from_idea from_local c with
  | None => (c, d)
  | Some c =>
      let soc := soc_1040 (service c) in
      if now <? event_start (service c) then
        if ltb 50 soc then
          let c := with_service (set_state PRE_DISCHARGE) c in
          let d := write_guardrail_autoconsumo false d in
          let '(c, d) := send 1102 3 c d in
          send 1101 6000 c d
        else if negb (state_eqb (state (service c)) WAIT_EVENT) then
          let '(c, d) := send 1102 0 c d in
          (with_service (set_state WAIT_EVENT) c, write_guardrail_autoconsumo true d)
        else (c, d)
      else if (event_start (service c) <=? now) && (now <? event_end (service c)) then
        let c := with_service (set_state EVENT_ACTIVE) c in
        let d := write_guardrail_autoconsumo false d in
        let '(c, d) := send 1102 1 c d in
        send 1101 (-6000) c d
      else (c, d)
  end.

(** [while dso.state != "DONE": dso.tick(); time.sleep(5)] on the clock
    readings and snapshots of [inputs]; [None] when the loop is still running
    after the last of them. *)
Fixpoint main_loop (inputs : list (Z * File)) (c : t) (d : Desk) : option (t * Desk) :=
  if state_eqb (state (service c)) DONE then Some (c, d) else
  match inputs with
  | [] => None
  | (now, from_local) :: rest =>
      let '(c, d) := tick now from_local c d in
      main_loop rest c d
  end.

(** The main program, without [KeyboardInterrupt]: the early exit of a
    script that found no program, and the [finally] clause. *)
Definition main (inputs : list (Z * File)) (c : t) (d : Desk) : option (t * Desk) :=
  if negb (active (service c)) then Some (c, write_service_status false d)
  else match main_loop inputs c d with
       | Some (c, d) => Some (c, write_service_status false d)
       | None => None
       end.

End WithFloat.

End Dso.

End Scripts.

(** ** Worked inputs for the scripts *)

Module ScriptExamples.

(** A directory with a writable ToiDea.xml, consent to sharing, and no
    flag file yet. *)
Definition desk0 : Scripts.Desk :=
  {| Scripts.to_file := Examples.toidea_ok;
     Scripts.guardrail := NoFile; Scripts.guardrail_writable := true;
     Scripts.debt := NoFile; Scripts.debt_writable := true;
     Scripts.service_status := NoFile; Scripts.service_status_writable := true;
     Scripts.sharing :=
       Legacy.XmlTree [("DATA", Some "07/12/2025 10:00:00"); ("sharing", Some "1")]%string;
     Scripts.sent := [] |}.

(** The same once a service has announced itself. *)
Definition desk_service : Scripts.Desk := Scripts.write_service_status true desk0.

(** The DSO script with an event from instant 10 to instant 100. *)
Definition dso0 : Scripts.Dso.t := Scripts.Dso.init 10 100.

(** Ticks before, during and after the event, battery at 60 %. *)
Definition dso_inputs : list (Z * File) :=
  [(5, Examples.snapshot "600" "0" "2" "5000");
   (50, Examples.snapshot "600" "0" "2" "5000");
   (100, Examples.snapshot "700" "0" "2" "5000");
   (105, Examples.snapshot "700" "0" "2" "5000")].

(** A battery at 5 % with a small current, the emergency charge allowed
    down to -2500. *)
Definition batt_params : Scripts.Batt.Params :=
  {| Scripts.Batt.emergency_start_soc_dec := 50;
     Scripts.Batt.emergency_stop_soc_dec := 400;
     Scripts.Batt.guardrail_1101_min := -2500;
     Scripts.Batt.ibat_low_min := 0; Scripts.Batt.ibat_low_max := 500;
     Scripts.Batt.ibat_min := 5000; Scripts.Batt.ibat_max := 6000;
     Scripts.Batt.step_emergency_1101 := 50; Scripts.Batt.emergency_1101_max := 0 |}.

Definition batt_low : Scripts.Batt.t :=
  Scripts.Batt.set_values 50 100 5000 (Scripts.Batt.init batt_params).

End ScriptExamples.

(** ** Vocabulary: the scripts and their unified counterparts *)

(** What the alarm file of the stand-alone watchdog says. *)
Definition alarm_shown (d : LegacyReset.Disk) : bool :=
  match LegacyReset.alarm_file d with
  | Some txt => (txt =? "MACCHINA IN ALLARME")%string
  | None => false
  end.

(** The stand-alone watchdog and the unified one are in step: same
    counters, same alarm, same register writes so far. *)
Definition watchdogs_in_step (l : LegacyReset.t) (d : LegacyReset.Disk)
  (u : Reset.t) (w : World) : Prop :=
  LegacyReset.reset_attempts l = Reset.reset_attempts u
  /\ LegacyReset.max_attempts l = Reset.max_attempts u
  /\ LegacyReset.alarm_active l = Reset.alarm_active u
  /\ LegacyReset.alarm_writable d = true
  /\ alarm_shown d = is_macchina_allarme w
  /\ LegacyReset.sent d = issued w.

(** [controller_idea.py] and [IdeaNodeControllerUnified] are in step: same
    parameters and set-point, the flag files say what the flags say, same
    register writes so far. *)
Definition idea_in_step (py_int : string -> option Z) (l : Scripts.Idea.t)
  (d : Scripts.Desk) (u : Autocons.t) (w : World) : Prop :=
  Scripts.Idea.params l = Autocons.params u
  /\ Scripts.Idea.current_setpoint_1101 l = Autocons.current_setpoint_1101 u
  /\ Legacy.read_guardrail_autoconsumo (Scripts.guardrail d) = is_autoconsumo_enabled w
  /\ Legacy.read_energy_debt (Scripts.debt d) = is_debito_energetico w
  /\ Legacy.read_sharing_flag py_int (Scripts.sharing d) = is_sharing_enabled w
  /\ Scripts.debt_writable d = true
  /\ Scripts.sent d = issued w.

(** [carica_forzata_dso.py] and [CaricaForzataDSOUnified] are in step. *)
Definition dso_in_step (l : Scripts.Dso.t) (d : Scripts.Desk) (u : Service) (w : World)
  : Prop :=
  Scripts.Dso.service l = u
  /\ Legacy.read_guardrail_autoconsumo (Scripts.guardrail d) = is_autoconsumo_enabled w
  /\ Legacy.read_service_active (Scripts.service_status d) = is_service_active w
  /\ Scripts.guardrail_writable d = true
  /\ Scripts.service_status_writable d = true
  /\ Scripts.sent d = issued w.

(** The limits of the emergency regulation of [battery_controller.py], in
    the order the script applies them. *)
Definition emergency_limits (p : Scripts.Batt.Params) (x : Z) : Z :=
  let x := if x <? Scripts.Batt.guardrail_1101_min p
           then Scripts.Batt.guardrail_1101_min p else x in
  if x >? Scripts.Batt.emergency_1101_max p then Scripts.Batt.emergency_1101_max p else x.

(** * Verification *)

(** ** ToiDeaManager *)

Lemma write_register_id_range reg val file toi :
  0 <= current_id toi < 6000 ->
  0 <= current_id (ToiDea.write_register reg val file toi).1 < 6000.
Proof.
  intros H. unfold ToiDea.write_register, ToiDea.write_register_full.
  destruct file as [| |d [|]]; cbn; try lia;
    destruct (current_id toi + 1 >=? 6000) eqn:E; lia.
Qed.

Lemma toi_reachable_id_range toi :
  toi_reachable toi -> 0 <= current_id toi < 6000.
Proof.
  induction 1 as [|reg val file toi _ IH].
  - cbn. lia.
  - now apply write_register_id_range.
Qed.

(** C10: after a successful [write_register(reg, val)], [get_register(reg)]
    returns [val], the cached value of every other register is unchanged, and
    the command ID is the old one plus one modulo 6000; whatever the outcome of
    the call, the ID stays in 0..5999. *)
Theorem C10_write_register_cache_and_cyclic_id
  (toi : ToiDeaManager) (reg val : Z) (file : ToiFile) :
  toi_reachable toi ->
  let toi' := (ToiDea.write_register reg val file toi).1 in
  0 <= current_id toi' < 6000
  /\ (ToiDea.succeeds reg val file toi ->
      (forall default, ToiDea.get_register reg default toi' = val)
      /\ (forall other default, other <> reg ->
            ToiDea.get_register other default toi' = ToiDea.get_register other default toi)
      /\ current_id toi' = (current_id toi + 1) mod 6000).
Proof.
  intros Hr toi'. pose proof (toi_reachable_id_range _ Hr) as Hid.
  split.
  - now apply write_register_id_range.
  - subst toi'. unfold ToiDea.succeeds, ToiDea.write_register, ToiDea.write_register_full.
    destruct file as [| |d [|]]; cbn; try discriminate. intros _.
    unfold ToiDea.get_register; cbn. repeat split.
    + intros default. now rewrite lookup_insert_eq.
    + intros other default Hne. rewrite lookup_insert_ne; [reflexivity | congruence].
    + destruct (current_id toi + 1 >=? 6000) eqn:E.
      * assert (current_id toi + 1 = 6000) as -> by lia. reflexivity.
      * rewrite Z.mod_small; lia.
Qed.

(** The theorem at the first write of a fresh manager. *)
Lemma C10_witness :
  let toi' := (ToiDea.write_register 1101 1020 Examples.toidea_ok ToiDea.init).1 in
  0 <= current_id toi' < 6000
  /\ ToiDea.get_register 1101 0 toi' = 1020
  /\ ToiDea.get_register 1102 3 toi' = ToiDea.get_register 1102 3 ToiDea.init
  /\ current_id toi' = 1.
Proof.
  destruct (C10_write_register_cache_and_cyclic_id ToiDea.init 1101 1020
              Examples.toidea_ok toi_reach_init) as [Hid Hok].
  destruct (Hok eq_refl) as (Hget & Hother & Hnext).
  refine (conj Hid (conj (Hget 0) (conj (Hother 1102 3 _) Hnext))). discriminate.
Defined.

(** The ID wraps: the write after ID 5999 carries ID 0. *)
Lemma write_register_wraps :
  current_id (ToiDea.write_register 1101 0 Examples.toidea_ok
                {| current_id := 5999; last_values := ∅ |}).1 = 0.
Proof. reflexivity. Qed.

(** ** The telemetry parser *)

Lemma get_value_falls_back py_float xml_text tag_name :
  falls_back py_float xml_text tag_name ->
  _get_value_from_tag py_float xml_text tag_name = 0%Q.
Proof.
  unfold falls_back, _get_value_from_tag, _get_value_from_tag_try.
  intros [H | [(i & H1 & H2) | (i & j & H1 & H2 & H3)]].
  - now rewrite H.
  - now rewrite H1, H2.
  - now rewrite H1, H2, H3.
Qed.

(** C9: the tag parser is a total function that never raises; when the
    opening tag is absent, the closing tag is absent, or the inner text is not
    a number, it returns 0.0, and every controller that reads the snapshot
    file then holds 0 for that register. *)
Theorem C9_parser_falls_back_to_zero
  (py_float : string -> option Q) (xml_text tag_name : string) :
  falls_back py_float xml_text tag_name ->
  _get_value_from_tag py_float xml_text tag_name = 0%Q
  /\ (forall c c', Autocons._read_local_fromidea py_float (Content xml_text) c = Some c' ->
        (tag_name = "1040"%string -> Autocons.v1040 (Autocons.values c') = 0%Q)
        /\ (tag_name = "1070"%string -> Autocons.v1070 (Autocons.values c') = 0%Q)
        /\ (tag_name = "1090"%string -> Autocons.v1090 (Autocons.values c') = 0%Q)
        /\ (tag_name = "1060"%string -> Autocons.v1060 (Autocons.values c') = 0%Q))
  /\ (tag_name = "1090"%string ->
        Autocons._read_remote_1090 py_float (Content xml_text) = 0%Q)
  /\ (forall c c', Battery._read_fromidea py_float (Content xml_text) c = Some c' ->
        (tag_name = "1040"%string -> Battery.v1040 (Battery.values c') = 0%Q)
        /\ (tag_name = "1013"%string -> Battery.v1013 (Battery.values c') = 0%Q)
        /\ (tag_name = "1090"%string -> Battery.v1090 (Battery.values c') = 0%Q))
  /\ (forall c c', service_read_fromidea py_float (Content xml_text) c = Some c' ->
        tag_name = "1040"%string -> soc_1040 c' = 0%Q)
  /\ (forall c c', Reset._read_state_1070 py_float (Content xml_text) c = Some c' ->
        tag_name = "1070"%string -> Reset.v1070 c' = 0%Q).
Proof.
  intros H. pose proof (get_value_falls_back _ _ _ H) as H0.
  split; [exact H0|].
  repeat split; intros; subst tag_name;
    repeat match goal with
           | E : Some _ = Some _ |- _ => injection E as <-
           | E : _ _ (Content _) _ = Some _ |- _ => cbn in E
           end; cbn; try assumption.
Qed.

(** A snapshot without register 1090, read with the decimal reader. *)
Lemma C9_witness :
  _get_value_from_tag Dec.float "<rootmain><1040>500</1040></rootmain>" "1090" = 0%Q
  /\ Autocons._read_remote_1090 Dec.float
       (Content "<rootmain><1040>500</1040></rootmain>") = 0%Q.
Proof.
  pose proof (C9_parser_falls_back_to_zero Dec.float
                "<rootmain><1040>500</1040></rootmain>" "1090"
                (or_introl eq_refl)) as (H & _ & Hr & _).
  split; [exact H | exact (Hr eq_refl)].
Defined.

(** ** The reset watchdog *)

Lemma reset_tick_stato_bound stato c w :
  Reset.max_attempts c = 5 -> 0 <= Reset.reset_attempts c <= 5 ->
  Reset.max_attempts (Reset.tick_stato stato c w).1 = 5
  /\ 0 <= Reset.reset_attempts (Reset.tick_stato stato c w).1 <= 5.
Proof.
  intros Hm Hr. unfold Reset.tick_stato.
  destruct (stato =? 2).
  - destruct c as [a m [|] v]; cbn in *; lia.
  - destruct ((stato =? 0) || (stato =? 1)); [|cbn; lia].
    destruct (Reset.alarm_active c); [cbn; lia|].
    destruct (Reset.reset_attempts c <? Reset.max_attempts c) eqn:E; cbn; lia.
Qed.

Lemma reset_tick_bound py_float f c w :
  Reset.max_attempts c = 5 -> 0 <= Reset.reset_attempts c <= 5 ->
  Reset.max_attempts (Reset.tick py_float f c w).1 = 5
  /\ 0 <= Reset.reset_attempts (Reset.tick py_float f c w).1 <= 5.
Proof.
  intros Hm Hr. unfold Reset.tick, Reset._read_state_1070.
  destruct f; cbn; try lia.
  apply reset_tick_stato_bound; cbn; assumption.
Qed.

Lemma reset_run_bound py_float snapshots : forall c w,
  Reset.max_attempts c = 5 -> 0 <= Reset.reset_attempts c <= 5 ->
  Reset.max_attempts (Reset.run py_float snapshots c w).1 = 5
  /\ 0 <= Reset.reset_attempts (Reset.run py_float snapshots c w).1 <= 5.
Proof.
  induction snapshots as [|f rest IH]; intros c w Hm Hr; cbn; [lia|].
  destruct (Reset.tick py_float f c w) as [c' w'] eqn:E.
  pose proof (reset_tick_bound py_float f c w Hm Hr) as H. rewrite E in H. cbn in H.
  apply IH; tauto.
Qed.

Lemma reset_alarm_quiet_tick py_float f c w :
  Reset.alarm_active c = true -> observes_2 py_float f = false ->
  Reset.alarm_active (Reset.tick py_float f c w).1 = true
  /\ Reset.reset_attempts (Reset.tick py_float f c w).1 = Reset.reset_attempts c
  /\ (Reset.tick py_float f c w).2 = w.
Proof.
  intros Ha Ho. unfold Reset.tick, Reset._read_state_1070, observes_2 in *.
  destruct f as [| |txt]; cbn; auto.
  unfold Reset.tick_stato. cbn. rewrite Ho, Ha.
  destruct (_ || _); cbn; auto.
Qed.

Lemma reset_alarm_quiet_run py_float quiet : forall c w,
  Reset.alarm_active c = true ->
  forallb (fun f => negb (observes_2 py_float f)) quiet = true ->
  Reset.alarm_active (Reset.run py_float quiet c w).1 = true
  /\ Reset.reset_attempts (Reset.run py_float quiet c w).1 = Reset.reset_attempts c
  /\ (Reset.run py_float quiet c w).2 = w.
Proof.
  induction quiet as [|f rest IH]; intros c w Ha Hq; cbn in *; auto.
  apply andb_prop in Hq as [Hf Hrest]. apply negb_true_iff in Hf.
  destruct (reset_alarm_quiet_tick py_float f c w Ha Hf) as (H1 & H2 & H3).
  destruct (Reset.tick py_float f c w) as [c' w']; cbn in *. subst w'.
  destruct (IH c' w H1 Hrest) as (I1 & I2 & I3). rewrite I2, H2. auto.
Qed.

Lemma reset_alarm_cleared py_float f c w :
  Reset.alarm_active c = true -> observes_2 py_float f = true ->
  Reset.reset_attempts (Reset.tick py_float f c w).1 = 0
  /\ Reset.alarm_active (Reset.tick py_float f c w).1 = false
  /\ is_macchina_allarme (Reset.tick py_float f c w).2 = false
  /\ issued (Reset.tick py_float f c w).2 = issued w.
Proof.
  intros Ha Ho. unfold Reset.tick, Reset._read_state_1070, observes_2 in *.
  destruct f as [| |txt]; try discriminate. cbn.
  unfold Reset.tick_stato. cbn. rewrite Ho, Ha. cbn. auto.
Qed.

Lemma legacy_tick_bound py_float f c d :
  LegacyReset.max_attempts c = 5 -> 0 <= LegacyReset.reset_attempts c <= 5 ->
  LegacyReset.max_attempts (LegacyReset.tick py_float f c d).1 = 5
  /\ 0 <= LegacyReset.reset_attempts (LegacyReset.tick py_float f c d).1 <= 5.
Proof.
  intros Hm Hr. unfold LegacyReset.tick, LegacyReset.read_state_1070.
  destruct f as [| |txt]; cbn [fst]; try lia.
  unfold LegacyReset.tick_stato, LegacyReset.update_toi_dea.
  cbn [LegacyReset.set_v1070 LegacyReset.alarm_active LegacyReset.reset_attempts
       LegacyReset.max_attempts LegacyReset.set_reset_attempts LegacyReset.v1070].
  destruct (_ =? 2).
  - destruct (LegacyReset.alarm_active c); cbn; lia.
  - destruct (_ || _); [|cbn; lia].
    destruct (LegacyReset.alarm_active c); [cbn; lia|].
    destruct (LegacyReset.reset_attempts c <? LegacyReset.max_attempts c) eqn:E;
      [|cbn; lia].
    destruct (LegacyReset.to_file d); cbn; lia.
Qed.

Lemma legacy_run_bound py_float snapshots : forall c d,
  LegacyReset.max_attempts c = 5 -> 0 <= LegacyReset.reset_attempts c <= 5 ->
  LegacyReset.max_attempts (LegacyReset.run py_float snapshots c d).1 = 5
  /\ 0 <= LegacyReset.reset_attempts (LegacyReset.run py_float snapshots c d).1 <= 5.
Proof.
  induction snapshots as [|f rest IH]; intros c d Hm Hr; cbn; [lia|].
  destruct (LegacyReset.tick py_float f c d) as [c' d'] eqn:E.
  pose proof (legacy_tick_bound py_float f c d Hm Hr) as H. rewrite E in H. cbn in H.
  apply IH; tauto.
Qed.

Lemma legacy_alarm_quiet_tick py_float f c d :
  LegacyReset.alarm_active c = true -> observes_2 py_float f = false ->
  LegacyReset.alarm_active (LegacyReset.tick py_float f c d).1 = true
  /\ (LegacyReset.tick py_float f c d).2 = d.
Proof.
  intros Ha Ho. unfold LegacyReset.tick, LegacyReset.read_state_1070, observes_2 in *.
  destruct f as [| |txt]; cbn; auto.
  unfold LegacyReset.tick_stato. cbn. rewrite Ho, Ha.
  destruct (_ || _); cbn; auto.
Qed.

Lemma legacy_alarm_quiet_run py_float quiet : forall c d,
  LegacyReset.alarm_active c = true ->
  forallb (fun f => negb (observes_2 py_float f)) quiet = true ->
  LegacyReset.alarm_active (LegacyReset.run py_float quiet c d).1 = true
  /\ (LegacyReset.run py_float quiet c d).2 = d.
Proof.
  induction quiet as [|f rest IH]; intros c d Ha Hq; cbn in *; auto.
  apply andb_prop in Hq as [Hf Hrest]. apply negb_true_iff in Hf.
  destruct (legacy_alarm_quiet_tick py_float f c d Ha Hf) as (H1 & H2).
  destruct (LegacyReset.tick py_float f c d) as [c' d']; cbn in *. subst d'.
  apply IH; assumption.
Qed.

Lemma legacy_alarm_cleared py_float f c d :
  LegacyReset.alarm_active c = true -> observes_2 py_float f = true ->
  LegacyReset.reset_attempts (LegacyReset.tick py_float f c d).1 = 0
  /\ LegacyReset.alarm_active (LegacyReset.tick py_float f c d).1 = false
  /\ LegacyReset.sent (LegacyReset.tick py_float f c d).2 = LegacyReset.sent d.
Proof.
  intros Ha Ho. unfold LegacyReset.tick, LegacyReset.read_state_1070, observes_2 in *.
  destruct f as [| |txt]; try discriminate. cbn.
  unfold LegacyReset.tick_stato. cbn. rewrite Ho, Ha. cbn.
  unfold LegacyReset.write_alarm_message. destruct (LegacyReset.alarm_writable d); auto.
Qed.

(** C6: over every sequence of watchdog ticks from the initial state,
    [reset_attempts] stays within [max_attempts = 5]; once [alarm_active] is
    set, ticks that do not read 1070 = 2 issue no write and keep the alarm,
    and a tick that reads 1070 = 2 zeroes the counter and clears the alarm.
    This holds for the unified watchdog and for the stand-alone one. *)
Theorem C6_watchdog_attempts_bounded_and_alarm_halts
  (py_float : string -> option Q) (snapshots : list File) (w : World)
  (d : LegacyReset.Disk) :
  let c1 := (Reset.run py_float snapshots Reset.init w).1 in
  let w1 := (Reset.run py_float snapshots Reset.init w).2 in
  let l1 := (LegacyReset.run py_float snapshots LegacyReset.init d).1 in
  let d1 := (LegacyReset.run py_float snapshots LegacyReset.init d).2 in
  (Reset.max_attempts c1 = 5
   /\ 0 <= Reset.reset_attempts c1 <= Reset.max_attempts c1
   /\ (Reset.alarm_active c1 = true ->
       (forall quiet,
           forallb (fun f => negb (observes_2 py_float f)) quiet = true ->
           Reset.alarm_active (Reset.run py_float quiet c1 w1).1 = true
           /\ issued (Reset.run py_float quiet c1 w1).2 = issued w1)
       /\ (forall f,
           observes_2 py_float f = true ->
           Reset.reset_attempts (Reset.tick py_float f c1 w1).1 = 0
           /\ Reset.alarm_active (Reset.tick py_float f c1 w1).1 = false
           /\ is_macchina_allarme (Reset.tick py_float f c1 w1).2 = false
           /\ issued (Reset.tick py_float f c1 w1).2 = issued w1)))
  /\ (LegacyReset.max_attempts l1 = 5
      /\ 0 <= LegacyReset.reset_attempts l1 <= LegacyReset.max_attempts l1
      /\ (LegacyReset.alarm_active l1 = true ->
          (forall quiet,
              forallb (fun f => negb (observes_2 py_float f)) quiet = true ->
              LegacyReset.alarm_active (LegacyReset.run py_float quiet l1 d1).1 = true
              /\ LegacyReset.sent (LegacyReset.run py_float quiet l1 d1).2
                 = LegacyReset.sent d1)
          /\ (forall f,
              observes_2 py_float f = true ->
              LegacyReset.reset_attempts (LegacyReset.tick py_float f l1 d1).1 = 0
              /\ LegacyReset.alarm_active (LegacyReset.tick py_float f l1 d1).1 = false
              /\ LegacyReset.sent (LegacyReset.tick py_float f l1 d1).2
                 = LegacyReset.sent d1))).
Proof.
  intros c1 w1 l1 d1. split.
  - destruct (reset_run_bound py_float snapshots Reset.init w eq_refl) as [Hm Hr];
      [cbn; lia|].
    fold c1 in Hm, Hr. split; [exact Hm|]. split; [lia|].
    intros Ha. split.
    + intros quiet Hq.
      destruct (reset_alarm_quiet_run py_float quiet c1 w1 Ha Hq) as (H1 & _ & H3).
      rewrite H3. split; [exact H1 | reflexivity].
    + intros f Hf. apply reset_alarm_cleared; assumption.
  - destruct (legacy_run_bound py_float snapshots LegacyReset.init d eq_refl) as [Hm Hr];
      [cbn; lia|].
    fold l1 in Hm, Hr. split; [exact Hm|]. split; [lia|].
    intros Ha. split.
    + intros quiet Hq.
      destruct (legacy_alarm_quiet_run py_float quiet l1 d1 Ha Hq) as (H1 & H3).
      rewrite H3. split; [exact H1 | reflexivity].
    + intros f Hf. apply legacy_alarm_cleared; assumption.
Qed.

(** Six ticks on a machine in error raise the alarm; three more such ticks
    issue nothing further. *)
Lemma C6_witness :
  let err := Examples.machine_error in
  let r := Reset.run Dec.float [err; err; err; err; err; err] Reset.init
             Examples.world0 in
  Reset.alarm_active r.1 = true
  /\ 0 <= Reset.reset_attempts r.1 <= 5
  /\ issued (Reset.run Dec.float [err; err; err] r.1 r.2).2 = issued r.2.
Proof.
  pose (err := Examples.machine_error).
  destruct (C6_watchdog_attempts_bounded_and_alarm_halts Dec.float
              [err; err; err; err; err; err] Examples.world0 Examples.disk0)
    as [(Hm & Hr & Ha) _].
  assert (Reset.alarm_active
            (Reset.run Dec.float [err; err; err; err; err; err] Reset.init
               Examples.world0).1 = true) as E by (vm_compute; reflexivity).
  destruct (Ha E) as [Hq _].
  destruct (Hq [err; err; err]) as [_ Hi]; [vm_compute; reflexivity|].
  rewrite Hm in Hr. exact (conj E (conj Hr Hi)).
Defined.

(** Scenario: five ticks that read 1070 = 1 issue five resets, the sixth
    raises the alarm, later ones issue nothing, and 1070 = 2 clears it. *)
Lemma watchdog_scenario :
  let err := Examples.machine_error in
  let ok := Examples.snapshot "500" "0" "2" "5000" in
  let '(c5, w5) := Reset.run Dec.float [err; err; err; err; err] Reset.init Examples.world0 in
  let '(c6, w6) := Reset.tick Dec.float err c5 w5 in
  let '(c8, w8) := Reset.run Dec.float [err; err] c6 w6 in
  let '(c9, w9) := Reset.tick Dec.float ok c8 w8 in
  issued w5 = [(1103, 10); (1103, 10); (1103, 10); (1103, 10); (1103, 10)]
  /\ Reset.alarm_active c5 = false
  /\ Reset.alarm_active c6 = true /\ is_macchina_allarme w6 = true
  /\ issued w6 = issued w5 /\ issued w8 = issued w5
  /\ Reset.alarm_active c9 = false /\ Reset.reset_attempts c9 = 0
  /\ is_macchina_allarme w9 = false.
Proof. vm_compute. repeat split. Qed.

(** ** Truncation and comparison of floats *)

Lemma ltb_true_iff x y : ltb x y = true <-> (x < y)%Q.
Proof.
  unfold ltb. rewrite negb_true_iff. split.
  - intros H. apply Qnot_le_lt. intros Hle. apply Qle_bool_iff in Hle. congruence.
  - intros H. destruct (Qle_bool y x) eqn:E; [|reflexivity].
    apply Qle_bool_iff in E. exfalso. exact (Qlt_not_le _ _ H E).
Qed.

Lemma ltb_false_iff x y : ltb x y = false <-> (y <= x)%Q.
Proof.
  unfold ltb. rewrite negb_false_iff. apply Qle_bool_iff.
Qed.

Lemma int_of_float_nonneg v : (0 <= v)%Q -> 0 <= int_of_float v.
Proof.
  destruct v as [n d]. unfold Qle, int_of_float. cbn. intros H.
  apply Z.quot_pos; lia.
Qed.

Lemma int_of_float_lt_iff v k :
  (0 <= v)%Q -> int_of_float v < k <-> (v < inject_Z k)%Q.
Proof.
  destruct v as [n d]. unfold Qle, Qlt, int_of_float. cbn. intros H.
  rewrite Z.quot_div_nonneg by lia. split; intros Hlt.
  - assert (n < Z.pos d * k); [|lia].
    destruct (Z_lt_le_dec n (Z.pos d * k)); [assumption|].
    assert (k <= n / Z.pos d) by (apply Z.div_le_lower_bound; lia). lia.
  - apply Z.div_lt_upper_bound; lia.
Qed.

Lemma int_of_float_le v k :
  (0 <= v)%Q -> (v <= inject_Z k)%Q -> int_of_float v <= k.
Proof.
  intros H0 Hk. destruct (Z_lt_le_dec k (int_of_float v)) as [Hlt|]; [|assumption].
  exfalso. destruct v as [n d]. unfold Qle, int_of_float in *. cbn in *.
  rewrite Z.quot_div_nonneg in Hlt by lia.
  assert (n / Z.pos d <= k); [|lia].
  apply Z.div_le_upper_bound; lia.
Qed.

Lemma int_of_float_ltb v k :
  (0 <= v)%Q -> (int_of_float v <? k) = ltb v (inject_Z k).
Proof.
  intros H. destruct (ltb v (inject_Z k)) eqn:E.
  - apply Z.ltb_lt, int_of_float_lt_iff, ltb_true_iff; assumption.
  - apply Z.ltb_ge. apply ltb_false_iff in E.
    destruct (Z_lt_le_dec (int_of_float v) k) as [Hlt|]; [|assumption].
    apply int_of_float_lt_iff in Hlt; [|assumption].
    exfalso. exact (Qlt_not_le _ _ Hlt E).
Qed.

Lemma int_of_float_inject v k : (v == inject_Z k)%Q -> int_of_float v = k.
Proof.
  destruct v as [n d]. unfold Qeq, int_of_float. cbn. intros H.
  assert (n = k * Z.pos d) as -> by lia. apply Z.quot_mul. lia.
Qed.

(** ** Self-consumption: the local regulation *)

Lemma toi_write_flags reg val w : flags (toi_write reg val w) = flags w.
Proof.
  unfold toi_write. destruct (ToiDea.write_register _ _ _ _). reflexivity.
Qed.

Lemma toi_write_issued reg val w :
  issued (toi_write reg val w) = issued w ++ [(reg, val)].
Proof.
  unfold toi_write. destruct (ToiDea.write_register _ _ _ _). reflexivity.
Qed.

(** A reading more than two deadbands below the grid setpoint rules the
    community mode out, whatever the flags, the battery and the neighbour. *)
Lemma community_predicate_far_below c w remote :
  (Autocons.v1090 (Autocons.values c)
   < inject_Z (Autocons.grid_setpoint_1090 (Autocons.params c)
               - 2 * Autocons.grid_deadband (Autocons.params c)))%Q ->
  Autocons.community_predicate c w remote = false.
Proof.
  intros H. unfold Autocons.community_predicate.
  assert (leb (inject_Z (Autocons.grid_setpoint_1090 (Autocons.params c)
                         - 2 * Autocons.grid_deadband (Autocons.params c)))
            (Autocons.v1090 (Autocons.values c)) = false) as ->.
  { unfold leb. destruct (Qle_bool _ _) eqn:E; [|reflexivity].
    apply Qle_bool_iff in E. exfalso. exact (Qlt_not_le _ _ H E). }
  apply andb_false_r.
Qed.

(** One local tick below the deadband: the setpoint rises by [step_local]. *)
Lemma local_tick_rises py_float txt remote c w :
  let p := Autocons.params c in
  let sp := Autocons.current_setpoint_1101 c in
  Autocons.grid_setpoint_1090 p = 5000 -> Autocons.grid_deadband p = 50 ->
  Autocons.param1101_min p <= sp + Autocons.step_local p <= Autocons.param1101_max p ->
  is_autoconsumo_enabled w = true ->
  (_get_value_from_tag py_float txt "1090" == 4800)%Q ->
  let r := Autocons.tick py_float (Content txt) remote c w in
  Autocons.params r.1 = p
  /\ Autocons.current_setpoint_1101 r.1 = sp + Autocons.step_local p
  /\ issued r.2 = issued w ++ [(1101, sp + Autocons.step_local p)]
  /\ is_autoconsumo_enabled r.2 = true.
Proof.
  intros p sp Hset Hdb Hrange Hen H1090 r. subst r.
  unfold Autocons.tick. rewrite Hen. cbn [negb Autocons._read_local_fromidea].
  cbn [Autocons.values Autocons.set_values Autocons.v1090].
  set (v := _get_value_from_tag py_float txt "1090") in *.
  assert (ltb v 0 || ltb 10000 v = false) as ->.
  { apply orb_false_intro; apply ltb_false_iff; lra. }
  rewrite community_predicate_far_below
    by (cbn [Autocons.params Autocons.set_values Autocons.values Autocons.v1090];
        fold p v; rewrite Hset, Hdb, H1090; reflexivity).
  unfold Autocons._regolazione_autoconsumo_locale.
  cbn [Autocons.params Autocons.set_values Autocons.current_setpoint_1101].
  fold p sp. rewrite Hset, Hdb, (int_of_float_inject v 4800 H1090).
  change ((4800 <? 0) || (4800 >? 10000)) with false.
  change (Z.abs (5000 - 4800) <=? 50) with false.
  change (5000 - 4800 >? 0) with true. cbn iota.
  assert (Z.ltb (sp + Autocons.step_local p) (Autocons.param1101_min p) = false) as -> by lia.
  assert (Z.gtb (sp + Autocons.step_local p) (Autocons.param1101_max p) = false) as -> by lia.
  cbn [fst snd Autocons.params Autocons.set_setpoint Autocons.current_setpoint_1101].
  rewrite toi_write_issued.
  unfold is_autoconsumo_enabled in *.
  rewrite toi_write_flags.
  destruct (_ && _); cbn; auto.
Qed.

Lemma local_ticks_rise py_float txt remote n : forall c w,
  let p := Autocons.params c in
  let sp := Autocons.current_setpoint_1101 c in
  let step := Autocons.step_local p in
  Autocons.grid_setpoint_1090 p = 5000 -> Autocons.grid_deadband p = 50 ->
  0 <= step ->
  Autocons.param1101_min p <= sp + step ->
  sp + Z.of_nat n * step <= Autocons.param1101_max p ->
  is_autoconsumo_enabled w = true ->
  (_get_value_from_tag py_float txt "1090" == 4800)%Q ->
  let r := Autocons.ticks py_float n (Content txt) remote c w in
  Autocons.current_setpoint_1101 r.1 = sp + Z.of_nat n * step
  /\ issued r.2
     = issued w ++ map (fun k => (1101, sp + Z.of_nat k * step)) (seq 1 n).
Proof.
  induction n as [|n IH]; intros c w p sp step Hset Hdb Hstep Hmin Hmax Hen H1090.
  - cbn. split; [lia | now rewrite app_nil_r].
  - cbn [Autocons.ticks].
    destruct (local_tick_rises py_float txt remote c w Hset Hdb)
      as (Hp & Hsp & Hiss & Hen');
      try assumption.
    { fold p sp step. nia. }
    destruct (Autocons.tick py_float (Content txt) remote c w) as [c' w'].
    cbn [fst snd] in *. fold p sp step in Hp, Hsp, Hiss.
    specialize (IH c' w'). cbn zeta in IH. rewrite Hp, Hsp in IH.
    destruct IH as [I1 I2]; try assumption; try (fold step; nia).
    split.
    + rewrite I1. fold step. lia.
    + rewrite I2, Hiss, <- app_assoc. f_equal. cbn [app seq map]. f_equal.
      * f_equal. lia.
      * rewrite <- (seq_shift n 1), map_map. apply map_ext. intros k. f_equal.
        fold step. lia.
Qed.

(** C7: with 1090 = 4800, a previous setpoint of 1000, deadband 50 and
    step_local 20, the controller regulates locally, whatever the sharing
    flag, the battery and the neighbour: the first tick issues the write
    1101 = 1020, and after 10 ticks on the same input the setpoint is 1200. *)
Theorem C7_local_grid_zero_convergence
  (py_float : string -> option Q) (txt : string) (remote : File)
  (c : Autocons.t) (w : World) :
  Autocons.grid_setpoint_1090 (Autocons.params c) = 5000 ->
  Autocons.grid_deadband (Autocons.params c) = 50 ->
  Autocons.step_local (Autocons.params c) = 20 ->
  Autocons.param1101_min (Autocons.params c) <= 1020 ->
  1200 <= Autocons.param1101_max (Autocons.params c) ->
  Autocons.current_setpoint_1101 c = 1000 ->
  is_autoconsumo_enabled w = true ->
  (_get_value_from_tag py_float txt "1090" == 4800)%Q ->
  new_calls w (Autocons.tick py_float (Content txt) remote c w).2 = [(1101, 1020)]
  /\ Autocons.current_setpoint_1101
       (Autocons.ticks py_float 10 (Content txt) remote c w).1 = 1200
  /\ last (issued (Autocons.ticks py_float 10 (Content txt) remote c w).2)
     = Some (1101, 1200).
Proof.
  intros Hset Hdb Hstep Hmin Hmax Hsp Hen H1090.
  split; [|split].
  - destruct (local_tick_rises py_float txt remote c w Hset Hdb) as (_ & _ & Hiss & _);
      try assumption; [lia|].
    unfold new_calls. rewrite Hiss, drop_app_length, Hsp, Hstep. reflexivity.
  - destruct (local_ticks_rise py_float txt remote 10 c w Hset Hdb) as [H _];
      try assumption; lia.
  - destruct (local_ticks_rise py_float txt remote 10 c w Hset Hdb) as [_ H];
      try assumption; try lia.
    rewrite H, Hsp, Hstep. cbn [seq map]. rewrite last_app. reflexivity.
Qed.

(** The scenario with the default configuration and the default flags
    (sharing on), a battery at 96 % and a neighbour in deficit at 4000. *)
Lemma C7_witness :
  let c := Autocons.set_setpoint 1000 (Autocons.init Autocons.default_params) in
  let f := Examples.snapshot "960" "0" "2" "4800" in
  let remote := Examples.snapshot "500" "0" "2" "4000" in
  let w := Examples.world0 in
  new_calls w (Autocons.tick Dec.float f remote c w).2 = [(1101, 1020)]
  /\ Autocons.current_setpoint_1101 (Autocons.ticks Dec.float 10 f remote c w).1 = 1200
  /\ last (issued (Autocons.ticks Dec.float 10 f remote c w).2) = Some (1101, 1200).
Proof.
  apply (C7_local_grid_zero_convergence Dec.float
           (Examples.snapshot_text "960" "0" "2" "4800")
           (Examples.snapshot "500" "0" "2" "4000"));
    try reflexivity; cbn; lia.
Defined.

(** ** Range of the values written to register 1101 *)

Lemma issued_with_flags f w : issued (with_flags f w) = issued w.
Proof. reflexivity. Qed.

Lemma toi_with_flags f w : toi (with_flags f w) = toi w.
Proof. reflexivity. Qed.

Ltac issued_norm :=
  repeat first
    [ rewrite toi_write_issued
    | progress unfold set_autoconsumo_enabled, set_service_active,
        set_debito_energetico, set_macchina_allarme
    | rewrite issued_with_flags
    | rewrite toi_with_flags ].

Lemma new_calls_issued w w' l : issued w' = issued w ++ l -> new_calls w w' = l.
Proof. intros H. unfold new_calls. rewrite H. apply drop_app_length. Qed.

Lemma new_calls_same w w' : issued w' = issued w -> new_calls w w' = [].
Proof. intros H. unfold new_calls. rewrite H. apply drop_all. Qed.

Lemma locale_writes_in_range sensor c w :
  let p := Autocons.params c in
  Autocons.param1101_min p <= Autocons.param1101_max p ->
  writes_1101_within (Autocons.param1101_min p) (Autocons.param1101_max p)
    (new_calls w (Autocons._regolazione_autoconsumo_locale sensor c w).2).
Proof.
  intros p Hle. unfold Autocons._regolazione_autoconsumo_locale. fold p.
  destruct (_ || _).
  { cbn. rewrite new_calls_same by reflexivity. constructor. }
  cbn [snd].
  match goal with |- context [toi_write 1101 ?v ?w0] =>
    rewrite (new_calls_issued w (toi_write 1101 v w0) [(1101, v)]) end.
  2:{ rewrite toi_write_issued. f_equal. destruct (_ && _); reflexivity. }
  constructor; [|constructor]. intros _. cbn [snd].
  repeat match goal with |- context [if ?b then _ else _] => destruct b eqn:? end; lia.
Qed.

Lemma balance_writes_in_range local remote c w :
  let p := Autocons.params c in
  Autocons.param1101_min p <= Autocons.param1101_max p ->
  writes_1101_within (Autocons.param1101_min p) (Autocons.param1101_max p)
    (new_calls w (Autocons._balance_energy local remote c w).2).
Proof.
  intros p Hle. unfold Autocons._balance_energy. fold p.
  repeat match goal with
         | |- context [if ?b then (c, w) else _] =>
             destruct b eqn:?;
             [cbn; rewrite new_calls_same by reflexivity; constructor|]
         end.
  cbn [snd].
  match goal with |- context [toi_write 1101 ?v ?w0] =>
    rewrite (new_calls_issued w (toi_write 1101 v w0) [(1101, v)])
      by (rewrite toi_write_issued; reflexivity) end.
  constructor; [|constructor]. intros _. cbn [snd].
  repeat match goal with |- context [if ?b then _ else _] => destruct b eqn:? end; lia.
Qed.

(** Every value the self-consumption tick writes to 1101 lies in
    [param1101_min, param1101_max]. *)
Lemma autocons_tick_writes_in_range py_float from_local from_remote c w :
  let p := Autocons.params c in
  Autocons.param1101_min p <= Autocons.param1101_max p ->
  writes_1101_within (Autocons.param1101_min p) (Autocons.param1101_max p)
    (new_calls w (Autocons.tick py_float from_local from_remote c w).2).
Proof.
  intros p Hle. unfold Autocons.tick.
  destruct (negb _); [cbn; rewrite new_calls_same by reflexivity; constructor|].
  destruct from_local as [| |txt]; cbn [Autocons._read_local_fromidea];
    try (cbn; rewrite new_calls_same by reflexivity; constructor).
  destruct (_ || _); [cbn; rewrite new_calls_same by reflexivity; constructor|].
  destruct (Autocons.community_predicate _ _ _).
  - apply (balance_writes_in_range _ _ (Autocons.set_values _ c) w Hle).
  - apply (locale_writes_in_range _ (Autocons.set_values _ c) w Hle).
Qed.

(** Without the battery-current override the emergency regulation keeps its
    1101 writes in [guardrail_1101_min, emergency_1101_max]. *)
Lemma emergency_writes_in_range_without_override c w :
  let p := Battery.params c in
  Battery.guardrail_1101_min p <= 0 <= Battery.emergency_1101_max p ->
  ltb (inject_Z (Battery.ibat_max p)) (Battery.v1013 (Battery.values c)) = false ->
  writes_1101_within (Battery.guardrail_1101_min p) (Battery.emergency_1101_max p)
    (new_calls w (Battery._handle_emergency_charge c w).2).
Proof.
  intros p Hle Hib. unfold Battery._handle_emergency_charge. fold p. rewrite Hib.
  set (entry := negb _ && _ && _).
  destruct entry; cbv beta iota zeta;
    cbn [Battery.emergency_active Battery.set_emergency_active negb
         Battery.params Battery.values]; fold p;
    repeat match goal with
      | |- context [match ?x with (_, _) => _ end] => destruct x eqn:?
      | |- context [if ?b then _ else _] => destruct b eqn:?
      end;
    cbn [snd];
    first
      [ rewrite new_calls_same by reflexivity; constructor
      | erewrite new_calls_issued
          by (issued_norm; rewrite <- ?app_assoc; reflexivity);
        unfold writes_1101_within; cbn [app];
        repeat match goal with
          | |- Forall _ (_ :: _) =>
              constructor;
              [cbn [fst snd]; intros ?; try discriminate;
               unfold set_autoconsumo_enabled in *;
               repeat match goal with
                 | H : context [toi (with_flags _ _)] |- _ =>
                     rewrite toi_with_flags in H
                 end; lia|]
          | |- Forall _ [] => constructor
          end ].
Qed.

(** C1 (the code departs from it): the self-consumption writes stay in
    [param1101_min, param1101_max] ([autocons_tick_writes_in_range]) and so
    do the emergency writes without the override
    ([emergency_writes_in_range_without_override]); with the battery-current
    override the emergency regulation writes
    [max(nuovo_1101 + step, emergency_1101_max)].  On the default
    configuration, after the entry tick (1040 = 50, 1013 = 300, 1090 = 0) a
    tick with 1040 = 60, 1013 = 7000, 1090 = 0 writes 1101 = 50, above
    [emergency_1101_max = 0]. *)
Theorem C1_emergency_override_writes_above_max :
  let p := Battery.default_params in
  let r1 := Battery.tick Dec.float (Examples.snapshot "50" "300" "2" "0")
              (Battery.init p) Examples.world0 in
  let r2 := Battery.tick Dec.float (Examples.snapshot "60" "7000" "2" "0") r1.1 r1.2 in
  Battery.emergency_active r1.1 = true
  /\ issued r1.2 = [(1102, 1); (1101, 0)]
  /\ Battery.emergency_active r2.1 = true
  /\ new_calls r1.2 r2.2 = [(1101, 50)]
  /\ ToiDea.get_register 1101 0 (toi r2.2) = 50
  /\ Battery.emergency_1101_max p = 0
  /\ ~ writes_1101_within (Battery.guardrail_1101_min p) (Battery.emergency_1101_max p)
         (new_calls r1.2 r2.2).
Proof.
  cbv zeta.
  assert (new_calls
            (Battery.tick Dec.float (Examples.snapshot "50" "300" "2" "0")
               (Battery.init Battery.default_params) Examples.world0).2
            (Battery.tick Dec.float (Examples.snapshot "60" "7000" "2" "0")
               (Battery.tick Dec.float (Examples.snapshot "50" "300" "2" "0")
                  (Battery.init Battery.default_params) Examples.world0).1
               (Battery.tick Dec.float (Examples.snapshot "50" "300" "2" "0")
                  (Battery.init Battery.default_params) Examples.world0).2).2
          = [(1101, 50)]) as E by (vm_compute; reflexivity).
  repeat split; try (vm_compute; reflexivity).
  rewrite E. intros H. inversion H as [|? ? H1 _]; subst.
  specialize (H1 eq_refl). cbn in H1. lia.
Qed.

(** ** Self-consumption: what a tick ends with *)

(** Case analysis on every [if], innermost condition first. *)
Ltac destruct_ifs :=
  repeat match goal with
    | |- context [if ?b then _ else _] =>
        lazymatch b with
        | context [if _ then _ else _] => fail
        | _ => destruct b eqn:?
        end
    end.

Lemma locale_spec sensor c w :
  let p := Autocons.params c in
  let sp' := clamp (Autocons.param1101_min p) (Autocons.param1101_max p)
               (local_adjust p (Autocons.current_setpoint_1101 c) (int_of_float sensor)) in
  (0 <= sensor)%Q -> (sensor <= 10000)%Q ->
  Autocons.param1101_min p <= Autocons.param1101_max p ->
  let r := Autocons._regolazione_autoconsumo_locale sensor c w in
  r.1 = Autocons.set_setpoint sp' c
  /\ r.2 = toi_write 1101 sp'
             (set_debito_energetico
                ((sp' =? Autocons.param1101_max p)
                 && ltb sensor (inject_Z (Autocons.grid_setpoint_1090 p
                                          - Autocons.grid_deadband p))) w).
Proof.
  intros p sp' H0 H1 Hle r. subst r.
  unfold Autocons._regolazione_autoconsumo_locale. cbv zeta. fold p.
  pose proof (int_of_float_nonneg _ H0) as Hi0.
  pose proof (int_of_float_le _ 10000 H0 H1) as Hi1.
  assert ((int_of_float sensor <? 0) || (int_of_float sensor >? 10000) = false) as ->.
  { apply orb_false_intro; lia. }
  match goal with |- context [Autocons.set_setpoint ?e c] =>
    assert (e = sp') as Hsp end.
  { unfold sp', clamp, local_adjust. destruct_ifs; lia. }
  rewrite Hsp. cbn [fst snd]. split; [reflexivity|].
  rewrite (int_of_float_ltb _ _ H0).
  assert ((sp' >=? Autocons.param1101_max p) = (sp' =? Autocons.param1101_max p)) as ->.
  { unfold sp', clamp. lia. }
  destruct (_ && _); reflexivity.
Qed.

Lemma balance_spec local1090 remote1090 c w :
  let p := Autocons.params c in
  let err := community_error p local1090 remote1090 in
  (0 <= local1090)%Q -> (local1090 <= 10000)%Q ->
  (0 < remote1090)%Q -> (remote1090 < inject_Z (Autocons.grid_setpoint_1090 p))%Q ->
  Autocons.grid_setpoint_1090 p <= 10000 ->
  let r := Autocons._balance_energy local1090 remote1090 c w in
  if leb (Qabs err) (inject_Z (Autocons.grid_deadband p)) then r = (c, w)
  else
    let sp' := clamp (Autocons.param1101_min p) (Autocons.param1101_max p)
                 (if ltb 0 err
                  then Autocons.current_setpoint_1101 c + Autocons.step_community p
                  else Autocons.current_setpoint_1101 c - Autocons.step_community p) in
    r = (Autocons.set_setpoint sp' c, toi_write 1101 sp' w).
Proof.
  intros p err L0 L1 R0 R1 Hset r. subst r.
  unfold Autocons._balance_energy. cbv zeta. fold p.
  pose proof (int_of_float_nonneg _ L0) as Hl0.
  pose proof (int_of_float_le _ 10000 L0 L1) as Hl1.
  pose proof (int_of_float_nonneg _ (Qlt_le_weak _ _ R0)) as Hr0.
  pose proof (proj2 (int_of_float_lt_iff _ _ (Qlt_le_weak _ _ R0)) R1) as Hr1.
  assert ((int_of_float local1090 <? 0) || (int_of_float local1090 >? 10000) = false) as ->
    by (apply orb_false_intro; lia).
  assert ((int_of_float remote1090 <? 0) || (int_of_float remote1090 >? 10000) = false) as ->
    by (apply orb_false_intro; lia).
  assert ((int_of_float remote1090 >=? Autocons.grid_setpoint_1090 p) = false) as -> by lia.
  assert ((Autocons.grid_setpoint_1090 p - int_of_float remote1090 <=? 0) = false) as ->
    by lia.
  fold (community_error p local1090 remote1090). fold err.
  destruct (leb (Qabs err) _); [reflexivity|].
  cbv zeta.
  match goal with |- (Autocons.set_setpoint ?e c, _) = _ =>
    assert (e = clamp (Autocons.param1101_min p) (Autocons.param1101_max p)
                  (if ltb 0 err
                   then Autocons.current_setpoint_1101 c + Autocons.step_community p
                   else Autocons.current_setpoint_1101 c - Autocons.step_community p))
      as -> end.
  { unfold clamp. destruct_ifs; lia. }
  reflexivity.
Qed.

Lemma clamp_range lo hi x : lo <= hi -> lo <= clamp lo hi x <= hi.
Proof. unfold clamp. lia. Qed.

(** C5 (amended): on a self-consumption tick with [autoconsumo_enabled] and
    1090 inside [0, 10000], the local branch ends by clamping 1101 to
    [param1101_min, param1101_max], setting
    [debito_energetico := (1101 == param1101_max && 1090 < setpoint - deadband)]
    and submitting the clamped write; the community branch leaves
    [debito_energetico] as it was, writes nothing when the local sensor is
    within the deadband of the sharing target, and otherwise steps 1101 by
    [step_community], clamps it and submits the clamped write. *)
Theorem C5_tick_local_sets_debt_community_does_not
  (py_float : string -> option Q) (txt : string) (from_remote : File)
  (c c_r : Autocons.t) (w : World) :
  let p := Autocons.params c in
  let lo := Autocons.param1101_min p in
  let hi := Autocons.param1101_max p in
  let sp := Autocons.current_setpoint_1101 c in
  is_autoconsumo_enabled w = true ->
  Autocons._read_local_fromidea py_float (Content txt) c = Some c_r ->
  (0 <= Autocons.v1090 (Autocons.values c_r))%Q ->
  (Autocons.v1090 (Autocons.values c_r) <= 10000)%Q ->
  lo <= hi ->
  Autocons.grid_setpoint_1090 p <= 10000 ->
  let local1090 := Autocons.v1090 (Autocons.values c_r) in
  let remote1090 :=
    if is_sharing_enabled w then Autocons._read_remote_1090 py_float from_remote
    else 0%Q in
  let r := Autocons.tick py_float (Content txt) from_remote c w in
  if Autocons.community_predicate c_r w remote1090 then
    let err := community_error p local1090 remote1090 in
    flags r.2 = flags w
    /\ (if leb (Qabs err) (inject_Z (Autocons.grid_deadband p))
        then Autocons.current_setpoint_1101 r.1 = sp /\ new_calls w r.2 = []
        else
          let sp' := clamp lo hi (if ltb 0 err then sp + Autocons.step_community p
                                  else sp - Autocons.step_community p) in
          Autocons.current_setpoint_1101 r.1 = sp' /\ lo <= sp' <= hi
          /\ new_calls w r.2 = [(1101, sp')])
  else
    let sp' := clamp lo hi (local_adjust p sp (int_of_float local1090)) in
    Autocons.current_setpoint_1101 r.1 = sp' /\ lo <= sp' <= hi
    /\ is_debito_energetico r.2
       = (sp' =? hi)
         && ltb local1090
              (inject_Z (Autocons.grid_setpoint_1090 p - Autocons.grid_deadband p))
    /\ new_calls w r.2 = [(1101, sp')].
Proof.
  intros p lo hi sp Hen Hread H0 H1 Hle Hset local1090 remote1090 r. subst r.
  unfold Autocons.tick. rewrite Hen, Hread. cbn [negb]. fold local1090.
  assert (ltb local1090 0 || ltb 10000 local1090 = false) as ->.
  { apply orb_false_intro; apply ltb_false_iff; assumption. }
  fold remote1090.
  assert (Autocons.params c_r = p /\ Autocons.current_setpoint_1101 c_r = sp) as [Hp Hsp].
  { cbn in Hread. injection Hread as <-. split; reflexivity. }
  destruct (Autocons.community_predicate c_r w remote1090) eqn:Hcp.
  - unfold Autocons.community_predicate in Hcp.
    apply andb_prop in Hcp as [Hcp _]. apply andb_prop in Hcp as [_ Hcp].
    apply andb_prop in Hcp as [R0 R1].
    apply ltb_true_iff in R0, R1. rewrite Hp in R1.
    pose proof (balance_spec local1090 remote1090 c_r w H0 H1 R0) as Hb.
    rewrite Hp, Hsp in Hb. specialize (Hb R1 Hset). cbv zeta in Hb. cbv zeta.
    destruct (leb _ _).
    + rewrite Hb. cbn [fst snd]. repeat split; auto.
      apply new_calls_same; reflexivity.
    + rewrite Hb. cbn [fst snd]. rewrite toi_write_flags.
      repeat split; try (apply clamp_range; assumption).
      apply new_calls_issued, toi_write_issued.
  - destruct (locale_spec local1090 c_r w H0 H1) as [E1 E2].
    { rewrite Hp. assumption. }
    rewrite Hp, Hsp in E1, E2. cbv zeta. rewrite E1, E2. cbn [fst snd].
    repeat split; try (apply clamp_range; assumption).
    + unfold is_debito_energetico. rewrite toi_write_flags. reflexivity.
    + apply new_calls_issued. rewrite toi_write_issued. reflexivity.
Qed.

(** The theorem on the default configuration in community mode: setpoint at
    6000, local 1090 = 4920, SOC 96 %, neighbour 1090 = 4000. *)
Lemma C5_witness :
  let c := Autocons.set_setpoint 6000 (Autocons.init Autocons.default_params) in
  let r := Autocons.tick Dec.float (Examples.snapshot "960" "0" "2" "4920")
             (Examples.snapshot "0" "0" "0" "4000") c Examples.world0 in
  flags r.2 = flags Examples.world0
  /\ Autocons.current_setpoint_1101 r.1 = 6000
  /\ new_calls Examples.world0 r.2 = [(1101, 6000)].
Proof.
  pose (c := Autocons.set_setpoint 6000 (Autocons.init Autocons.default_params)).
  pose (txt := Examples.snapshot_text "960" "0" "2" "4920").
  assert (exists c_r, Autocons._read_local_fromidea Dec.float (Content txt) c = Some c_r
                      /\ Autocons.v1090 (Autocons.values c_r) = 4920%Q)
    as (c_r & Hread & Hv) by (eexists; split; vm_compute; reflexivity).
  pose proof (C5_tick_local_sets_debt_community_does_not Dec.float txt
                (Examples.snapshot "0" "0" "0" "4000") c c_r Examples.world0
                eq_refl Hread) as H.
  cbv zeta in H. rewrite Hv in H.
  assert (0 <= 4920)%Q as H0 by (unfold Qle; cbn; lia).
  assert (4920 <= 10000)%Q as H1 by (unfold Qle; cbn; lia).
  specialize (H H0 H1).
  assert (Autocons.param1101_min (Autocons.params c)
          <= Autocons.param1101_max (Autocons.params c)) as Hle by (cbn; lia).
  assert (Autocons.grid_setpoint_1090 (Autocons.params c) <= 10000) as Hs by (cbn; lia).
  specialize (H Hle Hs).
  assert (Autocons.community_predicate c_r Examples.world0
            (if is_sharing_enabled Examples.world0
             then Autocons._read_remote_1090 Dec.float
                    (Examples.snapshot "0" "0" "0" "4000")
             else 0%Q) = true) as Hcp.
  { vm_compute in Hread. injection Hread as <-. vm_compute. reflexivity. }
  rewrite Hcp in H. destruct H as [Hf Hrest].
  match type of Hrest with (if ?b then _ else _) =>
    assert (b = false) as Hb by (vm_compute; reflexivity); rewrite Hb in Hrest end.
  destruct Hrest as (Hsp & _ & Hcalls).
  refine (conj Hf (conj (eq_trans Hsp _) (eq_trans Hcalls _)));
    vm_compute; reflexivity.
Defined.

(** The claim as worded fails in the community branch: with 1101 at
    [param1101_max = 6000] and 1090 = 4920 < 5000 - 50 the tick writes the
    clamped 6000 but leaves [debito_energetico] false; and with the local
    sensor on the sharing target (1090 = 6100) the tick writes nothing. *)
Lemma C5_counterexample :
  let c := Autocons.set_setpoint 6000 (Autocons.init Autocons.default_params) in
  let remote := Examples.snapshot "0" "0" "0" "4000" in
  let r := Autocons.tick Dec.float (Examples.snapshot "960" "0" "2" "4920") remote c
             Examples.world0 in
  let r' := Autocons.tick Dec.float (Examples.snapshot "960" "0" "2" "6100") remote c
              Examples.world0 in
  is_autoconsumo_enabled Examples.world0 = true
  /\ issued r.2 = [(1101, 6000)]
  /\ (Autocons.current_setpoint_1101 r.1 =? Autocons.param1101_max Autocons.default_params)
     && ltb 4920 (inject_Z (5000 - Autocons.grid_deadband Autocons.default_params)) = true
  /\ is_debito_energetico r.2 = false
  /\ issued r'.2 = [].
Proof. vm_compute. repeat split. Qed.

(** ** Scheduled services: completion and shutdown *)

Lemma finish_event_restores k w :
  is_service_active (finish_event k w) = false
  /\ is_autoconsumo_enabled (finish_event k w) = true
  /\ (exists l, new_calls w (finish_event k w) = (1102, 3) :: l
                /\ (k <> DsoCarica -> l = [(1101, 0)])).
Proof.
  destruct k; cbn [finish_event];
    unfold dso_carica_finish_event, dso_scarica_finish_event,
      trading_scarica_finish_event, trading_carica_finish_event;
    (split; [|split]);
    try (unfold is_service_active, is_autoconsumo_enabled,
           set_service_active, set_autoconsumo_enabled; cbn; reflexivity);
    eexists; (split;
      [apply new_calls_issued; issued_norm; rewrite <- ?app_assoc; reflexivity|]);
    intros H; try reflexivity; congruence.
Qed.

Lemma service_tick_completes py_float k now from_local c w :
  active c = true -> event_end c <= now -> state c <> DONE ->
  service_tick py_float k now from_local c w = (set_state DONE c, finish_event k w).
Proof.
  intros Ha He Hs.
  assert (negb (state_eqb (state c) DONE) = true) as Hn.
  { destruct (state c); cbn; congruence. }
  assert ((now >=? event_end c) = true) as Hge by lia.
  destruct k; cbn [service_tick finish_event];
    unfold dso_carica_tick, dso_scarica_tick, trading_scarica_tick, trading_carica_tick;
    rewrite Ha, Hge, Hn; reflexivity.
Qed.

(** C2 (amended): when an active service is ticked at or after the end of
    its event and is not yet DONE, it runs its [_finish_event]: the service
    becomes DONE, [service_active] is cleared, [autoconsumo_enabled] is set and
    1102 = 3 is written; DSO discharge, trading discharge and trading charge
    also write 1101 = 0.  Process shutdown only clears [service_active]: it
    issues no write and leaves [autoconsumo_enabled] as it is. *)
Theorem C2_completion_restores_and_shutdown_clears_flag
  (py_float : string -> option Q) (k : ServiceKind) (now : Z) (from_local : File)
  (c : Service) (w : World) :
  active c = true -> event_end c <= now -> state c <> DONE ->
  let r := service_tick py_float k now from_local c w in
  (state r.1 = DONE
   /\ is_service_active r.2 = false
   /\ is_autoconsumo_enabled r.2 = true
   /\ (exists l, new_calls w r.2 = (1102, 3) :: l
                 /\ (k <> DsoCarica -> l = [(1101, 0)])))
  /\ (is_service_active (run_forever_finally w) = false
      /\ is_autoconsumo_enabled (run_forever_finally w) = is_autoconsumo_enabled w
      /\ issued (run_forever_finally w) = issued w
      /\ toi (run_forever_finally w) = toi w
      /\ toidea_xml (run_forever_finally w) = toidea_xml w).
Proof.
  intros Ha He Hs r. subst r. rewrite service_tick_completes by assumption.
  cbn [fst snd]. split.
  - split; [reflexivity|]. apply finish_event_restores.
  - repeat split.
Qed.

(** A DSO discharge service ticked at the end of its event. *)
Lemma C2_witness :
  let r := service_tick Dec.float DsoScarica 100
             (Examples.snapshot "600" "0" "2" "5000")
             Examples.todays_service Examples.world_service in
  (state r.1 = DONE
   /\ is_service_active r.2 = false
   /\ is_autoconsumo_enabled r.2 = true
   /\ (exists l, new_calls Examples.world_service r.2 = (1102, 3) :: l
                 /\ (DsoScarica <> DsoCarica -> l = [(1101, 0)])))
  /\ (is_service_active (run_forever_finally Examples.world_service) = false
      /\ is_autoconsumo_enabled (run_forever_finally Examples.world_service)
         = is_autoconsumo_enabled Examples.world_service
      /\ issued (run_forever_finally Examples.world_service) = issued Examples.world_service
      /\ toi (run_forever_finally Examples.world_service) = toi Examples.world_service
      /\ toidea_xml (run_forever_finally Examples.world_service)
         = toidea_xml Examples.world_service).
Proof.
  apply (C2_completion_restores_and_shutdown_clears_flag Dec.float DsoScarica 100
           (Examples.snapshot "600" "0" "2" "5000")
           Examples.todays_service Examples.world_service).
  - reflexivity.
  - cbn. lia.
  - cbn. discriminate.
Defined.

(** The claim as worded fails at shutdown: the application is interrupted
    after one pass inside a DSO charge event, which had set
    [autoconsumo_enabled = false], 1102 = 1 and 1101 = -6000; the [finally]
    clause clears [service_active] and restores nothing else. *)
Lemma C2_counterexample :
  let r := run_forever Dec.float [Examples.env_in_event]
             Examples.app_dso_carica Examples.world_service in
  state (dso_carica r.1) = EVENT_ACTIVE
  /\ is_service_active r.2 = false
  /\ is_autoconsumo_enabled r.2 = false
  /\ last (writes_to 1102 r.2) = Some 1
  /\ last (writes_to 1101 r.2) = Some (-6000).
Proof. vm_compute. repeat split. Qed.

(** The completion of DSO charge issues the single write 1102 = 3: after an
    event that wrote 1101 = -6000 the last value sent to 1101 stays -6000. *)
Lemma dso_carica_completion_leaves_1101 :
  let r1 := dso_carica_tick Dec.float 50 (Examples.snapshot "600" "0" "2" "5000")
              Examples.todays_service Examples.world_service in
  let r2 := dso_carica_tick Dec.float 100 (Examples.snapshot "600" "0" "2" "5000")
              r1.1 r1.2 in
  state r2.1 = DONE
  /\ new_calls r1.2 r2.2 = [(1102, 3)]
  /\ last (writes_to 1101 r2.2) = Some (-6000)
  /\ ToiDea.get_register 1101 0 (toi r2.2) = -6000.
Proof. vm_compute. repeat split. Qed.

(** ** The foreign-master detector *)

Section Detector.

Variable cfg : Server.Cfg.

Lemma left_window_mono t t' x :
  (t <= t')%Q -> left_window cfg t x -> left_window cfg t' x.
Proof.
  unfold left_window. rewrite !ltb_true_iff. intros. lra.
Qed.

Lemma left_window_before t x y :
  (y <= x)%Q -> left_window cfg t x -> left_window cfg t y.
Proof.
  unfold left_window. rewrite !ltb_true_iff. intros. lra.
Qed.

Lemma popleft_older_split t d :
  exists dropped,
    d = dropped ++ Server.popleft_older t (Server.foreign_window_s cfg) d
    /\ Forall (left_window cfg t) dropped.
Proof.
  induction d as [|x r (dropped & E & F)]; cbn.
  - exists []. split; [reflexivity | constructor].
  - destruct (ltb (Server.foreign_window_s cfg) (t - x)) eqn:Hx.
    + exists (x :: dropped). split; [cbn; congruence | constructor; assumption].
    + exists []. split; [reflexivity | constructor].
Qed.

Lemma count_in_window_app t l1 l2 :
  count_in_window cfg t (l1 ++ l2)
  = (count_in_window cfg t l1 + count_in_window cfg t l2)%nat.
Proof.
  induction l1 as [|x r IH]; cbn; [reflexivity|]. rewrite IH. lia.
Qed.

Lemma count_in_window_old t l :
  Forall (left_window cfg t) l -> count_in_window cfg t l = 0%nat.
Proof.
  induction 1 as [|x r Hx _ IH]; cbn; [reflexivity|].
  unfold Server.in_window. unfold left_window in Hx. rewrite Hx, IH. reflexivity.
Qed.

Lemma count_in_window_le_length t l : (count_in_window cfg t l <= length l)%nat.
Proof.
  induction l as [|x r IH]; cbn; [lia|]. destruct (Server.in_window cfg t x); lia.
Qed.

Lemma deque_inv_step ts d t :
  StronglySorted Qle (ts ++ [t]) ->
  deque_inv cfg ts d ->
  deque_inv cfg (ts ++ [t]) (deque_after cfg t d).
Proof.
  intros Hs (pre & E & Hlen & Hcl). unfold deque_after.
  assert (exists pre1,
             ts ++ [t] = pre1 ++ Server.deque_append 100 t d
             /\ (length (Server.deque_append 100 t d) <= 100)%nat
             /\ (length (Server.deque_append 100 t d) = 100%nat
                 \/ forall t', Forall (fun x => (x <= t')%Q) (ts ++ [t])
                               -> Forall (left_window cfg t') pre1))
    as (pre1 & E1 & Hlen1 & Hcl1).
  { unfold Server.deque_append. destruct (length d <? 100)%nat eqn:Hlt.
    - apply Nat.ltb_lt in Hlt. exists pre. split; [|split].
      + rewrite E, app_assoc. reflexivity.
      + rewrite length_app. cbn. lia.
      + right. intros t' Hub. destruct Hcl as [Hfull | Hcl]; [lia|].
        apply Hcl. apply Forall_app in Hub. tauto.
    - apply Nat.ltb_ge in Hlt. destruct d as [|x d']; [cbn in Hlt; lia|].
      cbn in Hlen, Hlt. exists (pre ++ [x]). split; [|split].
      + rewrite E. cbn. rewrite <- !app_assoc. reflexivity.
      + cbn. rewrite length_app. cbn. lia.
      + left. cbn. rewrite length_app. cbn. lia. }
  destruct (popleft_older_split t (Server.deque_append 100 t d)) as (dropped & E2 & Hold).
  set (d2 := Server.popleft_older t _ (Server.deque_append 100 t d)) in *.
  exists (pre1 ++ dropped). split; [|split].
  - rewrite E1, E2 at 1. rewrite app_assoc. reflexivity.
  - rewrite E2, length_app in Hlen1. lia.
  - destruct dropped as [|z dropped'].
    + cbn in E2. rewrite app_nil_r. rewrite <- E2. exact Hcl1.
    + right. intros t' Hub. apply Forall_app. split.
      * assert (t <= t')%Q as Ht.
        { apply Forall_app in Hub as [_ Hub]. inversion Hub; assumption. }
        apply Forall_forall. intros y Hy.
        apply (left_window_mono t t' y Ht). apply (left_window_before t z y).
        -- rewrite E1, E2 in Hs.
           apply (StronglySorted_app_1_elem_of Qle pre1 ((z :: dropped') ++ d2) y z).
           ++ exact Hs.
           ++ exact Hy.
           ++ apply elem_of_app. left. apply list_elem_of_here.
        -- inversion Hold; assumption.
      * assert (t <= t')%Q as Ht.
        { apply Forall_app in Hub as [_ Hub]. inversion Hub; assumption. }
        eapply Forall_impl; [exact Hold|]. intros y. apply left_window_mono. exact Ht.
Qed.

Lemma note_foreign_times t s :
  Server.FOREIGN_TIMES (Server.note_foreign cfg t s)
  = deque_after cfg t (Server.FOREIGN_TIMES s).
Proof.
  unfold Server.note_foreign. destruct (_ =? 0); reflexivity.
Qed.

Lemma note_foreign_alert t s :
  Server.FOREIGN_ALERT (Server.note_foreign cfg t s)
  = if Z.of_nat (length (Server.FOREIGN_TIMES (Server.note_foreign cfg t s)))
       >=? Server.foreign_threshold cfg
    then 1 else 0.
Proof.
  unfold Server.note_foreign. destruct (_ =? 0); reflexivity.
Qed.

Lemma frame_times_app evs1 evs2 :
  frame_times (evs1 ++ evs2) = frame_times evs1 ++ frame_times evs2.
Proof. unfold frame_times. apply flat_map_app. Qed.

Lemma run_events_inv evs :
  StronglySorted Qle (frame_times evs) ->
  deque_inv cfg (frame_times evs)
    (Server.FOREIGN_TIMES (Server.run_events cfg evs Server.init)).
Proof.
  induction evs as [|e evs IH] using rev_ind; intros Hs.
  - exists []. cbn. repeat split; try lia. right. intros. constructor.
  - unfold Server.run_events in *. rewrite fold_left_app. cbn [fold_left].
    rewrite frame_times_app in *.
    destruct e as [t|t]; cbn [Server.on_event frame_times flat_map] in *.
    + rewrite app_nil_r in *. rewrite note_foreign_times.
      apply deque_inv_step; [exact Hs|]. apply IH.
      eapply StronglySorted_app_1_l. exact Hs.
    + rewrite !app_nil_r in *. apply IH. exact Hs.
Qed.

Lemma run_events_quiet polls s :
  forallb is_quiet polls = true -> Server.run_events cfg polls s = s.
Proof.
  induction polls as [|e r IH]; cbn; [reflexivity|].
  intros H. apply andb_prop in H as [He Hr]. destruct e; [discriminate|].
  apply IH. exact Hr.
Qed.

Lemma popleft_older_all_old t l :
  (0 <= Server.foreign_window_s cfg)%Q -> Forall (left_window cfg t) l ->
  Server.popleft_older t (Server.foreign_window_s cfg) (l ++ [t]) = [t].
Proof.
  intros Hw. induction 1 as [|x r Hx _ IH]; cbn.
  - assert (ltb (Server.foreign_window_s cfg) (t - t) = false) as ->; [|reflexivity].
    apply ltb_false_iff. lra.
  - unfold left_window in Hx. rewrite Hx. exact IH.
Qed.

Lemma note_foreign_after_idle t s :
  (0 <= Server.foreign_window_s cfg)%Q ->
  Forall (left_window cfg t) (Server.FOREIGN_TIMES s) ->
  Server.FOREIGN_TIMES (Server.note_foreign cfg t s) = [t].
Proof.
  intros Hw Hold. rewrite note_foreign_times. unfold deque_after, Server.deque_append.
  destruct (length _ <? 100)%nat.
  - apply popleft_older_all_old; assumption.
  - apply popleft_older_all_old; [assumption|].
    destruct (Server.FOREIGN_TIMES s); [constructor|]. inversion Hold; assumption.
Qed.

End Detector.

(** C3 (amended): when at least [foreign_threshold] (at most 100, the bound
    of the deque) foreign frames lie within the window that ends at the last
    one, [foreign_alert] is 1 right after that frame and stays 1 over every
    later poll without a foreign frame, however long; the alert is recomputed
    only by the next foreign frame, and one that comes more than [window_s]
    after all the kept ones leaves a single entry and sets the alert to 0
    (for a threshold above 1). *)
Theorem C3_alert_raised_and_held_until_next_frame
  (cfg : Server.Cfg) (before : list Server.BusEvent) (t : Q)
  (polls : list Server.BusEvent) :
  StronglySorted Qle (frame_times before ++ [t]) ->
  Server.foreign_threshold cfg <= 100 ->
  Server.foreign_threshold cfg
    <= Z.of_nat (count_in_window cfg t (frame_times before ++ [t])) ->
  forallb is_quiet polls = true ->
  let s := Server.run_events cfg (before ++ Server.ForeignFrame t :: polls) Server.init in
  Server.FOREIGN_ALERT s = 1
  /\ Server.published_alert s = "1"%string
  /\ (forall t',
        (0 <= Server.foreign_window_s cfg)%Q ->
        1 < Server.foreign_threshold cfg ->
        Forall (fun x => (Server.foreign_window_s cfg < t' - x)%Q) (Server.FOREIGN_TIMES s) ->
        Server.FOREIGN_TIMES (Server.note_foreign cfg t' s) = [t']
        /\ Server.FOREIGN_ALERT (Server.note_foreign cfg t' s) = 0).
Proof.
  intros Hs Hmax Hcount Hq s.
  assert (Server.FOREIGN_ALERT s = 1) as Ha.
  { subst s. unfold Server.run_events.
    change (before ++ Server.ForeignFrame t :: polls)
      with (before ++ [Server.ForeignFrame t] ++ polls).
    rewrite app_assoc, fold_left_app.
    fold (Server.run_events cfg polls
            (fold_left (Server.on_event cfg) (before ++ [Server.ForeignFrame t]) Server.init)).
    rewrite run_events_quiet by assumption.
    pose proof (run_events_inv cfg (before ++ [Server.ForeignFrame t])) as Hinv.
    rewrite frame_times_app in Hinv. cbn [frame_times flat_map app] in Hinv.
    specialize (Hinv Hs). unfold Server.run_events in Hinv.
    rewrite fold_left_app in *. cbn [fold_left Server.on_event] in *.
    rewrite note_foreign_alert.
    destruct Hinv as (pre & E & Hlen & Hcl).
    set (d := Server.FOREIGN_TIMES _) in *.
    assert (Server.foreign_threshold cfg <= Z.of_nat (length d)) as Hd.
    { destruct Hcl as [Hfull | Hcl]; [lia|].
      assert (Forall (fun x => (x <= t)%Q) (frame_times before ++ [t])) as Hub.
      { apply Forall_app. split.
        - apply Forall_forall. intros y Hy.
          apply (StronglySorted_app_1_elem_of Qle (frame_times before) [t] y t Hs Hy).
          apply list_elem_of_here.
        - constructor; [apply Qle_refl | constructor]. }
      specialize (Hcl t Hub).
      rewrite E, count_in_window_app, (count_in_window_old cfg t pre Hcl) in Hcount.
      pose proof (count_in_window_le_length cfg t d). lia. }
    rewrite Z.geb_leb.
    destruct (Z.leb_spec (Server.foreign_threshold cfg) (Z.of_nat (length d)));
      [reflexivity | lia]. }
  split; [exact Ha|]. split.
  - unfold Server.published_alert. rewrite Ha. reflexivity.
  - intros t' Hw Hthr Hold.
    assert (Server.FOREIGN_TIMES (Server.note_foreign cfg t' s) = [t']) as Ht.
    { apply note_foreign_after_idle; [exact Hw|].
      eapply Forall_impl; [exact Hold|]. intros x Hx. apply ltb_true_iff. exact Hx. }
    split; [exact Ht|]. rewrite note_foreign_alert, Ht. cbn [length].
    rewrite Z.geb_leb. destruct (Z.leb_spec (Server.foreign_threshold cfg) (Z.of_nat 1));
      [cbn in *; lia | reflexivity].
Qed.

(** Three wrong-function-code replies at 0 s, 1 s and 2 s, then a quiet
    poll at 100 s: the alert is up and still published. *)
Lemma C3_witness :
  let s := Server.run_events Server.default_cfg
             [Server.ForeignFrame 0; Server.ForeignFrame 1; Server.ForeignFrame 2;
              Server.QuietPoll 100] Server.init in
  Server.FOREIGN_ALERT s = 1 /\ Server.published_alert s = "1"%string.
Proof.
  pose proof (C3_alert_raised_and_held_until_next_frame Server.default_cfg
                [Server.ForeignFrame 0; Server.ForeignFrame 1] 2
                [Server.QuietPoll 100]) as H.
  cbv zeta in H. cbn [app] in H.
  refine (let H' := H _ _ _ _ in conj (proj1 H') (proj1 (proj2 H'))).
  - cbn. repeat constructor; unfold Qle; cbn; lia.
  - cbn. lia.
  - vm_compute. discriminate.
  - reflexivity.
Defined.

(** The claim as worded fails after an idle period: three foreign frames
    at 0 s, 1 s and 2 s raise the alert; polls at 100 s and 1000 s, long after
    the 10 s window, still publish [FOREIGN_ALERT = 1]. *)
Lemma C3_counterexample :
  let s := Server.run_events Server.default_cfg
             [Server.ForeignFrame 0; Server.ForeignFrame 1; Server.ForeignFrame 2;
              Server.QuietPoll 100; Server.QuietPoll 1000] Server.init in
  Server.foreign_window_s Server.default_cfg = 10%Q
  /\ Server.FOREIGN_ALERT s = 1
  /\ Server.published_alert s = "1"%string.
Proof. vm_compute. repeat split. Qed.

(** ** The ToiDea watcher *)

Lemma watcher_fresh_id py_int d writable s :
  let cid := strip (Server.text_or_empty (doc_ID d)) in
  cid <> ""%string -> cid <> Server.LAST_TOIDEA_ID s ->
  Server.toidea_watcher_try py_int (ToiXml d writable) s
  = match Server.int_field py_int (doc_IND d) with
    | Raise e => Raise e
    | Ok ind =>
        match Server.int_field py_int (doc_VAL d) with
        | Raise e => Raise e
        | Ok val =>
            let cmd := strip (Server.text_or_empty (doc_CMD d)) in
            if negb ((cmd =? "07")%string || (cmd =? "09")%string) then
              Ok (Server.set_last_toidea_id cid (Server.print (Server.LogInvalidCmd cmd) s))
            else
              Ok (Server.set_last_toidea_id cid
                    (Server.set_pending
                       (Some {| Server.cmd_ID := cid; Server.cmd_CMD := cmd;
                                Server.cmd_IND := ind; Server.cmd_VAL := val |}) s))
        end
    end.
Proof.
  intros cid H1 H2. unfold Server.toidea_watcher_try. fold cid.
  apply String.eqb_neq in H1, H2. rewrite H1, H2. reflexivity.
Qed.

(** C4 (amended): when ToiDea.xml carries a fresh ID, an unknown or
    malformed CMD with integer IND and VAL is logged and the ID becomes the
    last-seen one, so the next pass over the same file does nothing; a parse
    error (a file that is not XML, or an IND or VAL that is not an integer) is
    logged and leaves the last-seen ID and the pending command as they were. *)
Theorem C4_invalid_cmd_consumes_id_parse_error_does_not
  (py_int : string -> option Z) (d : ToiDoc) (writable : bool) (s : Server.Globals) :
  let file := ToiXml d writable in
  let cid := strip (Server.text_or_empty (doc_ID d)) in
  let cmd := strip (Server.text_or_empty (doc_CMD d)) in
  cid <> ""%string -> cid <> Server.LAST_TOIDEA_ID s ->
  (forall ind val,
      Server.int_field py_int (doc_IND d) = Ok ind ->
      Server.int_field py_int (doc_VAL d) = Ok val ->
      cmd <> "07"%string -> cmd <> "09"%string ->
      let s' := Server.toidea_watcher py_int file s in
      Server.LAST_TOIDEA_ID s' = cid
      /\ Server.console s' = Server.console s ++ [Server.LogInvalidCmd cmd]
      /\ Server.PENDING_CMD s' = Server.PENDING_CMD s
      /\ Server.toidea_watcher py_int file s' = s')
  /\ ((Server.int_field py_int (doc_IND d) = Raise ValueError
       \/ Server.int_field py_int (doc_VAL d) = Raise ValueError) ->
      Server.toidea_watcher py_int file s = Server.print Server.LogWatchErr s)
  /\ Server.toidea_watcher py_int ToiMalformed s = Server.print Server.LogWatchErr s
  /\ Server.LAST_TOIDEA_ID (Server.print Server.LogWatchErr s) = Server.LAST_TOIDEA_ID s
  /\ Server.PENDING_CMD (Server.print Server.LogWatchErr s) = Server.PENDING_CMD s
  /\ Server.console (Server.print Server.LogWatchErr s)
     = Server.console s ++ [Server.LogWatchErr].
Proof.
  intros file cid cmd H1 H2. split; [|split; [|repeat split]].
  - intros ind val Hind Hval H07 H09 s'.
    assert (s' = Server.set_last_toidea_id cid
                   (Server.print (Server.LogInvalidCmd cmd) s)) as ->.
    { subst s' file. unfold Server.toidea_watcher.
      rewrite watcher_fresh_id by assumption.
      rewrite Hind, Hval. cbv zeta. fold cmd cid.
      apply String.eqb_neq in H07, H09. rewrite H07, H09. reflexivity. }
    repeat split.
    subst file. unfold Server.toidea_watcher, Server.toidea_watcher_try.
    cbn [Server.LAST_TOIDEA_ID Server.set_last_toidea_id]. fold cid.
    rewrite String.eqb_refl, orb_true_r. reflexivity.
  - intros Herr. subst file. unfold Server.toidea_watcher.
    rewrite watcher_fresh_id by assumption.
    destruct Herr as [-> | Hval]; [reflexivity|].
    destruct (Server.int_field py_int (doc_IND d)); [|reflexivity].
    rewrite Hval. reflexivity.
Qed.

(** A file with ID 7 and the command 08, seen by a fresh watcher. *)
Lemma C4_witness :
  let s' := Server.toidea_watcher Dec.int Examples.toidea_unknown_cmd Server.init in
  Server.LAST_TOIDEA_ID s' = "7"%string
  /\ Server.console s' = [Server.LogInvalidCmd "08"]
  /\ Server.PENDING_CMD s' = None
  /\ Server.toidea_watcher Dec.int Examples.toidea_unknown_cmd s' = s'.
Proof.
  refine (proj1 (C4_invalid_cmd_consumes_id_parse_error_does_not Dec.int
                   {| doc_ID := Some "7"%string; doc_CMD := Some "08"%string;
                      doc_IND := Some "1101"%string; doc_VAL := Some "1020"%string |}
                   true Server.init _ _) 1101 1020 _ _ _ _);
    vm_compute; congruence.
Defined.

(** The claim as worded fails on a parse error: a file with the fresh ID 7
    and a non-integer IND is logged, the last-seen ID stays empty, and the
    next pass over the same file processes and logs it again; the same holds
    for a file that is not XML. *)
Lemma C4_counterexample :
  let s1 := Server.toidea_watcher Dec.int Examples.toidea_bad_ind Server.init in
  let s2 := Server.toidea_watcher Dec.int Examples.toidea_bad_ind s1 in
  let m2 := Server.toidea_watcher Dec.int ToiMalformed
              (Server.toidea_watcher Dec.int ToiMalformed Server.init) in
  Server.LAST_TOIDEA_ID s1 = ""%string
  /\ Server.processes Examples.toidea_bad_ind s1 = true
  /\ Server.console s2 = [Server.LogWatchErr; Server.LogWatchErr]
  /\ Server.LAST_TOIDEA_ID s2 = ""%string
  /\ Server.console m2 = [Server.LogWatchErr; Server.LogWatchErr]
  /\ Server.LAST_TOIDEA_ID m2 = ""%string.
Proof. vm_compute. repeat split. Qed.

(** ** The write phase of the I/O worker *)

Lemma note_foreign_keeps_writer cfg t s :
  Server.STATS (Server.note_foreign cfg t s) = Server.STATS s
  /\ Server.PENDING_CMD (Server.note_foreign cfg t s) = Server.PENDING_CMD s.
Proof.
  unfold Server.note_foreign. destruct (_ =? 0); split; reflexivity.
Qed.

(** C8: with write verification on, when a write attempt of a command
    raises an error and the read-back of the same index returns the requested
    value, the retry loop stops at that attempt with success; for the pending
    command the worker then increments [write_ok], leaves [write_err] alone
    and records the command's ID as the last writer ID. *)
Theorem C8_read_back_confirms_failed_write
  {Wire : Type}
  (write_reg : Z -> Z -> Wire -> (string + unit) * Wire)
  (read_regs : Z -> Z -> Wire -> (string + option (list Z)) * Wire)
  (sleep : Q -> Wire -> Wire) (time : Wire -> Q)
  (cfg : Server.Cfg) (cmd : Server.WriteCmd)
  (b b1 b2 : Wire) (msg : string) (v : Z) (rest : list Z) :
  Server.verify_writes cfg = true ->
  Server.try_write write_reg cfg cmd b = (inl msg, b1) ->
  read_regs (Server.cmd_IND cmd) 1 b1 = (inr (Some (v :: rest)), b2) ->
  v = Server.cmd_VAL cmd ->
  (forall left attempts s,
      let l := Server.write_loop write_reg read_regs sleep time cfg
                 (S left) cmd attempts s b in
      l.1.1.1 = true /\ l.1.1.2 = attempts + 1 /\ l.2 = b2
      /\ Server.STATS l.1.2 = Server.STATS s)
  /\ (forall s,
      Server.PENDING_CMD s = Some cmd ->
      1 <= Server.write_retries cfg ->
      let r := Server.io_worker_write write_reg read_regs sleep time cfg s b in
      r.1.1 = 1
      /\ r.2 = b2
      /\ Server.write_ok (Server.STATS r.1.2) = Server.write_ok (Server.STATS s) + 1
      /\ Server.write_err (Server.STATS r.1.2) = Server.write_err (Server.STATS s)
      /\ Server.LAST_WRITER_ID r.1.2 = Server.cmd_ID cmd
      /\ Server.PENDING_CMD r.1.2 = None).
Proof.
  intros Hver Htry Hread Hv.
  assert (forall left attempts s,
             Server.write_loop write_reg read_regs sleep time cfg (S left) cmd attempts s b
             = (true, attempts + 1,
                Server.print Server.LogReadBackOk
                  (if contains "Wrong functioncode" msg || contains "functioncode" msg
                   then Server.note_foreign cfg (time b1)
                          (Server.print (Server.LogWriterErr msg) s)
                   else Server.print (Server.LogWriterErr msg) s),
                b2)) as Hloop.
  { intros left attempts s. cbn [Server.write_loop]. rewrite Htry, Hver.
    unfold Server.read_back. rewrite Hread.
    assert ((v =? Server.cmd_VAL cmd) = true) as -> by lia. reflexivity. }
  split.
  - intros left attempts s l. subst l. rewrite Hloop. cbn [fst snd].
    repeat split.
    destruct (_ || _); cbn [Server.print Server.STATS]; [|reflexivity].
    rewrite (proj1 (note_foreign_keeps_writer _ _ _)). reflexivity.
  - intros s Hpend Hret r. subst r.
    unfold Server.io_worker_write. rewrite Hpend.
    destruct (Z.to_nat (Server.write_retries cfg)) as [|n] eqn:En; [lia|].
    rewrite Hloop. cbn [fst snd].
    pose proof (note_foreign_keeps_writer cfg (time b1)
                  (Server.print (Server.LogWriterErr msg) (Server.set_pending None s)))
      as [Hst Hpe].
    destruct (contains "Wrong functioncode" msg || contains "functioncode" msg);
      cbn; rewrite ?Hst, ?Hpe; repeat split.
Qed.

(** The write of 1020 to 1101 is answered with a wrong function code, the
    read-back returns 1020. *)
Lemma C8_witness :
  let r := Server.io_worker_write Server.script_write Server.script_read
             Server.script_sleep Server.clock Server.default_cfg
             Examples.server_pending Examples.glitch_then_match in
  r.1.1 = 1
  /\ Server.write_ok (Server.STATS r.1.2) = 1
  /\ Server.write_err (Server.STATS r.1.2) = 0
  /\ Server.LAST_WRITER_ID r.1.2 = "42"%string
  /\ Server.FOREIGN_FRAMES_TOTAL r.1.2 = 1.
Proof.
  pose proof (C8_read_back_confirms_failed_write Server.script_write Server.script_read
                Server.script_sleep Server.clock Server.default_cfg
                Examples.pending_1101
                Examples.glitch_then_match
                {| Server.write_replies := []; Server.read_replies := [inr (Some [1020])];
                   Server.clock := 5 |}
                {| Server.write_replies := []; Server.read_replies := [];
                   Server.clock := 5 |}
                "Wrong functioncode: 3" 1020 []
                eq_refl eq_refl eq_refl eq_refl)
    as [_ H].
  specialize (H Examples.server_pending eq_refl ltac:(cbn; lia)).
  destruct H as (H1 & _ & H3 & H4 & H5 & _).
  refine (conj H1 (conj H3 (conj H4 (conj H5 _)))).
  vm_compute. reflexivity.
Defined.

(** * Further properties *)

(** ** The read plan of the bus server *)

Lemma sorted_nodup_lt (l : list Z) :
  StronglySorted Z.le l -> NoDup l -> StronglySorted Z.lt l.
Proof.
  induction 1 as [|x l Hs IH Hx]; intros Hn; constructor.
  - apply IH. now inversion Hn.
  - inversion Hn as [|? ? Hnotin _]; subst.
    apply Forall_forall. intros y Hy.
    pose proof (proj1 (Forall_forall _ _) Hx y Hy) as Hle.
    assert (x <> y) by (intros ->; contradiction). lia.
Qed.

Lemma uniq_sorted_lt addrs : StronglySorted Z.lt (Poller.uniq_sorted addrs).
Proof.
  unfold Poller.uniq_sorted. apply sorted_nodup_lt.
  - apply (StronglySorted_merge_sort Z.le).
  - rewrite (merge_sort_Permutation Z.le). apply NoDup_remove_dups.
Qed.

Lemma uniq_sorted_elem addrs x : x ∈ Poller.uniq_sorted addrs <-> x ∈ addrs.
Proof.
  unfold Poller.uniq_sorted.
  rewrite (merge_sort_Permutation Z.le). apply elem_of_remove_dups.
Qed.

(** X1: [uniq_sorted] lists the given addresses in strictly increasing
    order, so each one once, and nothing else. *)
Theorem X1_uniq_sorted_strictly_increasing (addrs : list Z) :
  StronglySorted Z.lt (Poller.uniq_sorted addrs)
  /\ NoDup (Poller.uniq_sorted addrs)
  /\ (forall x, x ∈ Poller.uniq_sorted addrs <-> x ∈ addrs)
  /\ (Poller.uniq_sorted addrs = [] <-> addrs = []).
Proof.
  split; [apply uniq_sorted_lt|]. split; [|split].
  - unfold Poller.uniq_sorted. rewrite (merge_sort_Permutation Z.le).
    apply NoDup_remove_dups.
  - apply uniq_sorted_elem.
  - split; intros H.
    + destruct addrs as [|a r]; [reflexivity|].
      assert (a ∈ Poller.uniq_sorted (a :: r)) as Ha
        by (apply uniq_sorted_elem, list_elem_of_here).
      rewrite H in Ha. inversion Ha.
    + subst. reflexivity.
Qed.

Lemma blocks_fold_runs rest : forall p blocks st,
  (let '(b, s) := fold_left Poller.blocks_step (zip (p :: rest) rest) (blocks, st) in
   b ++ [{| Poller.start := s; Poller.stop := List.last (p :: rest) 0 + 1 |}])
  = blocks ++ runs st p rest.
Proof.
  induction rest as [|cur rest IH]; intros p blocks st.
  - reflexivity.
  - change (zip (p :: cur :: rest) (cur :: rest)) with ((p, cur) :: zip (cur :: rest) rest).
    cbn [fold_left Poller.blocks_step runs].
    change (List.last (p :: cur :: rest) 0) with (List.last (cur :: rest) 0).
    destruct (cur =? p + 1); cbn [negb].
    + apply IH.
    + rewrite IH, <- app_assoc. reflexivity.
Qed.

Lemma contiguous_blocks_runs addrs a0 a1 :
  Poller.uniq_sorted addrs = a0 :: a1 ->
  Poller.contiguous_blocks addrs = runs a0 a0 a1.
Proof.
  intros E. unfold Poller.contiguous_blocks.
  destruct addrs as [|x r]; [discriminate|]. cbv zeta. rewrite E.
  apply (blocks_fold_runs a1 a0 [] a0).
Qed.

Lemma seqZ_one m : seqZ m 1 = [m].
Proof. reflexivity. Qed.

Lemma runs_cover rest : forall st p,
  st <= p ->
  concat (map Poller.range_list (runs st p rest)) = seqZ st (p - st + 1) ++ rest.
Proof.
  induction rest as [|cur rest IH]; intros st p Hle; cbn [runs].
  - cbn. unfold Poller.range_list. cbn [Poller.start Poller.stop].
    rewrite !app_nil_r. f_equal. lia.
  - destruct (Z.eqb_spec cur (p + 1)) as [->|Hne].
    + rewrite IH by lia.
      replace (p + 1 - st + 1) with ((p - st + 1) + 1) by lia.
      rewrite seqZ_app by lia. rewrite <- app_assoc. f_equal.
      replace (st + (p - st + 1)) with (p + 1) by lia. reflexivity.
    + cbn [map concat]. rewrite IH by lia.
      unfold Poller.range_list at 1. cbn [Poller.start Poller.stop].
      replace (p + 1 - st) with (p - st + 1) by lia. f_equal.
      replace (cur - cur + 1) with 1 by lia. reflexivity.
Qed.

Lemma runs_shape rest : forall st p,
  st <= p -> StronglySorted Z.lt (p :: rest) ->
  Forall (fun r => st <= Poller.start r /\ Poller.start r < Poller.stop r) (runs st p rest)
  /\ StronglySorted apart (runs st p rest).
Proof.
  induction rest as [|cur rest IH]; intros st p Hle Hs; cbn [runs].
  - split.
    + constructor; [cbn; lia | constructor].
    + repeat constructor.
  - assert (p < cur) as Hpc.
    { inversion Hs as [|? ? _ Hall]; subst. now inversion Hall. }
    assert (StronglySorted Z.lt (cur :: rest)) as Hs' by now inversion Hs.
    destruct (Z.eqb_spec cur (p + 1)) as [->|Hne].
    + apply IH; [lia | assumption].
    + destruct (IH cur cur (Z.le_refl _) Hs') as [Hf Hg]. split.
      * constructor; [cbn; lia|].
        eapply Forall_impl; [exact Hf|]. cbn. intros r. lia.
      * constructor; [exact Hg|].
        eapply Forall_impl; [exact Hf|]. unfold apart. cbn. intros r. lia.
Qed.

Lemma contiguous_blocks_spec (addrs : list Z) :
  concat (map Poller.range_list (Poller.contiguous_blocks addrs))
  = Poller.uniq_sorted addrs
  /\ Forall (fun r => Poller.start r < Poller.stop r) (Poller.contiguous_blocks addrs)
  /\ StronglySorted apart (Poller.contiguous_blocks addrs)
  /\ (Poller.contiguous_blocks addrs = [] <-> addrs = []).
Proof.
  destruct (Poller.uniq_sorted addrs) as [|a0 a1] eqn:E.
  - assert (addrs = []) as ->.
    { destruct addrs as [|a r]; [reflexivity|].
      assert (a ∈ Poller.uniq_sorted (a :: r)) as Ha
        by (apply uniq_sorted_elem, list_elem_of_here).
      rewrite E in Ha. inversion Ha. }
    cbn. repeat split; constructor.
  - rewrite (contiguous_blocks_runs addrs a0 a1 E).
    pose proof (uniq_sorted_lt addrs) as Hs. rewrite E in Hs.
    destruct (runs_shape a1 a0 a0 (Z.le_refl _) Hs) as [Hf Hg].
    split; [|split; [|split]].
    + rewrite runs_cover by lia. replace (a0 - a0 + 1) with 1 by lia. reflexivity.
    + eapply Forall_impl; [exact Hf|]. cbn. tauto.
    + exact Hg.
    + split; intros H.
      * destruct a1; cbn in H; [discriminate|].
        destruct (_ =? _); [|discriminate].
        exfalso. revert H. generalize a0 at 1. generalize z. clear.
        induction a1 as [|c r IH]; intros p st; cbn; [discriminate|].
        destruct (_ =? _); [apply IH | discriminate].
      * subst. discriminate.
Qed.

(** X2: [contiguous_blocks] cuts the sorted, duplicate-free addresses into
    their maximal runs: the blocks, read in order, list exactly those
    addresses; no block is empty; and at least one unused address lies between
    a block and every later one. *)
Theorem X2_contiguous_blocks_partition (addrs : list Z) :
  concat (map Poller.range_list (Poller.contiguous_blocks addrs))
  = Poller.uniq_sorted addrs
  /\ Forall (fun r => Poller.start r < Poller.stop r) (Poller.contiguous_blocks addrs)
  /\ StronglySorted apart (Poller.contiguous_blocks addrs)
  /\ (Poller.contiguous_blocks addrs = [] <-> addrs = []).
Proof. apply contiguous_blocks_spec. Qed.

Lemma split_range_loop_spec e max_len : 1 <= max_len -> forall fuel s out,
  (Z.to_nat (e - s) <= fuel)%nat ->
  exists chunks,
    Poller.split_range_loop fuel s e max_len out = Some (out ++ chunks)
    /\ flat_map Poller.request_addrs chunks = seqZ s (e - s)
    /\ Forall (fun c => 1 <= c.2 <= max_len) chunks.
Proof.
  intros Hmax. induction fuel as [|fuel IH]; intros s out Hfuel.
  - assert (e <= s) as Hes by lia. exists [].
    cbn. destruct (Z.ltb_spec s e); [lia|].
    rewrite app_nil_r. repeat split; [|constructor].
    unfold seqZ. replace (Z.to_nat (e - s)) with 0%nat by lia. reflexivity.
  - cbn [Poller.split_range_loop]. destruct (Z.ltb_spec s e) as [Hlt|Hge].
    + set (ln := Z.min max_len (e - s)).
      assert (1 <= ln <= max_len /\ ln <= e - s) as (Hln & Hln') by (unfold ln; lia).
      destruct (IH (s + ln) (out ++ [(s, ln)])) as (chunks & E & Hcov & Hall); [lia|].
      exists ((s, ln) :: chunks). split; [|split].
      * rewrite E, <- app_assoc. reflexivity.
      * cbn [flat_map]. rewrite Hcov. unfold Poller.request_addrs. cbn [fst snd].
        rewrite <- seqZ_app by lia. f_equal. lia.
      * constructor; [cbn; lia | exact Hall].
    + exists []. rewrite app_nil_r. repeat split; [|constructor].
      unfold seqZ. replace (Z.to_nat (e - s)) with 0%nat by lia. reflexivity.
Qed.

(** X3: with [max_len >= 1], [split_range] ends after at most one pass per
    address of the range, and its requests, taken in order, ask for each
    address of the range exactly once, between 1 and [max_len] registers at a
    time. *)
Theorem X3_split_range_covers_range (fuel : nat) (r : Poller.range) (max_len : Z) :
  1 <= max_len ->
  (Z.to_nat (Poller.stop r - Poller.start r) <= fuel)%nat ->
  exists chunks,
    Poller.split_range fuel r max_len = Some chunks
    /\ flat_map Poller.request_addrs chunks = Poller.range_list r
    /\ Forall (fun c => 1 <= c.2 <= max_len) chunks.
Proof.
  intros Hmax Hfuel.
  destruct (split_range_loop_spec (Poller.stop r) max_len Hmax fuel (Poller.start r) []
              Hfuel) as (chunks & E & Hcov & Hall).
  exists chunks. auto.
Qed.

(** The range 1001..1010 in requests of at most 4 registers. *)
Lemma X3_witness :
  exists chunks,
    Poller.split_range 10 {| Poller.start := 1001; Poller.stop := 1011 |} 4 = Some chunks
    /\ flat_map Poller.request_addrs chunks
       = Poller.range_list {| Poller.start := 1001; Poller.stop := 1011 |}
    /\ Forall (fun c => 1 <= c.2 <= 4) chunks.
Proof.
  apply (X3_split_range_covers_range 10 {| Poller.start := 1001; Poller.stop := 1011 |} 4).
  - lia.
  - cbn. lia.
Defined.

Lemma split_range_diverges (r : Poller.range) (max_len : Z) :
  max_len <= 0 -> Poller.start r < Poller.stop r ->
  forall fuel, Poller.split_range fuel r max_len = None.
Proof.
  intros Hmax Hlt fuel. unfold Poller.split_range.
  generalize (@nil (Z * Z)) as out. revert Hlt. generalize (Poller.start r) as s.
  induction fuel as [|fuel IH]; intros s Hlt out; cbn [Poller.split_range_loop];
    destruct (Z.ltb_spec s (Poller.stop r)); try lia; [reflexivity|].
  apply IH. lia.
Qed.

(** X4: with [max_len <= 0] the loop of [split_range] never ends on a
    range that is not empty: no number of passes yields a result. *)
Theorem X4_split_range_needs_positive_chunk (r : Poller.range) (max_len : Z) :
  max_len <= 0 -> Poller.start r < Poller.stop r ->
  forall fuel, Poller.split_range fuel r max_len = None.
Proof. apply split_range_diverges. Qed.

(** A block of two addresses with [read_max_chunk = 0]. *)
Lemma X4_witness :
  Poller.split_range 1000 {| Poller.start := 1001; Poller.stop := 1003 |} 0 = None.
Proof.
  apply (X4_split_range_needs_positive_chunk
           {| Poller.start := 1001; Poller.stop := 1003 |} 0); cbn; lia.
Defined.

(** ** The read phase of the bus server *)

Section ReadPhase.

Context {Wire : Type}.
Variable read_regs : Z -> Z -> Wire -> (Poller.BusError + option (list Z)) * Wire.
Variable sleep : Q -> Wire -> Wire.
Variable time : Wire -> Q.
Variable strftime : Q -> string.
Variable isoformat : Q -> string.
Variable cfg : Server.Cfg.
Variable rcfg : Poller.ReadCfg.

Lemma read_retry_frame n s cur : forall p b,
  let r := Poller.read_retry read_regs sleep time cfg n s cur p b in
  Poller.values r.1.2 = Poller.values p
  /\ Poller.LAST_OK r.1.2 = Poller.LAST_OK p
  /\ Poller.any_ok r.1.2 = Poller.any_ok p
  /\ Server.STATS (Poller.globals r.1.2) = Server.STATS (Poller.globals p).
Proof.
  induction n as [|n IH]; intros p b; cbn [Poller.read_retry].
  - cbn. auto.
  - destruct (read_regs s cur b) as [[[|msg]|regs] b1].
    + apply IH.
    + cbv zeta.
      match goal with |- context [Poller.read_retry _ _ _ _ _ _ _ ?p1 ?b2] =>
        destruct (IH p1 b2) as (H1 & H2 & H3 & H4) end.
      rewrite H1, H2, H3, H4.
      destruct (_ || _); cbn; repeat split.
      apply note_foreign_keeps_writer.
    + cbn. auto.
Qed.

Lemma store_consistent s regs : forall off p,
  consistent p -> consistent (Poller.store s off regs p).
Proof.
  induction regs as [|v regs IH]; intros off p Hc; cbn [Poller.store]; [exact Hc|].
  apply IH. intros a x. cbn.
  destruct (decide (a = s + off)) as [->|Hne].
  - rewrite !lookup_insert_eq. auto.
  - rewrite !lookup_insert_ne by congruence. apply Hc.
Qed.

Lemma store_keeps s regs : forall off p, keeps_last_ok p (Poller.store s off regs p).
Proof.
  induction regs as [|v regs IH]; intros off p; cbn [Poller.store].
  - intros a H. exact H.
  - intros a H. apply IH. cbn.
    destruct (decide (a = s + off)) as [->|Hne].
    + rewrite lookup_insert_eq. eauto.
    + rewrite lookup_insert_ne by congruence. exact H.
Qed.

Lemma store_frame s regs : forall off p,
  Poller.globals (Poller.store s off regs p) = Poller.globals p
  /\ Poller.any_ok (Poller.store s off regs p) = Poller.any_ok p
  /\ Poller.bus_console (Poller.store s off regs p) = Poller.bus_console p
  /\ Poller.last_reset_iso (Poller.store s off regs p) = Poller.last_reset_iso p.
Proof.
  induction regs as [|v regs IH]; intros off p; cbn [Poller.store]; [auto|].
  destruct (IH (off + 1) (Poller.set_value (s + off) v p)) as (H1 & H2 & H3 & H4).
  rewrite H1, H2, H3, H4. cbn. auto.
Qed.

Lemma read_chunk_inv fuel s ln : forall cur p b p' b',
  Poller.read_chunk read_regs sleep time cfg rcfg fuel s ln cur p b = Some (p', b') ->
  consistent p -> consistent p' /\ keeps_last_ok p p'.
Proof.
  induction fuel as [|fuel IH]; intros cur p b p' b' E Hc; cbn [Poller.read_chunk] in E.
  - destruct (_ >=? _); [discriminate|]. injection E as <- <-.
    split; [exact Hc | intros a H; exact H].
  - destruct (_ >=? _); [|injection E as <- <-; split; [exact Hc | intros a H; exact H]].
    pose proof (read_retry_frame (Z.to_nat (Poller.max_retry rcfg)) s cur p b) as F.
    cbv zeta in F.
    destruct (Poller.read_retry _ _ _ _ _ _ _ p b) as [[[regs|] p1] b1]; cbn [fst snd] in F;
      destruct F as (F1 & F2 & _).
    + injection E as <- <-. split.
      * intros a v. cbn. apply store_consistent.
        intros a' v'. cbn. rewrite F1, F2. apply Hc.
      * intros a H. cbn. apply store_keeps. cbn. rewrite F2. exact H.
    + cbv zeta in E. apply IH in E.
      * destruct E as [E1 E2]. split; [exact E1|].
        intros a H. apply E2.
        destruct (_ <? _); cbn; rewrite F2; exact H.
      * intros a v. destruct (_ <? _); cbn; rewrite F1, F2; apply Hc.
Qed.

Lemma read_chunks_inv fuel chunks : forall p b p' b',
  Poller.read_chunks read_regs sleep time cfg rcfg fuel chunks p b = Some (p', b') ->
  consistent p -> consistent p' /\ keeps_last_ok p p'.
Proof.
  induction chunks as [|[s ln] rest IH]; intros p b p' b' E Hc; cbn [Poller.read_chunks] in E.
  - injection E as <- <-. split; [exact Hc | intros a H; exact H].
  - destruct (Poller.read_chunk _ _ _ _ _ _ _ _ _ _ _) as [[p1 b1]|] eqn:E1; [|discriminate].
    destruct (read_chunk_inv _ _ _ _ _ _ _ _ E1 Hc) as [C1 K1].
    destruct (IH _ _ _ _ E C1) as [C2 K2].
    split; [exact C2 | intros a H; apply K2, K1, H].
Qed.

Lemma read_all_blocks_inv fuel blocks : forall p b p' b',
  Poller.read_all_blocks read_regs sleep time cfg rcfg fuel blocks p b = Some (p', b') ->
  consistent p -> consistent p' /\ keeps_last_ok p p'.
Proof.
  induction blocks as [|block rest IH]; intros p b p' b' E Hc;
    cbn [Poller.read_all_blocks] in E.
  - injection E as <- <-. split; [exact Hc | intros a H; exact H].
  - destruct (Poller.split_range _ _ _) as [chunks|]; [|discriminate].
    destruct (Poller.read_chunks _ _ _ _ _ _ _ _ _) as [[p1 b1]|] eqn:E1; [|discriminate].
    destruct (read_chunks_inv _ _ _ _ _ _ E1 Hc) as [C1 K1].
    destruct (IH _ _ _ _ E C1) as [C2 K2].
    split; [exact C2 | intros a H; apply K2, K1, H].
Qed.

Lemma document_registers now p :
  consistent p ->
  exists meta,
    Poller.fromidea_document strftime isoformat rcfg now p
    = meta ++ map (last_good p) (Poller.read_blocks rcfg).
Proof.
  intros Hc. unfold Poller.fromidea_document. eexists. rewrite app_assoc. f_equal.
  apply map_ext. intros a. unfold last_good. f_equal. f_equal.
  destruct (Poller.values p !! a) as [v|] eqn:E; [|reflexivity].
  rewrite (Hc a v E). reflexivity.
Qed.

End ReadPhase.

Lemma length_remove_dups (l : list Z) : (length (remove_dups l) <= length l)%nat.
Proof.
  induction l as [|x l IH]; cbn; [lia|].
  destruct (decide_rel elem_of x l); cbn; lia.
Qed.

Lemma length_uniq_sorted addrs : (length (Poller.uniq_sorted addrs) <= length addrs)%nat.
Proof.
  unfold Poller.uniq_sorted. rewrite (merge_sort_Permutation Z.le).
  apply length_remove_dups.
Qed.

Lemma block_length_le (blocks : list Poller.range) r :
  r ∈ blocks ->
  (Z.to_nat (Poller.stop r - Poller.start r)
   <= length (concat (map Poller.range_list blocks)))%nat.
Proof.
  induction 1 as [r l|r x l _ IH]; cbn [map concat]; rewrite length_app.
  - unfold Poller.range_list. rewrite length_seqZ. lia.
  - lia.
Qed.

Lemma filled_refl reg p : filled reg [] p p.
Proof.
  split; intros a; destruct (decide (a ∈ [])) as [H|]; try reflexivity; inversion H.
Qed.

Lemma filled_trans reg l1 l2 p1 p2 p3 :
  filled reg l1 p1 p2 -> filled reg l2 p2 p3 -> filled reg (l1 ++ l2) p1 p3.
Proof.
  intros [V1 L1] [V2 L2]. split; intros a.
  - rewrite V2, V1.
    destruct (decide (a ∈ l2)), (decide (a ∈ l1)), (decide (a ∈ l1 ++ l2)) as [H|H];
      try reflexivity; exfalso; rewrite elem_of_app in H; tauto.
  - rewrite L2, L1.
    destruct (decide (a ∈ l2)), (decide (a ∈ l1)), (decide (a ∈ l1 ++ l2)) as [H|H];
      try reflexivity; exfalso; rewrite elem_of_app in H; tauto.
Qed.

Lemma filled_same_members reg l l' p p' :
  (forall a, a ∈ l <-> a ∈ l') -> filled reg l p p' -> filled reg l' p p'.
Proof.
  intros Hm [V L]. split; intros a; [rewrite V | rewrite L];
    destruct (decide (a ∈ l)) as [H|H], (decide (a ∈ l')) as [H'|H'];
    try reflexivity; exfalso; apply Hm in H || apply Hm in H'; contradiction.
Qed.

Lemma store_filled reg s (n : nat) : forall off p,
  filled reg (seqZ (s + off) (Z.of_nat n)) p
    (Poller.store s off (map reg (seqZ (s + off) (Z.of_nat n))) p).
Proof.
  induction n as [|n IH]; intros off p.
  - cbn. apply filled_refl.
  - rewrite seqZ_cons by lia.
    replace (Z.pred (Z.of_nat (S n))) with (Z.of_nat n) by lia.
    replace (Z.succ (s + off)) with (s + (off + 1)) by lia.
    cbn [map Poller.store].
    apply (filled_trans reg [s + off] _ p (Poller.set_value (s + off) (reg (s + off)) p));
      [|apply IH].
    split; intros a; cbn;
      (destruct (decide (a ∈ [s + off])) as [H|H];
       [apply list_elem_of_singleton in H as ->; apply lookup_insert_eq
       |rewrite lookup_insert_ne; [reflexivity|];
        intros E; apply H; rewrite <- E; apply list_elem_of_here]).
Qed.

Section HealthyBus.

Context {Wire : Type}.
Variable read_regs : Z -> Z -> Wire -> (Poller.BusError + option (list Z)) * Wire.
Variable sleep : Q -> Wire -> Wire.
Variable time : Wire -> Q.
Variable cfg : Server.Cfg.
Variable rcfg : Poller.ReadCfg.

(** Every request is answered with the registers of [reg]. *)
Variable reg : Z -> Z.
Hypothesis answers : forall s n b, (read_regs s n b).1 = inr (Some (map reg (seqZ s n))).
Hypothesis min_chunk_le_1 : Poller.read_min_chunk rcfg <= 1.
Hypothesis max_retry_ge_1 : 1 <= Poller.max_retry rcfg.

Lemma read_chunk_healthy fuel s ln p b :
  1 <= ln ->
  exists p' b',
    Poller.read_chunk read_regs sleep time cfg rcfg (S fuel) s ln ln p b = Some (p', b')
    /\ filled reg (Poller.request_addrs (s, ln)) p p'
    /\ Poller.any_ok p' = true
    /\ Server.read_err (Server.STATS (Poller.globals p'))
       = Server.read_err (Server.STATS (Poller.globals p)).
Proof.
  intros Hln. cbn [Poller.read_chunk].
  assert ((ln >=? Poller.read_min_chunk rcfg) = true) as -> by lia.
  destruct (Z.to_nat (Poller.max_retry rcfg)) as [|n] eqn:En; [lia|].
  cbn [Poller.read_retry]. pose proof (answers s ln b) as Ha.
  destruct (read_regs s ln b) as [r b1]. cbn in Ha. subst r.
  eexists _, _. split; [reflexivity|].
  pose proof (store_filled reg s (Z.to_nat ln) 0 (Poller.with_globals Poller.bump_read_ok p))
    as Hf.
  rewrite Z2Nat.id, Z.add_0_r in Hf by lia.
  destruct (store_frame s (map reg (seqZ s ln)) 0 (Poller.with_globals Poller.bump_read_ok p))
    as (G & _).
  split; [|split].
  - destruct Hf as [V L]. split; intros a; cbn; [rewrite V | rewrite L]; reflexivity.
  - reflexivity.
  - cbn. rewrite G. reflexivity.
Qed.

Lemma read_chunks_healthy fuel chunks : forall p b,
  Forall (fun c => 1 <= c.2) chunks ->
  exists p' b',
    Poller.read_chunks read_regs sleep time cfg rcfg (S fuel) chunks p b = Some (p', b')
    /\ filled reg (flat_map Poller.request_addrs chunks) p p'
    /\ (chunks <> [] \/ Poller.any_ok p = true -> Poller.any_ok p' = true)
    /\ Server.read_err (Server.STATS (Poller.globals p'))
       = Server.read_err (Server.STATS (Poller.globals p)).
Proof.
  induction chunks as [|[s ln] rest IH]; intros p b Hall.
  - exists p, b. repeat split; try apply filled_refl. intros [H|H]; congruence.
  - inversion Hall as [|? ? Hln Hrest]; subst. cbn in Hln.
    destruct (read_chunk_healthy fuel s ln p b Hln) as (p1 & b1 & E1 & F1 & A1 & R1).
    destruct (IH p1 b1 Hrest) as (p2 & b2 & E2 & F2 & A2 & R2).
    exists p2, b2. cbn [Poller.read_chunks]. rewrite E1. split; [exact E2|].
    split; [|split].
    + cbn [flat_map]. eapply filled_trans; eassumption.
    + intros _. apply A2. right. exact A1.
    + congruence.
Qed.

Lemma read_all_blocks_healthy fuel blocks :
  1 <= Poller.read_max_chunk rcfg -> forall p b,
  Forall (fun r => (Z.to_nat (Poller.stop r - Poller.start r) <= S fuel)%nat
                   /\ Poller.start r < Poller.stop r) blocks ->
  exists p' b',
    Poller.read_all_blocks read_regs sleep time cfg rcfg (S fuel) blocks p b = Some (p', b')
    /\ filled reg (concat (map Poller.range_list blocks)) p p'
    /\ (blocks <> [] \/ Poller.any_ok p = true -> Poller.any_ok p' = true)
    /\ Server.read_err (Server.STATS (Poller.globals p'))
       = Server.read_err (Server.STATS (Poller.globals p)).
Proof.
  intros Hmax. induction blocks as [|r rest IH]; intros p b Hall.
  - exists p, b. repeat split; try apply filled_refl. intros [H|H]; congruence.
  - inversion Hall as [|? ? [Hfuel Hne] Hrest]; subst.
    destruct (split_range_loop_spec (Poller.stop r) _ Hmax (S fuel) (Poller.start r) []
                Hfuel) as (chunks & E & Hcov & Hchunks).
    cbn [Poller.read_all_blocks]. unfold Poller.split_range. rewrite E. cbn [app].
    destruct (read_chunks_healthy fuel chunks p b) as (p1 & b1 & E1 & F1 & A1 & R1).
    { eapply Forall_impl; [exact Hchunks|]. cbn. intros c. lia. }
    rewrite E1.
    destruct (IH p1 b1 Hrest) as (p2 & b2 & E2 & F2 & A2 & R2).
    exists p2, b2. split; [exact E2|]. split; [|split].
    + cbn [map concat]. unfold Poller.range_list at 1. rewrite <- Hcov.
      eapply filled_trans; eassumption.
    + intros _. apply A2. right. apply A1. left.
      intros ->. cbn in Hcov. symmetry in Hcov.
      apply (f_equal length) in Hcov. rewrite length_seqZ in Hcov. cbn in Hcov. lia.
    + congruence.
Qed.

End HealthyBus.

Section SilentBus.

Context {Wire : Type}.
Variable read_regs : Z -> Z -> Wire -> (Poller.BusError + option (list Z)) * Wire.
Variable sleep : Q -> Wire -> Wire.
Variable time : Wire -> Q.
Variable cfg : Server.Cfg.
Variable rcfg : Poller.ReadCfg.

(** Every request raises. *)
Hypothesis silent : forall s n b, exists e, (read_regs s n b).1 = inl e.

Lemma read_retry_silent n s cur : forall p b,
  (Poller.read_retry read_regs sleep time cfg n s cur p b).1.1 = None.
Proof.
  induction n as [|n IH]; intros p b; cbn [Poller.read_retry]; [reflexivity|].
  destruct (silent s cur b) as [e He].
  destruct (read_regs s cur b) as [r b1]. cbn in He. subst r.
  destruct e as [|msg]; apply IH.
Qed.

Lemma untouched_trans p1 p2 p3 : untouched p1 p2 -> untouched p2 p3 -> untouched p1 p3.
Proof.
  unfold untouched. intros (A1 & A2 & A3 & A4) (B1 & B2 & B3 & B4).
  repeat split; congruence.
Qed.

Lemma read_retry_untouched n s cur p b :
  untouched p (Poller.read_retry read_regs sleep time cfg n s cur p b).1.2.
Proof.
  destruct (read_retry_frame read_regs sleep time cfg n s cur p b) as (H1 & H2 & H3 & H4).
  unfold untouched. rewrite H1, H2, H3, H4. auto.
Qed.

Lemma read_chunk_silent s ln :
  1 <= Poller.read_min_chunk rcfg -> forall fuel cur p b,
  (Z.to_nat cur < fuel)%nat ->
  exists p' b',
    Poller.read_chunk read_regs sleep time cfg rcfg fuel s ln cur p b = Some (p', b')
    /\ untouched p p'.
Proof.
  intros Hmin. induction fuel as [|fuel IH]; intros cur p b Hfuel; [lia|].
  cbn [Poller.read_chunk]. destruct (Z.geb_spec cur (Poller.read_min_chunk rcfg)) as [Hge|Hlt].
  2:{ exists p, b. split; [reflexivity|]. repeat split. }
  pose proof (read_retry_silent (Z.to_nat (Poller.max_retry rcfg)) s cur p b) as Hn.
  pose proof (read_retry_untouched (Z.to_nat (Poller.max_retry rcfg)) s cur p b) as Hu.
  destruct (Poller.read_retry _ _ _ _ _ _ _ p b) as [[r p1] b1]. cbn in Hn, Hu. subst r.
  cbv zeta.
  assert (0 <= cur / 2 < cur) as Hhalf.
  { split; [apply Z.div_pos; lia | apply Z.div_lt; lia]. }
  match goal with |- context [Poller.read_chunk _ _ _ _ _ _ _ _ _ ?p2 _] =>
    destruct (IH (cur / 2) p2 b1) as (p' & b' & E & U); [lia|];
    exists p', b'; split; [exact E|];
    apply (untouched_trans p p1 p'); [exact Hu|];
    apply (untouched_trans p1 p2 p'); [|exact U]
  end.
  destruct (_ <? _); repeat split.
Qed.

Lemma read_chunks_silent fuel chunks :
  1 <= Poller.read_min_chunk rcfg ->
  Forall (fun c => (Z.to_nat c.2 < fuel)%nat) chunks -> forall p b,
  exists p' b',
    Poller.read_chunks read_regs sleep time cfg rcfg fuel chunks p b = Some (p', b')
    /\ untouched p p'.
Proof.
  intros Hmin. induction 1 as [|[s ln] rest Hln _ IH]; intros p b.
  - exists p, b. split; [reflexivity|]. repeat split.
  - cbn in Hln. destruct (read_chunk_silent s ln Hmin fuel ln p b Hln) as (p1 & b1 & E1 & U1).
    destruct (IH p1 b1) as (p2 & b2 & E2 & U2).
    exists p2, b2. cbn [Poller.read_chunks]. rewrite E1. split; [exact E2|].
    eapply untouched_trans; eassumption.
Qed.

Lemma read_all_blocks_silent fuel blocks :
  1 <= Poller.read_min_chunk rcfg -> 1 <= Poller.read_max_chunk rcfg ->
  (Z.to_nat (Poller.read_max_chunk rcfg) < fuel)%nat ->
  Forall (fun r => (Z.to_nat (Poller.stop r - Poller.start r) <= fuel)%nat) blocks ->
  forall p b,
  exists p' b',
    Poller.read_all_blocks read_regs sleep time cfg rcfg fuel blocks p b = Some (p', b')
    /\ untouched p p'.
Proof.
  intros Hmin Hmax Hfuel. induction 1 as [|r rest Hr _ IH]; intros p b.
  - exists p, b. split; [reflexivity|]. repeat split.
  - destruct (split_range_loop_spec (Poller.stop r) _ Hmax fuel (Poller.start r) [] Hr)
      as (chunks & E & _ & Hchunks).
    cbn [Poller.read_all_blocks]. unfold Poller.split_range. rewrite E. cbn [app].
    destruct (read_chunks_silent fuel chunks Hmin) with (p := p) (b := b)
      as (p1 & b1 & E1 & U1).
    { eapply Forall_impl; [exact Hchunks|]. cbn. intros c. lia. }
    rewrite E1. destruct (IH p1 b1) as (p2 & b2 & E2 & U2).
    exists p2, b2. split; [exact E2|]. eapply untouched_trans; eassumption.
Qed.

End SilentBus.

Lemma blocks_fit_fuel rb fuel :
  (length rb <= fuel)%nat ->
  Forall (fun r => (Z.to_nat (Poller.stop r - Poller.start r) <= fuel)%nat
                   /\ Poller.start r < Poller.stop r)
    (Poller.contiguous_blocks (Poller.uniq_sorted rb)).
Proof.
  intros Hfuel.
  destruct (contiguous_blocks_spec (Poller.uniq_sorted rb)) as (Hcov & Hne & _).
  apply Forall_forall. intros r Hr. split.
  - pose proof (block_length_le _ r Hr) as Hl. rewrite Hcov in Hl.
    pose proof (length_uniq_sorted (Poller.uniq_sorted rb)).
    pose proof (length_uniq_sorted rb). lia.
  - exact (proj1 (Forall_forall _ _) Hne r Hr).
Qed.

Lemma plan_members rb a :
  a ∈ concat (map Poller.range_list (Poller.contiguous_blocks (Poller.uniq_sorted rb)))
  <-> a ∈ rb.
Proof.
  destruct (contiguous_blocks_spec (Poller.uniq_sorted rb)) as (-> & _).
  rewrite !uniq_sorted_elem. reflexivity.
Qed.

(** X5: when a pass of the read phase ends and the snapshot is written,
    every address of [read_blocks] is published with its last good value (0
    when it was never read), whether or not this pass read it, and no address
    loses its last good value during the pass. *)
Theorem X5_snapshot_publishes_last_good_values
  {Wire : Type}
  (read_regs : Z -> Z -> Wire -> (Poller.BusError + option (list Z)) * Wire)
  (sleep : Q -> Wire -> Wire) (time : Wire -> Q) (strftime isoformat : Q -> string)
  (cfg : Server.Cfg) (rcfg : Poller.ReadCfg) (fuel : nat) (now : Q)
  (p p' : Poller.Pass) (b b' : Wire) (from_file : option Poller.Doc) (doc : Poller.Doc) :
  Poller.read_blocks rcfg <> [] ->
  Poller.io_worker_read read_regs sleep time strftime isoformat cfg rcfg fuel now
    Poller.DiskOk p b from_file = Some (p', b', Some doc) ->
  consistent p'
  /\ (exists meta, doc = meta ++ map (last_good p') (Poller.read_blocks rcfg))
  /\ keeps_last_ok p p'.
Proof.
  intros Hne E. unfold Poller.io_worker_read in E.
  destruct (Poller.uniq_sorted (Poller.read_blocks rcfg)) as [|a0 a1] eqn:Eu.
  { exfalso. apply Hne.
    destruct (Poller.read_blocks rcfg) as [|a r]; [reflexivity|].
    assert (a ∈ Poller.uniq_sorted (a :: r)) as Ha
      by (apply uniq_sorted_elem, list_elem_of_here).
    rewrite Eu in Ha. inversion Ha. }
  destruct (Poller.read_all_blocks _ _ _ _ _ _ _ _ _) as [[p1 b1]|] eqn:E1; [|discriminate].
  cbn in E. injection E as <- <- <-.
  destruct (read_all_blocks_inv _ _ _ _ _ _ _ _ _ _ _ E1) as [C K].
  { intros a v. cbn. rewrite lookup_empty. discriminate. }
  split; [exact C|]. split; [apply document_registers; exact C|exact K].
Qed.

(** The request for 1040..1041 fails, its half succeeds: 1040 is published
    fresh, 1041 with the value of an earlier pass. *)
Lemma X5_witness :
  exists p' b' doc,
    Poller.io_worker_read Poller.script_read Poller.script_sleep Poller.slept
      MoreExamples.stamp MoreExamples.iso Server.default_cfg MoreExamples.rcfg3 10 0
      Poller.DiskOk MoreExamples.pass_with_history MoreExamples.half_answer None
    = Some (p', b', Some doc)
    /\ (exists meta, doc = meta ++ map (last_good p') [1040; 1041; 1090])
    /\ map (last_good p') [1040; 1041; 1090]
       = [("1040", "500"); ("1041", "7"); ("1090", "4800")]%string.
Proof.
  destruct (Poller.io_worker_read Poller.script_read Poller.script_sleep Poller.slept
              MoreExamples.stamp MoreExamples.iso Server.default_cfg MoreExamples.rcfg3 10 0
              Poller.DiskOk MoreExamples.pass_with_history MoreExamples.half_answer None)
    as [[[p' b'] [doc|]]|] eqn:E; try (vm_compute in E; discriminate).
  exists p', b', doc. split; [reflexivity|].
  destruct (X5_snapshot_publishes_last_good_values Poller.script_read Poller.script_sleep
              Poller.slept MoreExamples.stamp MoreExamples.iso Server.default_cfg
              MoreExamples.rcfg3 10 0 MoreExamples.pass_with_history p'
              MoreExamples.half_answer b' None doc) as (_ & M & _);
    [discriminate | exact E |].
  split; [exact M|].
  vm_compute in E. injection E as <- <- <-. vm_compute. reflexivity.
Defined.

Lemma uniq_sorted_nonempty rb : rb <> [] -> exists a0 a1, Poller.uniq_sorted rb = a0 :: a1.
Proof.
  intros Hne. destruct (Poller.uniq_sorted rb) as [|a0 a1] eqn:E; [|eauto].
  exfalso. apply Hne. destruct rb as [|a r]; [reflexivity|].
  assert (a ∈ Poller.uniq_sorted (a :: r)) as Ha by (apply uniq_sorted_elem, list_elem_of_here).
  rewrite E in Ha. inversion Ha.
Qed.

(** X6: on a bus that answers every request, with [read_max_chunk >= 1],
    [read_min_chunk <= 1] and [max_retry >= 1], a pass of the read phase ends,
    reads every address of [read_blocks] and nothing else, stores each value
    under its own address in [values] and in [LAST_OK], counts no read error,
    and publishes each address with the value just read. *)
Theorem X6_answering_bus_reads_every_register
  {Wire : Type}
  (read_regs : Z -> Z -> Wire -> (Poller.BusError + option (list Z)) * Wire)
  (sleep : Q -> Wire -> Wire) (time : Wire -> Q) (strftime isoformat : Q -> string)
  (cfg : Server.Cfg) (rcfg : Poller.ReadCfg) (reg : Z -> Z) (fuel : nat) (now : Q)
  (p : Poller.Pass) (b : Wire) (from_file : option Poller.Doc) :
  (forall s n b, (read_regs s n b).1 = inr (Some (map reg (seqZ s n)))) ->
  1 <= Poller.read_max_chunk rcfg ->
  Poller.read_min_chunk rcfg <= 1 ->
  1 <= Poller.max_retry rcfg ->
  Poller.read_blocks rcfg <> [] ->
  (length (Poller.read_blocks rcfg) <= fuel)%nat ->
  exists p' b' meta,
    Poller.io_worker_read read_regs sleep time strftime isoformat cfg rcfg fuel now
      Poller.DiskOk p b from_file
    = Some (p', b',
            Some (meta ++ map (fun a => (pretty a, pretty (reg a))) (Poller.read_blocks rcfg)))
    /\ (forall a, Poller.values p' !! a
                  = if decide (a ∈ Poller.read_blocks rcfg) then Some (reg a) else None)
    /\ (forall a, Poller.LAST_OK p' !! a
                  = if decide (a ∈ Poller.read_blocks rcfg) then Some (reg a)
                    else Poller.LAST_OK p !! a)
    /\ Poller.any_ok p' = true
    /\ Server.read_err (Server.STATS (Poller.globals p'))
       = Server.read_err (Server.STATS (Poller.globals p)).
Proof.
  intros Hans Hmax Hmin Hretry Hne Hfuel.
  destruct (uniq_sorted_nonempty _ Hne) as (a0 & a1 & Eu).
  destruct fuel as [|fuel].
  { destruct (Poller.read_blocks rcfg); [congruence | cbn in Hfuel; lia]. }
  destruct (read_all_blocks_healthy read_regs sleep time cfg rcfg reg Hans Hmin Hretry fuel
              (Poller.contiguous_blocks (Poller.uniq_sorted (Poller.read_blocks rcfg)))
              Hmax (Poller.start_pass p) b (blocks_fit_fuel _ _ Hfuel))
    as (p' & b' & E & F & A & R).
  apply (filled_same_members _ _ _ _ _ (plan_members (Poller.read_blocks rcfg))) in F.
  destruct F as [V L].
  assert (forall a, Poller.values p' !! a
                    = if decide (a ∈ Poller.read_blocks rcfg) then Some (reg a) else None)
    as V'.
  { intros a. rewrite V. cbn. rewrite lookup_empty. reflexivity. }
  eexists p', b', _. split; [|split; [exact V'|split; [exact L|split]]].
  - unfold Poller.io_worker_read. rewrite Eu. rewrite <- Eu, E.
    cbn [Poller.write_fromidea]. unfold Poller.fromidea_document.
    rewrite app_assoc.
    erewrite (map_ext_in _ (fun a => (pretty a, pretty (reg a)))); [reflexivity|].
    intros a Ha. apply list_elem_of_In in Ha.
    rewrite V'. destruct (decide _); [reflexivity | contradiction].
  - apply A. left. intros Hnil.
    apply (proj1 (proj2 (proj2 (proj2 (contiguous_blocks_spec _))))) in Hnil.
    rewrite Eu in Hnil. discriminate.
  - exact R.
Qed.

(** The three addresses of the example, read from the register file. *)
Lemma X6_witness :
  exists p' b' meta,
    Poller.io_worker_read (Poller.file_read MoreExamples.regfile) Poller.clock_sleep id
      MoreExamples.stamp MoreExamples.iso Server.default_cfg MoreExamples.rcfg3 3 0
      Poller.DiskOk Poller.init_pass 0%Q None
    = Some (p', b',
            Some (meta ++ [("1040", "500"); ("1041", "7"); ("1090", "4800")]%string))
    /\ Poller.values p' !! 1041 = Some 7
    /\ Poller.any_ok p' = true.
Proof.
  destruct (X6_answering_bus_reads_every_register
              (Poller.file_read MoreExamples.regfile) Poller.clock_sleep id
              MoreExamples.stamp MoreExamples.iso Server.default_cfg MoreExamples.rcfg3
              MoreExamples.regfile 3 0 Poller.init_pass 0%Q None)
    as (p' & b' & meta & E & V & _ & A & _);
    try (cbn; lia); try reflexivity; try discriminate.
  exists p', b', meta. split; [exact E|]. split; [|exact A].
  rewrite V. reflexivity.
Defined.

(** X7: on a bus where every request raises, with [read_max_chunk >= 1]
    and [read_min_chunk >= 1], a pass of the read phase still ends: it stores
    nothing, leaves [LAST_OK] and the count of good reads as they were, and
    the snapshot it writes carries [BUS_OK = 0] next to the last good value of
    every address. *)
Theorem X7_silent_bus_republishes_last_values
  {Wire : Type}
  (read_regs : Z -> Z -> Wire -> (Poller.BusError + option (list Z)) * Wire)
  (sleep : Q -> Wire -> Wire) (time : Wire -> Q) (strftime isoformat : Q -> string)
  (cfg : Server.Cfg) (rcfg : Poller.ReadCfg) (fuel : nat) (now : Q)
  (p : Poller.Pass) (b : Wire) (from_file : option Poller.Doc) :
  (forall s n b, exists e, (read_regs s n b).1 = inl e) ->
  1 <= Poller.read_max_chunk rcfg ->
  1 <= Poller.read_min_chunk rcfg ->
  Poller.read_blocks rcfg <> [] ->
  (length (Poller.read_blocks rcfg) <= fuel)%nat ->
  (Z.to_nat (Poller.read_max_chunk rcfg) < fuel)%nat ->
  exists p' b' doc,
    Poller.io_worker_read read_regs sleep time strftime isoformat cfg rcfg fuel now
      Poller.DiskOk p b from_file = Some (p', b', Some doc)
    /\ Poller.values p' = ∅
    /\ Poller.any_ok p' = false
    /\ Poller.LAST_OK p' = Poller.LAST_OK p
    /\ Server.read_ok (Server.STATS (Poller.globals p'))
       = Server.read_ok (Server.STATS (Poller.globals p))
    /\ (Poller.from_include_meta rcfg = true -> ("BUS_OK", "0")%string ∈ doc)
    /\ (exists meta, doc = meta ++ map (last_good p) (Poller.read_blocks rcfg)).
Proof.
  intros Hsilent Hmax Hmin Hne Hfuel Hfuel'.
  destruct (uniq_sorted_nonempty _ Hne) as (a0 & a1 & Eu).
  destruct (read_all_blocks_silent read_regs sleep time cfg rcfg Hsilent fuel
              (Poller.contiguous_blocks (Poller.uniq_sorted (Poller.read_blocks rcfg)))
              Hmin Hmax Hfuel') with (p := Poller.start_pass p) (b := b)
    as (p' & b' & E & (U1 & U2 & U3 & U4)).
  { eapply Forall_impl; [apply (blocks_fit_fuel _ _ Hfuel)|]. cbn. tauto. }
  cbn in U1, U2, U3, U4.
  exists p', b', (Poller.fromidea_document strftime isoformat rcfg now p').
  split; [|repeat split; try assumption].
  - unfold Poller.io_worker_read. rewrite Eu. rewrite <- Eu, E. reflexivity.
  - intros Hmeta. unfold Poller.fromidea_document. rewrite Hmeta, U3.
    apply elem_of_app. right. apply elem_of_app. left. apply list_elem_of_here.
  - destruct (document_registers strftime isoformat rcfg now p') as [meta Hm].
    { intros a v. rewrite U1, lookup_empty. discriminate. }
    exists meta. rewrite Hm. f_equal. apply map_ext. intros a.
    unfold last_good. rewrite U2. reflexivity.
Qed.

(** A server that read 1041 = 7 earlier, on a line that answers nothing. *)
Lemma X7_witness :
  exists p' b' doc,
    Poller.io_worker_read Poller.dead_read Poller.clock_sleep id
      MoreExamples.stamp MoreExamples.iso Server.default_cfg MoreExamples.rcfg3 5 0
      Poller.DiskOk MoreExamples.pass_with_history 0%Q None = Some (p', b', Some doc)
    /\ Poller.any_ok p' = false
    /\ ("BUS_OK", "0")%string ∈ doc
    /\ (exists meta,
          doc = meta ++ [("1040", "0"); ("1041", "7"); ("1090", "0")]%string).
Proof.
  destruct (X7_silent_bus_republishes_last_values Poller.dead_read Poller.clock_sleep id
              MoreExamples.stamp MoreExamples.iso Server.default_cfg MoreExamples.rcfg3
              5 0 MoreExamples.pass_with_history 0%Q None)
    as (p' & b' & doc & E & _ & A & _ & _ & B & M);
    try (cbn; lia); try discriminate.
  { intros s n b. exists Poller.NoResponseError. reflexivity. }
  exists p', b', doc. split; [exact E|]. split; [exact A|]. split; [exact (B eq_refl)|].
  exact M.
Defined.

Section HangingBus.

Context {Wire : Type}.
Variable read_regs : Z -> Z -> Wire -> (Poller.BusError + option (list Z)) * Wire.
Variable sleep : Q -> Wire -> Wire.
Variable time : Wire -> Q.
Variable cfg : Server.Cfg.
Variable rcfg : Poller.ReadCfg.

Hypothesis silent : forall s n b, exists e, (read_regs s n b).1 = inl e.
Hypothesis min_chunk_le_0 : Poller.read_min_chunk rcfg <= 0.

Lemma read_chunk_hangs s ln fuel : forall cur p b,
  0 <= cur ->
  Poller.read_chunk read_regs sleep time cfg rcfg fuel s ln cur p b = None.
Proof.
  induction fuel as [|fuel IH]; intros cur p b Hcur; cbn [Poller.read_chunk];
    (destruct (Z.geb_spec cur (Poller.read_min_chunk rcfg)); [|lia]); [reflexivity|].
  pose proof (read_retry_silent read_regs sleep time cfg silent
                (Z.to_nat (Poller.max_retry rcfg)) s cur p b) as Hn.
  destruct (Poller.read_retry _ _ _ _ _ _ _ p b) as [[r p1] b1]. cbn in Hn. subst r.
  cbv zeta. apply IH. apply Z.div_pos; lia.
Qed.

Lemma split_range_loop_prefix e max_len fuel : forall s out res,
  Poller.split_range_loop fuel s e max_len out = Some res ->
  exists chunks, res = out ++ chunks.
Proof.
  induction fuel as [|fuel IH]; intros s out res E; cbn [Poller.split_range_loop] in E;
    destruct (s <? e).
  - discriminate.
  - injection E as <-. exists []. now rewrite app_nil_r.
  - apply IH in E as [chunks ->]. rewrite <- app_assoc. eauto.
  - injection E as <-. exists []. now rewrite app_nil_r.
Qed.

Lemma read_all_blocks_hangs fuel r rest p b :
  Poller.start r < Poller.stop r ->
  Poller.read_all_blocks read_regs sleep time cfg rcfg fuel (r :: rest) p b = None.
Proof.
  intros Hr. cbn [Poller.read_all_blocks].
  destruct (Poller.split_range fuel r (Poller.read_max_chunk rcfg)) as [chunks|] eqn:E;
    [|reflexivity].
  destruct (Z.le_gt_cases (Poller.read_max_chunk rcfg) 0) as [Hle|Hgt].
  { rewrite split_range_diverges in E by assumption. discriminate. }
  unfold Poller.split_range in E.
  destruct fuel as [|fuel]; cbn [Poller.split_range_loop] in E;
    (destruct (Z.ltb_spec (Poller.start r) (Poller.stop r)); [|lia]); [discriminate|].
  apply split_range_loop_prefix in E as [chunks' ->]. cbn [app Poller.read_chunks].
  rewrite read_chunk_hangs by lia. reflexivity.
Qed.

End HangingBus.

(** X8: with [read_min_chunk <= 0], on a bus where every request raises,
    the halving loop of the read phase never ends: the chunk size reaches 0
    and stays there, and no number of passes completes the read phase. *)
Theorem X8_zero_min_chunk_hangs_on_silent_bus
  {Wire : Type}
  (read_regs : Z -> Z -> Wire -> (Poller.BusError + option (list Z)) * Wire)
  (sleep : Q -> Wire -> Wire) (time : Wire -> Q) (strftime isoformat : Q -> string)
  (cfg : Server.Cfg) (rcfg : Poller.ReadCfg) (now : Q) (reply : Poller.DiskReply)
  (p : Poller.Pass) (b : Wire) (from_file : option Poller.Doc) :
  (forall s n b, exists e, (read_regs s n b).1 = inl e) ->
  Poller.read_min_chunk rcfg <= 0 ->
  Poller.read_blocks rcfg <> [] ->
  forall fuel,
    Poller.io_worker_read read_regs sleep time strftime isoformat cfg rcfg fuel now
      reply p b from_file = None.
Proof.
  intros Hsilent Hmin Hne fuel.
  destruct (uniq_sorted_nonempty _ Hne) as (a0 & a1 & Eu).
  unfold Poller.io_worker_read. rewrite Eu. rewrite <- Eu.
  destruct (contiguous_blocks_spec (Poller.uniq_sorted (Poller.read_blocks rcfg)))
    as (_ & Hblocks & _ & Hnil).
  destruct (Poller.contiguous_blocks _) as [|r rest].
  { rewrite Eu in Hnil. destruct Hnil as [Hnil _]. specialize (Hnil eq_refl). discriminate. }
  inversion Hblocks as [|? ? Hr _]; subst.
  rewrite (read_all_blocks_hangs read_regs sleep time cfg rcfg Hsilent Hmin) by exact Hr.
  reflexivity.
Qed.

(** The example addresses with [read_min_chunk = 0] on a line that answers
    nothing. *)
Lemma X8_witness :
  Poller.io_worker_read Poller.dead_read Poller.clock_sleep id
    MoreExamples.stamp MoreExamples.iso Server.default_cfg
    {| Poller.read_blocks := [1040; 1041; 1090]; Poller.read_max_chunk := 4;
       Poller.read_min_chunk := 0; Poller.max_retry := 4;
       Poller.from_include_meta := true; Poller.xml_ignore_errors := false |}
    1000 0 Poller.DiskOk Poller.init_pass 0%Q None = None.
Proof.
  apply (X8_zero_min_chunk_hangs_on_silent_bus Poller.dead_read Poller.clock_sleep id).
  - intros s n b. exists Poller.NoResponseError. reflexivity.
  - cbn. lia.
  - discriminate.
Defined.

(** ** The write phase of the bus server: accounting *)

Section WritePhase.

Context {Wire : Type}.
Variable write_reg : Z -> Z -> Wire -> (string + unit) * Wire.
Variable read_regs : Z -> Z -> Wire -> (string + option (list Z)) * Wire.
Variable sleep : Q -> Wire -> Wire.
Variable time : Wire -> Q.
Variable cfg : Server.Cfg.

Lemma read_back_frame cmd s b :
  let r := Server.read_back read_regs sleep cfg cmd s b in
  Server.STATS r.1.2 = Server.STATS s
  /\ Server.LAST_WRITER_ID r.1.2 = Server.LAST_WRITER_ID s
  /\ Server.PENDING_CMD r.1.2 = Server.PENDING_CMD s
  /\ Server.LAST_TOIDEA_ID r.1.2 = Server.LAST_TOIDEA_ID s.
Proof.
  unfold Server.read_back.
  destruct (read_regs (Server.cmd_IND cmd) 1 b) as [[msg|[[|v rest]|]] b1]; cbn; auto.
  destruct (v =? Server.cmd_VAL cmd); cbn; auto.
Qed.

Lemma note_foreign_frame t s :
  Server.STATS (Server.note_foreign cfg t s) = Server.STATS s
  /\ Server.LAST_WRITER_ID (Server.note_foreign cfg t s) = Server.LAST_WRITER_ID s
  /\ Server.PENDING_CMD (Server.note_foreign cfg t s) = Server.PENDING_CMD s
  /\ Server.LAST_TOIDEA_ID (Server.note_foreign cfg t s) = Server.LAST_TOIDEA_ID s.
Proof.
  unfold Server.note_foreign. destruct (_ =? 0); cbn; auto.
Qed.

Lemma write_loop_frame cmd left : forall attempts s b,
  let r := Server.write_loop write_reg read_regs sleep time cfg left cmd attempts s b in
  attempts <= r.1.1.2 <= attempts + Z.of_nat left
  /\ (r.1.1.1 = true -> attempts < r.1.1.2)
  /\ Server.STATS r.1.2 = Server.STATS s
  /\ Server.LAST_WRITER_ID r.1.2 = Server.LAST_WRITER_ID s
  /\ Server.PENDING_CMD r.1.2 = Server.PENDING_CMD s
  /\ Server.LAST_TOIDEA_ID r.1.2 = Server.LAST_TOIDEA_ID s.
Proof.
  induction left as [|left IH]; intros attempts s b; cbn [Server.write_loop].
  - cbn. repeat split; try lia; discriminate.
  - destruct (Server.try_write write_reg cfg cmd b) as [[msg|[]] b1].
    2:{ cbn. repeat split; lia. }
    set (s1 := if contains "Wrong functioncode" msg || contains "functioncode" msg
               then Server.note_foreign cfg (time b1)
                      (Server.print (Server.LogWriterErr msg) s)
               else Server.print (Server.LogWriterErr msg) s).
    assert (Server.STATS s1 = Server.STATS s
            /\ Server.LAST_WRITER_ID s1 = Server.LAST_WRITER_ID s
            /\ Server.PENDING_CMD s1 = Server.PENDING_CMD s
            /\ Server.LAST_TOIDEA_ID s1 = Server.LAST_TOIDEA_ID s) as (A1 & A2 & A3 & A4).
    { subst s1. destruct (_ || _); [|cbn; auto].
      destruct (note_foreign_frame (time b1) (Server.print (Server.LogWriterErr msg) s))
        as (B1 & B2 & B3 & B4).
      rewrite B1, B2, B3, B4. cbn. auto. }
    cbv zeta. fold s1. destruct (Server.verify_writes cfg).
    + pose proof (read_back_frame cmd s1 b1) as F. cbv zeta in F.
      destruct (Server.read_back read_regs sleep cfg cmd s1 b1) as [[ok s2] b2].
      cbn [fst snd] in F. destruct F as (F1 & F2 & F3 & F4).
      destruct ok.
      * cbn [fst snd]. rewrite F1, F2, F3, F4. repeat split; auto; lia.
      * destruct (IH (attempts + 1) s2 b2) as (I0 & I1 & I2 & I3 & I4 & I5).
        rewrite I2, I3, I4, I5, F1, F2, F3, F4.
        repeat split; auto; try lia; intros H; specialize (I1 H); lia.
    + destruct (IH (attempts + 1) s1 (Server.backoff sleep cfg b1))
        as (I0 & I1 & I2 & I3 & I4 & I5).
      rewrite I2, I3, I4, I5.
      repeat split; auto; try lia; intros H; specialize (I1 H); lia.
Qed.

End WritePhase.

(** X9: every pending command is accounted for exactly once.  The write
    phase takes the pending command and leaves none; it makes at most
    [write_retries] attempts; it then either counts one good write and records
    the command's ID as the last writer ID, having made at least one attempt,
    or counts one failed write and keeps the last writer ID; the read counters
    and the last-seen ToiDea ID are left alone.  Without a pending command the
    phase does nothing. *)
Theorem X9_write_phase_accounts_each_command_once
  {Wire : Type}
  (write_reg : Z -> Z -> Wire -> (string + unit) * Wire)
  (read_regs : Z -> Z -> Wire -> (string + option (list Z)) * Wire)
  (sleep : Q -> Wire -> Wire) (time : Wire -> Q)
  (cfg : Server.Cfg) (s : Server.Globals) (b : Wire) :
  let r := Server.io_worker_write write_reg read_regs sleep time cfg s b in
  let st := Server.STATS s in
  let st' := Server.STATS r.1.2 in
  match Server.PENDING_CMD s with
  | None => r = (0, s, b)
  | Some cmd =>
      Server.PENDING_CMD r.1.2 = None
      /\ 0 <= r.1.1 <= Z.max 0 (Server.write_retries cfg)
      /\ Server.read_ok st' = Server.read_ok st
      /\ Server.read_err st' = Server.read_err st
      /\ Server.LAST_TOIDEA_ID r.1.2 = Server.LAST_TOIDEA_ID s
      /\ ((Server.write_ok st' = Server.write_ok st + 1
           /\ Server.write_err st' = Server.write_err st
           /\ Server.LAST_WRITER_ID r.1.2 = Server.cmd_ID cmd
           /\ 1 <= r.1.1)
          \/ (Server.write_ok st' = Server.write_ok st
              /\ Server.write_err st' = Server.write_err st + 1
              /\ Server.LAST_WRITER_ID r.1.2 = Server.LAST_WRITER_ID s))
  end.
Proof.
  cbv zeta. unfold Server.io_worker_write.
  destruct (Server.PENDING_CMD s) as [cmd|] eqn:Ep; [|reflexivity].
  pose proof (write_loop_frame write_reg read_regs sleep time cfg cmd
                (Z.to_nat (Server.write_retries cfg)) 0 (Server.set_pending None s) b) as F.
  cbv zeta in F.
  destruct (Server.write_loop _ _ _ _ _ _ _ _ _ _) as [[[ok attempts] s1] b1].
  cbn [fst snd] in F. destruct F as (F0 & F1 & F2 & F3 & F4 & F5).
  destruct ok; cbn [fst snd]; cbn; rewrite ?F2, ?F3, ?F4, ?F5; cbn.
  - repeat split; try lia. left. specialize (F1 eq_refl). repeat split; lia.
  - repeat split; try lia. right. repeat split; lia.
Qed.

(** ** From the controller to the bus: the command file *)

Lemma write_register_file reg val d toi :
  has_command_nodes d ->
  let id := if current_id toi + 1 >=? 6000 then 0 else current_id toi + 1 in
  ToiDea.write_register reg val (ToiXml d true) toi
  = ({| current_id := id; last_values := <[reg := val]> (last_values toi) |},
     ToiXml {| doc_ID := Some (pretty id); doc_CMD := doc_CMD d;
               doc_IND := Some (pretty reg); doc_VAL := Some (pretty val) |} true).
Proof.
  intros (H1 & H2 & H3). unfold ToiDea.write_register, ToiDea.write_register_full.
  destruct d as [[i|] c [n|] [v|]]; cbn in *; congruence.
Qed.

Lemma write_register_keeps_nodes reg val d toi :
  has_command_nodes d ->
  exists d', (ToiDea.write_register reg val (ToiXml d true) toi).2 = ToiXml d' true
             /\ has_command_nodes d' /\ doc_CMD d' = doc_CMD d.
Proof.
  intros H. rewrite (write_register_file reg val d toi H). eexists. split; [reflexivity|].
  split; [|reflexivity]. repeat split; discriminate.
Qed.

Lemma watcher_after_write py_int reg val d toi s :
  has_command_nodes d -> executable d ->
  py_int (pretty reg) = Some reg -> py_int (pretty val) = Some val ->
  let r := ToiDea.write_register reg val (ToiXml d true) toi in
  let cid := strip (pretty (current_id r.1)) in
  cid <> ""%string -> cid <> Server.LAST_TOIDEA_ID s ->
  Server.toidea_watcher py_int r.2 s
  = Server.set_last_toidea_id cid
      (Server.set_pending
         (Some {| Server.cmd_ID := cid;
                  Server.cmd_CMD := strip (Server.text_or_empty (doc_CMD d));
                  Server.cmd_IND := reg; Server.cmd_VAL := val |}) s).
Proof.
  intros Hn Hx Hreg Hval. cbv zeta. rewrite (write_register_file reg val d toi Hn).
  cbn [fst snd current_id]. intros Hne Hfresh.
  unfold Server.toidea_watcher. rewrite watcher_fresh_id by assumption.
  cbn [doc_IND doc_VAL doc_CMD Server.int_field]. rewrite Hreg, Hval.
  cbv zeta. cbn [doc_ID Server.text_or_empty].
  destruct Hx as [-> | ->]; reflexivity.
Qed.

(** X11: a register write by the controller reaches the server unchanged.
    When ToiDea.xml is writable, has its ID, IND and VAL nodes and carries the
    command word 07 or 09, the file that [write_register(reg, val)] leaves is
    turned by the next watcher pass into the pending command with that
    register, that value and the manager's new ID, provided the ID text differs
    from the last one the server saw. *)
Theorem X11_written_register_becomes_pending_command
  (py_int : string -> option Z) (reg val : Z) (d : ToiDoc) (toi : ToiDeaManager)
  (s : Server.Globals) :
  has_command_nodes d -> executable d ->
  py_int (pretty reg) = Some reg -> py_int (pretty val) = Some val ->
  let r := ToiDea.write_register reg val (ToiXml d true) toi in
  let cid := strip (pretty (current_id r.1)) in
  cid <> ""%string -> cid <> Server.LAST_TOIDEA_ID s ->
  let s' := Server.toidea_watcher py_int r.2 s in
  Server.PENDING_CMD s'
  = Some {| Server.cmd_ID := cid;
            Server.cmd_CMD := strip (Server.text_or_empty (doc_CMD d));
            Server.cmd_IND := reg; Server.cmd_VAL := val |}
  /\ Server.LAST_TOIDEA_ID s' = cid
  /\ ToiDea.get_register reg 0 r.1 = val
  /\ Server.toidea_watcher py_int r.2 s' = s'.
Proof.
  intros Hn Hx Hreg Hval r cid Hne Hfresh s'.
  assert (s' = Server.set_last_toidea_id cid
                 (Server.set_pending
                    (Some {| Server.cmd_ID := cid;
                             Server.cmd_CMD := strip (Server.text_or_empty (doc_CMD d));
                             Server.cmd_IND := reg; Server.cmd_VAL := val |}) s)) as Es.
  { subst s'. apply watcher_after_write; assumption. }
  rewrite Es. repeat split.
  - subst r. rewrite (write_register_file reg val d toi Hn).
    unfold ToiDea.get_register. cbn. now rewrite lookup_insert_eq.
  - subst r cid. rewrite (write_register_file reg val d toi Hn).
    unfold Server.toidea_watcher, Server.toidea_watcher_try.
    cbn [fst snd current_id doc_ID Server.text_or_empty Server.LAST_TOIDEA_ID
         Server.set_last_toidea_id].
    rewrite String.eqb_refl, orb_true_r. reflexivity.
Qed.

(** The first write of a fresh controller, seen by a fresh server. *)
Lemma X11_witness :
  let r := ToiDea.write_register 1101 1020 Examples.toidea_ok ToiDea.init in
  Server.PENDING_CMD (Server.toidea_watcher Dec.int r.2 Server.init)
  = Some {| Server.cmd_ID := "1"; Server.cmd_CMD := "07";
            Server.cmd_IND := 1101; Server.cmd_VAL := 1020 |}.
Proof.
  refine (proj1 (X11_written_register_becomes_pending_command Dec.int 1101 1020
                   {| doc_ID := Some "0"%string; doc_CMD := Some "07"%string;
                      doc_IND := Some "0"%string; doc_VAL := Some "0"%string |}
                   ToiDea.init Server.init _ _ _ _ _ _)).
  - repeat split; discriminate.
  - left. reflexivity.
  - reflexivity.
  - reflexivity.
  - vm_compute. discriminate.
  - vm_compute. discriminate.
Defined.

Lemma toi_write_parts reg val w :
  toi (toi_write reg val w) = (ToiDea.write_register reg val (toidea_xml w) (toi w)).1
  /\ toidea_xml (toi_write reg val w)
     = (ToiDea.write_register reg val (toidea_xml w) (toi w)).2.
Proof.
  unfold toi_write. destruct (ToiDea.write_register _ _ _ _). split; reflexivity.
Qed.

(** X12: ToiDea.xml holds one command.  When the controller issues two
    writes one after the other, as the services do for 1102 and 1101, the
    watcher pass that follows queues the second write only: the first one is
    in the controller's log and cache but never becomes a pending command. *)
Theorem X12_second_write_replaces_the_first
  (py_int : string -> option Z) (reg1 val1 reg2 val2 : Z) (d : ToiDoc)
  (w : World) (s : Server.Globals) :
  toidea_xml w = ToiXml d true ->
  has_command_nodes d -> executable d ->
  py_int (pretty reg2) = Some reg2 -> py_int (pretty val2) = Some val2 ->
  let w2 := w |> toi_write reg1 val1 |> toi_write reg2 val2 in
  let cid := strip (pretty (current_id (toi w2))) in
  cid <> ""%string -> cid <> Server.LAST_TOIDEA_ID s ->
  let s' := Server.toidea_watcher py_int (toidea_xml w2) s in
  new_calls w w2 = [(reg1, val1); (reg2, val2)]
  /\ Server.PENDING_CMD s'
     = Some {| Server.cmd_ID := cid;
               Server.cmd_CMD := strip (Server.text_or_empty (doc_CMD d));
               Server.cmd_IND := reg2; Server.cmd_VAL := val2 |}
  /\ Server.toidea_watcher py_int (toidea_xml w2) s' = s'.
Proof.
  intros Hf Hn Hx Hreg Hval w2 cid Hne Hfresh s'.
  destruct (write_register_keeps_nodes reg1 val1 d (toi w) Hn) as (d1 & E1 & Hn1 & Hc1).
  assert (toidea_xml (toi_write reg1 val1 w) = ToiXml d1 true) as Hf1.
  { rewrite (proj2 (toi_write_parts reg1 val1 w)), Hf. exact E1. }
  assert (executable d1) as Hx1 by (unfold executable in *; rewrite Hc1; exact Hx).
  assert (toi w2 = (ToiDea.write_register reg2 val2 (ToiXml d1 true)
                      (toi (toi_write reg1 val1 w))).1
          /\ toidea_xml w2 = (ToiDea.write_register reg2 val2 (ToiXml d1 true)
                                (toi (toi_write reg1 val1 w))).2) as [Et Ex].
  { subst w2. destruct (toi_write_parts reg2 val2 (toi_write reg1 val1 w)) as [A B].
    rewrite A, B, Hf1. split; reflexivity. }
  split; [|split].
  - apply new_calls_issued. subst w2. rewrite !toi_write_issued, <- app_assoc. reflexivity.
  - subst s'. rewrite Ex.
    rewrite (watcher_after_write py_int reg2 val2 d1 _ s Hn1 Hx1 Hreg Hval);
      rewrite <- ?Et; try assumption.
    cbn. rewrite Hc1. reflexivity.
  - subst s'. rewrite Ex.
    rewrite (watcher_after_write py_int reg2 val2 d1 _ s Hn1 Hx1 Hreg Hval);
      rewrite <- ?Et; try assumption.
    rewrite (write_register_file reg2 val2 d1 _ Hn1).
    unfold Server.toidea_watcher, Server.toidea_watcher_try.
    cbn [fst snd doc_ID Server.text_or_empty Server.LAST_TOIDEA_ID
         Server.set_last_toidea_id].
    subst cid. rewrite Et, (write_register_file reg2 val2 d1 _ Hn1). cbn [fst current_id].
    rewrite String.eqb_refl, orb_true_r. reflexivity.
Qed.

(** The event branch of a charge service: 1102 = 1, then 1101 = -6000. *)
Lemma X12_witness :
  let w2 := Examples.world0 |> toi_write 1102 1 |> toi_write 1101 (-6000) in
  new_calls Examples.world0 w2 = [(1102, 1); (1101, -6000)]
  /\ Server.PENDING_CMD (Server.toidea_watcher Dec.int (toidea_xml w2) Server.init)
     = Some {| Server.cmd_ID := "2"; Server.cmd_CMD := "07";
               Server.cmd_IND := 1101; Server.cmd_VAL := -6000 |}.
Proof.
  pose proof (X12_second_write_replaces_the_first Dec.int 1102 1 1101 (-6000)
                {| doc_ID := Some "0"%string; doc_CMD := Some "07"%string;
                   doc_IND := Some "0"%string; doc_VAL := Some "0"%string |}
                Examples.world0 Server.init eq_refl) as H.
  cbv zeta in H.
  destruct H as (H1 & H2 & _).
  - repeat split; discriminate.
  - left. reflexivity.
  - reflexivity.
  - reflexivity.
  - vm_compute. discriminate.
  - vm_compute. discriminate.
  - split; [exact H1 | exact H2].
Defined.

(** X10: the server keeps one pending command.  Two watcher passes that
    each find a fresh, executable command, with no write phase in between,
    leave the second command pending; the first is dropped without a counter
    or a log line. *)
Theorem X10_pending_command_is_overwritten
  (py_int : string -> option Z) (d1 d2 : ToiDoc) (wr1 wr2 : bool) (s : Server.Globals)
  (ind1 val1 ind2 val2 : Z) :
  let cid1 := strip (Server.text_or_empty (doc_ID d1)) in
  let cid2 := strip (Server.text_or_empty (doc_ID d2)) in
  cid1 <> ""%string -> cid1 <> Server.LAST_TOIDEA_ID s ->
  cid2 <> ""%string -> cid2 <> cid1 ->
  executable d1 -> executable d2 ->
  Server.int_field py_int (doc_IND d1) = Ok ind1 ->
  Server.int_field py_int (doc_VAL d1) = Ok val1 ->
  Server.int_field py_int (doc_IND d2) = Ok ind2 ->
  Server.int_field py_int (doc_VAL d2) = Ok val2 ->
  let s1 := Server.toidea_watcher py_int (ToiXml d1 wr1) s in
  let s2 := Server.toidea_watcher py_int (ToiXml d2 wr2) s1 in
  Server.PENDING_CMD s1
  = Some {| Server.cmd_ID := cid1;
            Server.cmd_CMD := strip (Server.text_or_empty (doc_CMD d1));
            Server.cmd_IND := ind1; Server.cmd_VAL := val1 |}
  /\ Server.PENDING_CMD s2
     = Some {| Server.cmd_ID := cid2;
               Server.cmd_CMD := strip (Server.text_or_empty (doc_CMD d2));
               Server.cmd_IND := ind2; Server.cmd_VAL := val2 |}
  /\ Server.LAST_TOIDEA_ID s2 = cid2
  /\ Server.STATS s2 = Server.STATS s
  /\ Server.console s2 = Server.console s.
Proof.
  intros cid1 cid2 H1 H1' H2 H2' X1 X2 I1 V1 I2 V2 s1 s2.
  assert (s1 = Server.set_last_toidea_id cid1
                 (Server.set_pending
                    (Some {| Server.cmd_ID := cid1;
                             Server.cmd_CMD := strip (Server.text_or_empty (doc_CMD d1));
                             Server.cmd_IND := ind1; Server.cmd_VAL := val1 |}) s)) as E1.
  { subst s1. unfold Server.toidea_watcher. rewrite watcher_fresh_id by assumption.
    rewrite I1, V1. cbv zeta. fold cid1. destruct X1 as [-> | ->]; reflexivity. }
  assert (s2 = Server.set_last_toidea_id cid2
                 (Server.set_pending
                    (Some {| Server.cmd_ID := cid2;
                             Server.cmd_CMD := strip (Server.text_or_empty (doc_CMD d2));
                             Server.cmd_IND := ind2; Server.cmd_VAL := val2 |}) s1)) as E2.
  { subst s2. unfold Server.toidea_watcher. rewrite watcher_fresh_id.
    - rewrite I2, V2. cbv zeta. fold cid2. destruct X2 as [-> | ->]; reflexivity.
    - exact H2.
    - rewrite E1. cbn. exact H2'. }
  rewrite E2, E1. cbn. repeat split.
Qed.

(** Two command files with the IDs 7 and 8, seen by a fresh server. *)
Lemma X10_witness :
  let f1 := ToiXml {| doc_ID := Some "7"%string; doc_CMD := Some "07"%string;
                      doc_IND := Some "1102"%string; doc_VAL := Some "1"%string |} true in
  let f2 := ToiXml {| doc_ID := Some "8"%string; doc_CMD := Some "07"%string;
                      doc_IND := Some "1101"%string; doc_VAL := Some "-6000"%string |} true in
  Server.PENDING_CMD (Server.toidea_watcher Dec.int f2
                        (Server.toidea_watcher Dec.int f1 Server.init))
  = Some {| Server.cmd_ID := "8"; Server.cmd_CMD := "07";
            Server.cmd_IND := 1101; Server.cmd_VAL := -6000 |}.
Proof.
  refine (proj1 (proj2 (X10_pending_command_is_overwritten Dec.int
                   {| doc_ID := Some "7"%string; doc_CMD := Some "07"%string;
                      doc_IND := Some "1102"%string; doc_VAL := Some "1"%string |}
                   {| doc_ID := Some "8"%string; doc_CMD := Some "07"%string;
                      doc_IND := Some "1101"%string; doc_VAL := Some "-6000"%string |}
                   true true Server.init 1102 1 1101 (-6000) _ _ _ _ _ _ _ _ _ _)));
    try (vm_compute; congruence); left; reflexivity.
Defined.

(** ** The foreign-master detector: counters *)

Lemma note_foreign_counters cfg t s :
  let s' := Server.note_foreign cfg t s in
  Server.FOREIGN_FRAMES_TOTAL s' = Server.FOREIGN_FRAMES_TOTAL s + 1
  /\ (length (Server.FOREIGN_TIMES s) <= 100 -> length (Server.FOREIGN_TIMES s') <= 100)%nat
  /\ (Server.FOREIGN_ALERT s' = 0 \/ Server.FOREIGN_ALERT s' = 1)
  /\ Server.FOREIGN_LAST_ISO s' = Some t
  /\ Server.STATS s' = Server.STATS s
  /\ Server.PENDING_CMD s' = Server.PENDING_CMD s
  /\ Server.LAST_WRITER_ID s' = Server.LAST_WRITER_ID s.
Proof.
  cbv zeta. rewrite note_foreign_alert, note_foreign_times.
  unfold Server.note_foreign.
  set (d := Server.popleft_older _ _ _).
  assert (length (Server.FOREIGN_TIMES s) <= 100 -> length d <= 100)%nat as Hlen.
  { intros H. subst d.
    destruct (popleft_older_split cfg t (Server.deque_append 100 t (Server.FOREIGN_TIMES s)))
      as (dropped & E & _).
    apply (f_equal length) in E. rewrite length_app in E.
    assert (length (Server.deque_append 100 t (Server.FOREIGN_TIMES s)) <= 100)%nat.
    { unfold Server.deque_append. destruct (Nat.ltb_spec (length (Server.FOREIGN_TIMES s)) 100).
      - rewrite length_app. cbn. lia.
      - destruct (Server.FOREIGN_TIMES s); cbn in *; [lia|]. rewrite length_app. cbn. lia. }
    lia. }
  unfold deque_after. fold d.
  destruct (Z.of_nat (length d) >=? Server.foreign_threshold cfg); cbn; auto 10.
Qed.

(** X13: the detector counts every foreign frame: over any run of bus
    events [FOREIGN_FRAMES_TOTAL] grows by the number of frames, the deque of
    instants never holds more than 100 entries, [FOREIGN_ALERT] is 0 or 1, and
    the counters of the read and write phases and the pending command are left
    alone. *)
Theorem X13_detector_counts_every_frame
  (cfg : Server.Cfg) (evs : list Server.BusEvent) (s : Server.Globals) :
  let s' := Server.run_events cfg evs s in
  Server.FOREIGN_FRAMES_TOTAL s'
  = Server.FOREIGN_FRAMES_TOTAL s + Z.of_nat (length (frame_times evs))
  /\ ((length (Server.FOREIGN_TIMES s) <= 100)%nat ->
      (length (Server.FOREIGN_TIMES s') <= 100)%nat)
  /\ (Server.FOREIGN_ALERT s = 0 \/ Server.FOREIGN_ALERT s = 1 ->
      Server.FOREIGN_ALERT s' = 0 \/ Server.FOREIGN_ALERT s' = 1)
  /\ Server.STATS s' = Server.STATS s
  /\ Server.PENDING_CMD s' = Server.PENDING_CMD s
  /\ Server.LAST_WRITER_ID s' = Server.LAST_WRITER_ID s.
Proof.
  cbv zeta. revert s. induction evs as [|e evs IH]; intros s.
  - cbn. repeat split; auto. lia.
  - unfold Server.run_events in *. cbn [fold_left].
    destruct (IH (Server.on_event cfg s e)) as (I1 & I2 & I3 & I4 & I5 & I6).
    destruct e as [t|t]; cbn [Server.on_event frame_times flat_map] in *.
    + destruct (note_foreign_counters cfg t s) as (N1 & N2 & N3 & _ & N5 & N6 & N7).
      rewrite I1, I4, I5, I6, N1, N5, N6, N7. cbn [app length].
      fold (frame_times evs).
      split; [lia|]. split; [intros H; apply I2, N2, H|].
      split; [intros _; apply I3, N3|]. repeat split.
    + cbn [app]. repeat split; auto.
Qed.

(** ** The unified controller: who changes which flag *)

Ltac flags_norm :=
  repeat first
    [ rewrite toi_write_flags
    | progress cbn [flags with_flags set_autoconsumo_enabled set_service_active
                    set_debito_energetico set_macchina_allarme
                    autoconsumo_enabled service_active macchina_allarme
                    debito_energetico sharing_enabled fst snd] ].

Lemma autocons_tick_flags py_float from_local from_remote c w :
  same_but_debito (flags w)
    (flags (Autocons.tick py_float from_local from_remote c w).2).
Proof.
  unfold same_but_debito, Autocons.tick, Autocons._read_local_fromidea,
    Autocons._balance_energy, Autocons._regolazione_autoconsumo_locale.
  destruct from_local; destruct_ifs; flags_norm; auto.
Qed.

Lemma battery_tick_flags py_float from_local c w :
  same_but_autoconsumo (flags w) (flags (Battery.tick py_float from_local c w).2).
Proof.
  unfold same_but_autoconsumo, Battery.tick, Battery._read_fromidea.
  destruct from_local as [| |txt]; cbn [snd]; auto.
  destruct (is_service_active w); cbn [snd]; auto.
  unfold Battery._handle_emergency_charge.
  set (entry := negb _ && _ && _).
  destruct entry; cbv beta iota zeta;
    repeat match goal with
      | |- context [match ?x with (_, _) => _ end] => destruct x eqn:?
      | |- context [if ?b then _ else _] => destruct b eqn:?
      end;
    flags_norm; auto.
Qed.

Lemma reset_tick_flags py_float from_local c w :
  same_but_allarme (flags w) (flags (Reset.tick py_float from_local c w).2).
Proof.
  unfold same_but_allarme, Reset.tick, Reset._read_state_1070, Reset.tick_stato,
    Reset._write_alarm_message.
  destruct from_local; destruct_ifs; flags_norm; auto.
Qed.

Lemma service_tick_flags py_float k now from_local c w :
  service_may (flags w) (flags (service_tick py_float k now from_local c w).2).
Proof.
  unfold service_may.
  destruct k; cbn [service_tick];
    unfold dso_carica_tick, dso_scarica_tick, trading_scarica_tick, trading_carica_tick,
      dso_carica_finish_event, dso_scarica_finish_event, trading_scarica_finish_event,
      trading_carica_finish_event, service_read_fromidea;
    destruct from_local; destruct_ifs; flags_norm; auto; repeat split; discriminate.
Qed.

(** X14: each controller changes only its own flags.  A self-consumption
    tick can change [debito_energetico] only; a battery tick
    [autoconsumo_enabled] only; a watchdog tick [macchina_allarme] only; a
    service tick can change [autoconsumo_enabled] and can clear
    [service_active], and never sets [service_active]. *)
Theorem X14_each_tick_changes_only_its_flags
  (py_float : string -> option Q) (from_local from_remote : File) (now : Z) (w : World)
  (ca : Autocons.t) (cb : Battery.t) (cr : Reset.t) (k : ServiceKind) (cs : Service) :
  same_but_debito (flags w) (flags (Autocons.tick py_float from_local from_remote ca w).2)
  /\ same_but_autoconsumo (flags w) (flags (Battery.tick py_float from_local cb w).2)
  /\ same_but_allarme (flags w) (flags (Reset.tick py_float from_local cr w).2)
  /\ service_may (flags w) (flags (service_tick py_float k now from_local cs w).2).
Proof.
  split; [apply autocons_tick_flags|]. split; [apply battery_tick_flags|].
  split; [apply reset_tick_flags | apply service_tick_flags].
Qed.

Lemma passes_keep_refl f : passes_keep f f.
Proof. split; auto. Qed.

Lemma passes_keep_trans f1 f2 f3 :
  passes_keep f1 f2 -> passes_keep f2 f3 -> passes_keep f1 f3.
Proof. unfold passes_keep. intros [A B] [C D]. split; [congruence | auto]. Qed.

Lemma loop_body_keeps py_float e a n w :
  cfg_changed e = None ->
  passes_keep (flags w) (flags (loop_body py_float e (a, n, w)).2).
Proof.
  intros Hcfg. unfold loop_body, reload_if_changed. rewrite Hcfg.
  assert (forall w0, passes_keep (flags w) (flags w0) ->
            forall f l r c, passes_keep (flags w)
                              (flags (Autocons.tick f l r c w0).2)) as HA.
  { intros w0 H f l r c. eapply passes_keep_trans; [exact H|].
    destruct (autocons_tick_flags f l r c w0) as (_ & H2 & _ & H4).
    split; [exact H4 | congruence]. }
  assert (forall w0, passes_keep (flags w) (flags w0) ->
            forall f l c, passes_keep (flags w) (flags (Battery.tick f l c w0).2)) as HB.
  { intros w0 H f l c. eapply passes_keep_trans; [exact H|].
    destruct (battery_tick_flags f l c w0) as (H1 & _ & _ & H4).
    split; [exact H4 | congruence]. }
  assert (forall w0, passes_keep (flags w) (flags w0) ->
            forall f l c, passes_keep (flags w) (flags (Reset.tick f l c w0).2)) as HR.
  { intros w0 H f l c. eapply passes_keep_trans; [exact H|].
    destruct (reset_tick_flags f l c w0) as (_ & H2 & _ & H4).
    split; [exact H4 | congruence]. }
  assert (forall w0, passes_keep (flags w) (flags w0) ->
            forall f k t l c, passes_keep (flags w)
                                (flags (service_tick f k t l c w0).2)) as HS.
  { intros w0 H f k t l c. eapply passes_keep_trans; [exact H|].
    destruct (service_tick_flags f k t l c w0) as (H1 & _ & _ & H4).
    split; [exact H4 | exact H1]. }
  pose proof (passes_keep_refl (flags w)) as H0.
  change (dso_carica_tick py_float) with (service_tick py_float DsoCarica).
  change (dso_scarica_tick py_float) with (service_tick py_float DsoScarica).
  change (trading_scarica_tick py_float) with (service_tick py_float TradingScarica).
  change (trading_carica_tick py_float) with (service_tick py_float TradingCarica).
  repeat (cbv beta iota zeta;
          match goal with
          | |- context [if ?b then _ else _] =>
              lazymatch b with
              | context [if _ then _ else _] => fail
              | context [match _ with _ => _ end] => fail
              | _ => destruct b
              end
          | H : passes_keep _ (flags ?w0) |- context [Autocons.tick ?f ?l ?r ?c ?w0] =>
              let H' := fresh "K" in
              pose proof (HA w0 H f l r c) as H';
              destruct (Autocons.tick f l r c w0) as [? ?]; cbn [snd] in H'
          | H : passes_keep _ (flags ?w0) |- context [Battery.tick ?f ?l ?c ?w0] =>
              let H' := fresh "K" in
              pose proof (HB w0 H f l c) as H';
              destruct (Battery.tick f l c w0) as [? ?]; cbn [snd] in H'
          | H : passes_keep _ (flags ?w0) |- context [Reset.tick ?f ?l ?c ?w0] =>
              let H' := fresh "K" in
              pose proof (HR w0 H f l c) as H';
              destruct (Reset.tick f l c w0) as [? ?]; cbn [snd] in H'
          | H : passes_keep _ (flags ?w0) |- context [service_tick ?f ?k ?t ?l ?c ?w0] =>
              let H' := fresh "K" in
              pose proof (HS w0 H f k t l c) as H';
              destruct (service_tick f k t l c w0) as [? ?]; cbn [snd] in H'
          end);
    cbn [snd]; assumption.
Qed.

Lemma passes_keeps py_float envs : forall a n w,
  Forall (fun e => cfg_changed e = None) envs ->
  passes_keep (flags w) (flags (passes py_float envs (a, n, w)).2).
Proof.
  induction envs as [|e envs IH]; intros a n w Hall.
  - apply passes_keep_refl.
  - inversion Hall as [|? ? He Hrest]; subst.
    change (passes py_float (e :: envs) (a, n, w))
      with (passes py_float envs (loop_body py_float e (a, n, w))).
    pose proof (loop_body_keeps py_float e a n w He) as H1.
    destruct (loop_body py_float e (a, n, w)) as [[a1 n1] w1]. cbn [snd] in H1.
    eapply passes_keep_trans; [exact H1 | apply IH; exact Hrest].
Qed.

(** X15: inside [run_forever] only a configuration reload can set
    [service_active] or change [sharing_enabled].  Over any number of passes
    in which the configuration file is not reloaded, [sharing_enabled] keeps
    its value and [service_active], once false, stays false, whatever the
    controllers and services read and do. *)
Theorem X15_no_tick_sets_service_active
  (py_float : string -> option Q) (envs : list Env) (a : App) (n : NextRun) (w : World) :
  Forall (fun e => cfg_changed e = None) envs ->
  let w' := (passes py_float envs (a, n, w)).2 in
  is_sharing_enabled w' = is_sharing_enabled w
  /\ (is_service_active w = false -> is_service_active w' = false).
Proof.
  intros Hall w'. destruct (passes_keeps py_float envs a n w Hall) as [H1 H2].
  split; [exact H1|]. intros Hf. unfold is_service_active in *.
  destruct (service_active (flags w')) eqn:E; [|reflexivity].
  rewrite (H2 E) in Hf. discriminate.
Qed.

(** A DSO charge service through its event and past its end: the
    completion clears [service_active], and the following pass leaves it
    cleared. *)
Lemma X15_witness :
  let s1 := passes Dec.float [Examples.env_in_event; MoreExamples.env_at_end]
              (Examples.app_dso_carica, MoreExamples.next0, Examples.world_service) in
  is_service_active s1.2 = false
  /\ is_service_active (passes Dec.float [MoreExamples.env_later] s1).2 = false.
Proof.
  cbv zeta.
  destruct (passes Dec.float [Examples.env_in_event; MoreExamples.env_at_end]
              (Examples.app_dso_carica, MoreExamples.next0, Examples.world_service))
    as [[a1 n1] w1] eqn:E.
  assert (is_service_active w1 = false) as H1.
  { vm_compute in E. injection E as _ _ <-. reflexivity. }
  split; [exact H1|].
  refine (proj2 (X15_no_tick_sets_service_active Dec.float _ a1 n1 w1 _) H1).
  repeat constructor.
Defined.

(** ** The scheduled services: what they write, and when they stop *)

Ltac service_cases k from_local :=
  destruct k; cbn [service_tick];
  unfold dso_carica_tick, dso_scarica_tick, trading_scarica_tick, trading_carica_tick,
    dso_carica_finish_event, dso_scarica_finish_event, trading_scarica_finish_event,
    trading_carica_finish_event, service_read_fromidea;
  destruct from_local; destruct_ifs; cbn [fst snd].

(** X16: whatever a service reads, one tick issues one of seven write
    sequences: nothing, or commands that set register 1102 to 0, 1 or 3 and
    register 1101 to -6000, 0 or 6000; no other register and no other value is
    ever written by a service. *)
Theorem X16_service_tick_write_sequences
  (py_float : string -> option Q) (k : ServiceKind) (now : Z) (from_local : File)
  (c : Service) (w : World) :
  new_calls w (service_tick py_float k now from_local c w).2 ∈ service_write_sequences.
Proof.
  unfold service_write_sequences.
  service_cases k from_local;
    first
      [ rewrite new_calls_same by reflexivity
      | erewrite new_calls_issued by (issued_norm; rewrite <- ?app_assoc; reflexivity) ];
    cbn [app];
    repeat first [apply list_elem_of_here | apply list_elem_of_further].
Qed.

(** X17: completion is final.  For a program whose event does not end
    before it starts, a service that is DONE does nothing at any instant at
    or after the end of its event: it stays DONE, issues no write and changes
    no flag. *)
Theorem X17_done_service_stays_done
  (py_float : string -> option Q) (k : ServiceKind) (now : Z) (from_local : File)
  (c : Service) (w : World) :
  state c = DONE -> event_start c <= event_end c -> event_end c <= now ->
  let r := service_tick py_float k now from_local c w in
  state r.1 = DONE /\ r.2 = w.
Proof.
  intros Hs Hse Hen. cbv zeta.
  service_cases k from_local; cbn [state set_state set_soc event_start event_end] in *;
    try (split; [assumption | reflexivity]);
    try (match goal with
         | H : _ && negb (state_eqb (state c) DONE) = true |- _ =>
             rewrite Hs, andb_false_r in H; discriminate
         end);
    try lia.
Qed.

(** A DSO discharge service after its completion. *)
Lemma X17_witness :
  let done := set_state DONE Examples.todays_service in
  let r := service_tick Dec.float DsoScarica 150 (Examples.snapshot "600" "0" "2" "5000")
             done Examples.world0 in
  state r.1 = DONE /\ r.2 = Examples.world0.
Proof.
  apply (X17_done_service_stays_done Dec.float DsoScarica 150
           (Examples.snapshot "600" "0" "2" "5000")
           (set_state DONE Examples.todays_service) Examples.world0).
  - reflexivity.
  - cbn. lia.
  - cbn. lia.
Defined.

(** ** The battery controller: meter and emergency charge *)

(** X18: the meter conversion stays within the contract.  For a sensor
    reading in 0..10000 and non-negative contract powers, the withdrawal power
    lies between 0 and [contatore_prelievo_w], the injection power between 0
    and [contatore_immissione_w], at most one of the two is not zero, and at
    the midpoint 5000 both are zero. *)
Theorem X18_meter_power_within_contract (c : Battery.t) (v : Q) :
  (0 <= v)%Q -> (v <= 10000)%Q ->
  0 <= Battery.contatore_prelievo_w (Battery.params c) ->
  0 <= Battery.contatore_immissione_w (Battery.params c) ->
  let r := Battery._meter_convert_1090_to_power c v in
  (0 <= r.1 /\ r.1 <= inject_Z (Battery.contatore_prelievo_w (Battery.params c)))%Q
  /\ (0 <= r.2 /\ r.2 <= inject_Z (Battery.contatore_immissione_w (Battery.params c)))%Q
  /\ (r.1 == 0 \/ r.2 == 0)%Q
  /\ ((v == 5000)%Q -> (r.1 == 0)%Q /\ (r.2 == 0)%Q).
Proof.
  intros H0 H1 Hp Hi r. subst r. unfold Battery._meter_convert_1090_to_power.
  assert (0 <= inject_Z (Battery.contatore_prelievo_w (Battery.params c)))%Q as Hp'
    by (unfold Qle; cbn; lia).
  assert (0 <= inject_Z (Battery.contatore_immissione_w (Battery.params c)))%Q as Hi'
    by (unfold Qle; cbn; lia).
  set (P := inject_Z (Battery.contatore_prelievo_w (Battery.params c))) in *.
  set (I := inject_Z (Battery.contatore_immissione_w (Battery.params c))) in *.
  destruct (leb v 5000) eqn:E; cbn [fst snd].
  - apply Qle_bool_iff in E.
    assert ((5000 - v) / 5000 == (5000 - v) * (1 # 5000))%Q as Hr by (field).
    rewrite Hr. repeat split; try lra; try nra;
      try (right; reflexivity); intros Hv; try rewrite Hv; lra.
  - assert (5000 < v)%Q as E'.
    { apply Qnot_le_lt. intros Hle. apply Qle_bool_iff in Hle. unfold leb in E. congruence. }
    assert ((v - 5000) / 5000 == (v - 5000) * (1 # 5000))%Q as Hr by (field).
    rewrite Hr. repeat split; try lra; try nra;
      try (left; reflexivity); intros Hv; lra.
Qed.

(** The default contract at the readings 0, 5000 and 10000. *)
Lemma X18_witness :
  let c := Battery.init Battery.default_params in
  ((Battery._meter_convert_1090_to_power c 2500).1 <= 3000)%Q
  /\ ((Battery._meter_convert_1090_to_power c 5000).1 == 0)%Q
  /\ ((Battery._meter_convert_1090_to_power c 5000).2 == 0)%Q.
Proof.
  pose (c := Battery.init Battery.default_params).
  assert (0 <= 2500)%Q as A by (unfold Qle; cbn; lia).
  assert (2500 <= 10000)%Q as B by (unfold Qle; cbn; lia).
  assert (0 <= 5000)%Q as A' by (unfold Qle; cbn; lia).
  assert (5000 <= 10000)%Q as B' by (unfold Qle; cbn; lia).
  assert (0 <= Battery.contatore_prelievo_w (Battery.params c)) as Hp by (cbn; lia).
  assert (0 <= Battery.contatore_immissione_w (Battery.params c)) as Hi by (cbn; lia).
  destruct (X18_meter_power_within_contract c 2500 A B Hp Hi) as ((_ & H1) & _).
  destruct (X18_meter_power_within_contract c 5000 A' B' Hp Hi) as (_ & _ & _ & H2).
  destruct (H2 (Qeq_refl _)) as [H3 H4].
  exact (conj H1 (conj H3 H4)).
Defined.

Lemma emergency_writes_bounded c w :
  let p := Battery.params c in
  Battery.guardrail_1101_min p <= 0 <= Battery.emergency_1101_max p ->
  0 <= Battery.step_emergency_1101 p ->
  writes_1101_within (Battery.guardrail_1101_min p)
    (Battery.emergency_1101_max p + Battery.step_emergency_1101 p)
    (new_calls w (Battery._handle_emergency_charge c w).2).
Proof.
  intros p Hle Hstep. unfold Battery._handle_emergency_charge. fold p.
  set (entry := negb _ && _ && _).
  destruct entry; cbv beta iota zeta;
    cbn [Battery.emergency_active Battery.set_emergency_active negb
         Battery.params Battery.values]; fold p;
    repeat match goal with
      | |- context [match ?x with (_, _) => _ end] => destruct x eqn:?
      | |- context [if ?b then _ else _] => destruct b eqn:?
      end;
    cbn [snd];
    first
      [ rewrite new_calls_same by reflexivity; constructor
      | erewrite new_calls_issued
          by (issued_norm; rewrite <- ?app_assoc; reflexivity);
        unfold writes_1101_within; cbn [app];
        repeat match goal with
          | |- Forall _ (_ :: _) =>
              constructor;
              [cbn [fst snd]; intros ?; try discriminate;
               unfold set_autoconsumo_enabled in *;
               repeat match goal with
                 | H : context [toi (with_flags _ _)] |- _ =>
                     rewrite toi_with_flags in H
                 end; lia|]
          | |- Forall _ [] => constructor
          end ].
Qed.

(** X19: the battery-current override is bounded.  With
    [guardrail_1101_min <= 0 <= emergency_1101_max] and a non-negative step,
    every value a battery tick writes to register 1101 lies between
    [guardrail_1101_min] and [emergency_1101_max + step_emergency_1101],
    whatever the telemetry; the battery tick writes nothing at all while a
    service is active or when the snapshot file cannot be read. *)
Theorem X19_emergency_writes_within_one_step_of_max
  (py_float : string -> option Q) (from_local : File) (c : Battery.t) (w : World) :
  let p := Battery.params c in
  Battery.guardrail_1101_min p <= 0 <= Battery.emergency_1101_max p ->
  0 <= Battery.step_emergency_1101 p ->
  let r := Battery.tick py_float from_local c w in
  writes_1101_within (Battery.guardrail_1101_min p)
    (Battery.emergency_1101_max p + Battery.step_emergency_1101 p) (new_calls w r.2)
  /\ (is_service_active w = true -> r.2 = w)
  /\ (from_local = NoFile \/ from_local = Unreadable -> r = (c, w)).
Proof.
  intros p Hle Hstep r. subst r. unfold Battery.tick, Battery._read_fromidea.
  split; [|split].
  - destruct from_local as [| |txt]; cbn [snd];
      try (rewrite new_calls_same by reflexivity; constructor).
    destruct (is_service_active w); cbn [snd];
      [rewrite new_calls_same by reflexivity; constructor|].
    apply (emergency_writes_bounded (Battery.set_values _ c) w Hle Hstep).
  - intros Hs. destruct from_local; cbn [snd]; try reflexivity. now rewrite Hs.
  - intros [-> | ->]; reflexivity.
Qed.

(** The two ticks of the found override, on the default configuration:
    the value 50 written lies within one step above the maximum 0. *)
Lemma X19_witness :
  let p := Battery.default_params in
  let r1 := Battery.tick Dec.float (Examples.snapshot "50" "300" "2" "0")
              (Battery.init p) Examples.world0 in
  let r2 := Battery.tick Dec.float (Examples.snapshot "60" "7000" "2" "0") r1.1 r1.2 in
  writes_1101_within (-2500) 50 (new_calls r1.2 r2.2).
Proof.
  cbv zeta.
  set (r1 := Battery.tick Dec.float (Examples.snapshot "50" "300" "2" "0")
               (Battery.init Battery.default_params) Examples.world0).
  assert (Battery.params r1.1 = Battery.default_params) as Hp by (vm_compute; reflexivity).
  pose proof (X19_emergency_writes_within_one_step_of_max Dec.float
                (Examples.snapshot "60" "7000" "2" "0") r1.1 r1.2) as H.
  cbv zeta in H. rewrite Hp in H. cbn [Battery.guardrail_1101_min Battery.emergency_1101_max
    Battery.step_emergency_1101 Battery.default_params] in H.
  exact (proj1 (H ltac:(lia) ltac:(lia))).
Defined.

(** X20: the emergency charge starts only at a state of charge equal to
    [start_soc_dec].  With no service active, a battery tick that reads any
    other value of register 1040, lower ones and the 0 of an unreadable tag
    included, leaves an inactive emergency inactive, issues no write and
    changes no flag. *)
Theorem X20_emergency_needs_exact_start_soc
  (py_float : string -> option Q) (txt : string) (c : Battery.t) (w : World) :
  Battery.emergency_active c = false ->
  is_service_active w = false ->
  ~ (_get_value_from_tag py_float txt "1040"
     == inject_Z (Battery.emergency_start_soc_dec (Battery.params c)))%Q ->
  let r := Battery.tick py_float (Content txt) c w in
  Battery.emergency_active r.1 = false /\ r.2 = w.
Proof.
  intros Ha Hs Hsoc r. subst r.
  unfold Battery.tick, Battery._read_fromidea. rewrite Hs.
  unfold Battery._handle_emergency_charge.
  cbn [Battery.values Battery.set_values Battery.v1040 Battery.params
       Battery.emergency_active].
  rewrite Ha.
  assert (eqb (_get_value_from_tag py_float txt "1040")
              (inject_Z (Battery.emergency_start_soc_dec (Battery.params c))) = false) as ->.
  { unfold eqb. destruct (Qeq_bool _ _) eqn:E; [|reflexivity].
    apply Qeq_bool_iff in E. contradiction. }
  cbn. rewrite Ha. cbn. split; [exact Ha | reflexivity].
Qed.

(** A battery at 4 %, below the start threshold of 5 %. *)
Lemma X20_witness :
  let r := Battery.tick Dec.float (Examples.snapshot "40" "300" "2" "0")
             (Battery.init Battery.default_params) Examples.world0 in
  Battery.emergency_active r.1 = false /\ r.2 = Examples.world0.
Proof.
  apply (X20_emergency_needs_exact_start_soc Dec.float
           (Examples.snapshot_text "40" "300" "2" "0")
           (Battery.init Battery.default_params) Examples.world0).
  - reflexivity.
  - reflexivity.
  - vm_compute. discriminate.
Defined.

(** X21: the emergency charge ends at [stop_soc_dec].  With no service
    active, a tick of an active emergency that reads a state of charge of at
    least [stop_soc_dec] ends it: it writes 1102 = 3 and then 1101 = 0, sets
    [autoconsumo_enabled] and leaves the other flags as they were. *)
Theorem X21_emergency_exit_restores
  (py_float : string -> option Q) (txt : string) (c : Battery.t) (w : World) :
  Battery.emergency_active c = true ->
  is_service_active w = false ->
  (inject_Z (Battery.emergency_stop_soc_dec (Battery.params c))
   <= _get_value_from_tag py_float txt "1040")%Q ->
  let r := Battery.tick py_float (Content txt) c w in
  Battery.emergency_active r.1 = false
  /\ new_calls w r.2 = [(1102, 3); (1101, 0)]
  /\ is_autoconsumo_enabled r.2 = true
  /\ same_but_autoconsumo (flags w) (flags r.2).
Proof.
  intros Ha Hs Hsoc r. subst r.
  unfold Battery.tick, Battery._read_fromidea. rewrite Hs.
  unfold Battery._handle_emergency_charge.
  cbn [Battery.values Battery.set_values Battery.v1040 Battery.params
       Battery.emergency_active].
  rewrite Ha. cbn [negb andb]. cbv beta iota zeta.
  cbn [Battery.emergency_active Battery.set_values]. rewrite Ha. cbn [negb].
  assert (leb (inject_Z (Battery.emergency_stop_soc_dec (Battery.params c)))
              (_get_value_from_tag py_float txt "1040") = true) as ->.
  { unfold leb. apply Qle_bool_iff. exact Hsoc. }
  cbn [fst snd Battery.emergency_active Battery.set_emergency_active].
  split; [reflexivity|]. split; [|split].
  - apply new_calls_issued. issued_norm. rewrite <- app_assoc. reflexivity.
  - unfold is_autoconsumo_enabled. flags_norm. reflexivity.
  - unfold same_but_autoconsumo. flags_norm. auto.
Qed.

(** An active emergency at 45 %, above the stop threshold of 40 %. *)
Lemma X21_witness :
  let c := Battery.set_emergency_active true (Battery.init Battery.default_params) in
  let r := Battery.tick Dec.float (Examples.snapshot "450" "300" "2" "0") c Examples.world0 in
  Battery.emergency_active r.1 = false
  /\ new_calls Examples.world0 r.2 = [(1102, 3); (1101, 0)]
  /\ is_autoconsumo_enabled r.2 = true.
Proof.
  destruct (X21_emergency_exit_restores Dec.float
              (Examples.snapshot_text "450" "300" "2" "0")
              (Battery.set_emergency_active true (Battery.init Battery.default_params))
              Examples.world0) as (H1 & H2 & H3 & _).
  - reflexivity.
  - reflexivity.
  - vm_compute. discriminate.
  - exact (conj H1 (conj H2 H3)).
Defined.

(** ** The flag store and its legacy files *)

Ltac each_key H :=
  unfold legacy_keys in H;
  repeat match type of H with
         | _ ∈ _ :: _ => apply elem_of_cons in H; destruct H as [->|H]
         end;
  try (exfalso; apply elem_of_nil in H; exact H).

Ltac key_in :=
  unfold legacy_keys; repeat first [apply list_elem_of_here | apply list_elem_of_further].

Section Mirror.

Variable join : string -> string -> string.

Lemma write_legacy_usable key e shown m :
  usable join m -> key ∈ legacy_keys ->
  exists p,
    ConfigManager.path join key m = Some p
    /\ ConfigManager.write_legacy join key e shown m
       = ConfigManager.print (ConfigManager.LogWrote key shown) (ConfigManager.put p e m).
Proof.
  intros [Hdef _] Hk. destruct (Hdef key Hk) as (rel & Hp & Hne & Hl).
  exists (join (ConfigManager.base_path m) rel).
  unfold ConfigManager.write_legacy, ConfigManager.path. rewrite Hp.
  apply String.eqb_neq in Hne. rewrite Hne.
  destruct (decide (join (ConfigManager.base_path m) rel ∈ ConfigManager.locked m));
    [contradiction|]. auto.
Qed.

Lemma path_distinct m k1 k2 p1 p2 :
  usable join m -> k1 ∈ legacy_keys -> k2 ∈ legacy_keys -> k1 <> k2 ->
  ConfigManager.path join k1 m = Some p1 -> ConfigManager.path join k2 m = Some p2 ->
  p1 <> p2.
Proof.
  intros [_ Hd] H1 H2 Hne. unfold ConfigManager.path.
  destruct (ConfigManager.paths m !! k1) as [rel1|] eqn:E1; [|discriminate].
  destruct (ConfigManager.paths m !! k2) as [rel2|] eqn:E2; [|discriminate].
  destruct (rel1 =? "")%string; [discriminate|].
  destruct (rel2 =? "")%string; [discriminate|].
  intros [= <-] [= <-]. apply (Hd k1 k2 rel1 rel2); assumption.
Qed.

Lemma write_legacy_paths key e shown m :
  ConfigManager.paths (ConfigManager.write_legacy join key e shown m) = ConfigManager.paths m
  /\ ConfigManager.base_path (ConfigManager.write_legacy join key e shown m)
     = ConfigManager.base_path m
  /\ ConfigManager.locked (ConfigManager.write_legacy join key e shown m)
     = ConfigManager.locked m.
Proof.
  unfold ConfigManager.write_legacy.
  destruct (ConfigManager.path join key m); [destruct (decide _)|]; cbn; auto.
Qed.

Lemma write_legacy_cflags key e shown m :
  ConfigManager.cflags (ConfigManager.write_legacy join key e shown m)
  = ConfigManager.cflags m.
Proof.
  unfold ConfigManager.write_legacy.
  destruct (ConfigManager.path join key m); [destruct (decide _)|]; reflexivity.
Qed.

Lemma write_legacy_keeps_usable key e shown m :
  usable join m -> usable join (ConfigManager.write_legacy join key e shown m).
Proof.
  intros Hu. destruct (write_legacy_paths key e shown m) as (P & B & L).
  unfold usable. rewrite P, B, L. exact Hu.
Qed.

Lemma write_legacy_adds key now f ks shown m :
  usable join m -> key ∈ legacy_keys -> (forall k, k ∈ ks -> k ∈ legacy_keys) ->
  mirrored_on join ks f m ->
  mirrored_on join (key :: ks) f
    (ConfigManager.write_legacy join key (expected key f now) shown m).
Proof.
  intros Hu Hk Hks Hm.
  destruct (write_legacy_usable key (expected key f now) shown m Hu Hk) as (p & Hp & ->).
  intros k q Hkk Hq. change (ConfigManager.path join k m = Some q) in Hq.
  change (exists n, <[p := expected key f now]> (ConfigManager.dir m) !! q
                    = Some (expected k f n)).
  destruct (decide (k = key)) as [->|Hne].
  - rewrite Hp in Hq. injection Hq as <-. exists now. apply lookup_insert_eq.
  - apply elem_of_cons in Hkk as [?|Hkk]; [contradiction|].
    rewrite lookup_insert_ne.
    + apply Hm; assumption.
    + apply (path_distinct m key k p q Hu Hk (Hks k Hkk)); [congruence | assumption..].
Qed.

Lemma mirrored_on_weaken ks ks' f m :
  (forall k, k ∈ ks' -> k ∈ ks) -> mirrored_on join ks f m -> mirrored_on join ks' f m.
Proof. intros H Hm k p Hk. apply Hm, H, Hk. Qed.

Lemma sync_flag_files_mirrors now m :
  usable join m ->
  usable join (ConfigManager.sync_flag_files join now m)
  /\ ConfigManager.cflags (ConfigManager.sync_flag_files join now m) = ConfigManager.cflags m
  /\ mirrored join (ConfigManager.sync_flag_files join now m).
Proof.
  intros Hu. unfold ConfigManager.sync_flag_files.
  unfold ConfigManager._write_guardrail_txt, ConfigManager._write_service_status_txt,
    ConfigManager._write_debito_txt, ConfigManager._write_macchina_allarme_txt,
    ConfigManager._write_sharing_xml.
  set (f := ConfigManager.cflags m).
  set (m1 := ConfigManager.write_legacy join "guardrail_txt" _ _ m).
  set (m2 := ConfigManager.write_legacy join "service_status_txt" _ _ m1).
  set (m3 := ConfigManager.write_legacy join "debito_txt" _ _ m2).
  set (m4 := ConfigManager.write_legacy join "macchina_allarme_txt" _ _ m3).
  set (m5 := ConfigManager.write_legacy join "sharing_xml" _ _ m4).
  assert (usable join m1) as U1 by (apply write_legacy_keeps_usable, Hu).
  assert (usable join m2) as U2 by (apply write_legacy_keeps_usable, U1).
  assert (usable join m3) as U3 by (apply write_legacy_keeps_usable, U2).
  assert (usable join m4) as U4 by (apply write_legacy_keeps_usable, U3).
  assert (ConfigManager.cflags m5 = f) as F5.
  { unfold m5, m4, m3, m2, m1. rewrite !write_legacy_cflags. reflexivity. }
  split; [apply write_legacy_keeps_usable, U4|]. split; [exact F5|].
  assert (mirrored_on join [] f m) as M0 by (intros k p Hk; inversion Hk).
  pose proof (write_legacy_adds "guardrail_txt" now f []
                (ConfigManager.bit (ConfigManager.is_autoconsumo_enabled m)) m Hu
                ltac:(key_in) ltac:(intros k Hk; inversion Hk) M0) as M1.
  change (mirrored_on join ["guardrail_txt"] f m1)%string in M1.
  pose proof (write_legacy_adds "service_status_txt" now f ["guardrail_txt"]%string
                (ConfigManager.bit (ConfigManager.is_service_active m)) m1 U1
                ltac:(key_in) ltac:(intros k Hk; each_key Hk; key_in) M1) as M2.
  change (mirrored_on join ["service_status_txt"; "guardrail_txt"] f m2)%string in M2.
  pose proof (write_legacy_adds "debito_txt" now f
                ["service_status_txt"; "guardrail_txt"]%string
                (ConfigManager.bit (ConfigManager.is_debito_energetico m)) m2 U2
                ltac:(key_in) ltac:(intros k Hk; each_key Hk; key_in) M2) as M3.
  change (mirrored_on join ["debito_txt"; "service_status_txt"; "guardrail_txt"] f m3)%string
    in M3.
  pose proof (write_legacy_adds "macchina_allarme_txt" now f
                ["debito_txt"; "service_status_txt"; "guardrail_txt"]%string
                (if ConfigManager.is_macchina_allarme m then "IN ALLARME" else "OK")
                m3 U3
                ltac:(key_in) ltac:(intros k Hk; each_key Hk; key_in) M3) as M4.
  change (mirrored_on join ["macchina_allarme_txt"; "debito_txt"; "service_status_txt";
                            "guardrail_txt"] f m4)%string in M4.
  pose proof (write_legacy_adds "sharing_xml" now f
                ["macchina_allarme_txt"; "debito_txt"; "service_status_txt";
                 "guardrail_txt"]%string
                (ConfigManager.bit (ConfigManager.is_sharing_enabled m)) m4 U4
                ltac:(key_in) ltac:(intros k Hk; each_key Hk; key_in) M4) as M5.
  change (mirrored_on join ["sharing_xml"; "macchina_allarme_txt"; "debito_txt";
                            "service_status_txt"; "guardrail_txt"] f m5)%string in M5.
  unfold mirrored. rewrite F5. revert M5. apply mirrored_on_weaken.
  intros k Hk. each_key Hk; key_in.
Qed.

(** A setter: the flags change by [g], which concerns the file of [key]
    only, and that file is rewritten. *)
Lemma setter_mirrors key g now shown m :
  usable join m -> mirrored join m -> key ∈ legacy_keys ->
  (forall k n, k ∈ legacy_keys -> k <> key ->
     expected k (g (ConfigManager.cflags m)) n = expected k (ConfigManager.cflags m) n) ->
  usable join
    (ConfigManager.write_legacy join key (expected key (g (ConfigManager.cflags m)) now)
       shown (ConfigManager.with_cflags g m))
  /\ mirrored join
       (ConfigManager.write_legacy join key (expected key (g (ConfigManager.cflags m)) now)
          shown (ConfigManager.with_cflags g m)).
Proof.
  intros Hu Hm Hk Hother.
  assert (usable join (ConfigManager.with_cflags g m)) as Hu0 by exact Hu.
  split; [apply write_legacy_keeps_usable, Hu0|].
  destruct (write_legacy_usable key (expected key (g (ConfigManager.cflags m)) now) shown
              _ Hu0 Hk) as (p & Hp & ->).
  change (ConfigManager.path join key m = Some p) in Hp.
  intros k q Hkk Hq. change (ConfigManager.path join k m = Some q) in Hq.
  change (exists n, <[p := expected key (g (ConfigManager.cflags m)) now]>
                      (ConfigManager.dir m) !! q
                    = Some (expected k (g (ConfigManager.cflags m)) n)).
  destruct (decide (k = key)) as [->|Hne].
  - rewrite Hp in Hq. injection Hq as <-. exists now. apply lookup_insert_eq.
  - destruct (Hm k q Hkk Hq) as [n Hn]. exists n.
    rewrite lookup_insert_ne, Hn, (Hother k n Hkk Hne); [reflexivity|].
    apply (path_distinct m key k p q Hu Hk Hkk); [congruence | assumption..].
Qed.

Ltac other_keys :=
  let k := fresh "k" in let n := fresh "n" in
  let Hk := fresh "Hk" in let Hne := fresh "Hne" in
  intros k n Hk Hne; each_key Hk; first [reflexivity | contradiction].

Lemma call_mirrors m c m' :
  usable join m -> mirrored join m -> harmless join m c ->
  ConfigManager.call join m c = Some m' ->
  usable join m' /\ mirrored join m'.
Proof.
  intros Hu Hm Hh Hc. destruct c as [b|b|b|b|now b|now file]; cbn in Hc.
  - injection Hc as <-.
    exact (setter_mirrors "guardrail_txt"
             (fun f => {| autoconsumo_enabled := b; service_active := service_active f;
                          macchina_allarme := macchina_allarme f;
                          debito_energetico := debito_energetico f;
                          sharing_enabled := sharing_enabled f |})
             "" (ConfigManager.bit b) m Hu Hm ltac:(key_in) ltac:(other_keys)).
  - injection Hc as <-.
    exact (setter_mirrors "service_status_txt"
             (fun f => {| autoconsumo_enabled := autoconsumo_enabled f;
                          service_active := b;
                          macchina_allarme := macchina_allarme f;
                          debito_energetico := debito_energetico f;
                          sharing_enabled := sharing_enabled f |})
             "" (ConfigManager.bit b) m Hu Hm ltac:(key_in) ltac:(other_keys)).
  - injection Hc as <-.
    exact (setter_mirrors "debito_txt"
             (fun f => {| autoconsumo_enabled := autoconsumo_enabled f;
                          service_active := service_active f;
                          macchina_allarme := macchina_allarme f;
                          debito_energetico := b;
                          sharing_enabled := sharing_enabled f |})
             "" (ConfigManager.bit b) m Hu Hm ltac:(key_in) ltac:(other_keys)).
  - injection Hc as <-.
    exact (setter_mirrors "macchina_allarme_txt"
             (fun f => {| autoconsumo_enabled := autoconsumo_enabled f;
                          service_active := service_active f;
                          macchina_allarme := b;
                          debito_energetico := debito_energetico f;
                          sharing_enabled := sharing_enabled f |})
             "" (if b then "IN ALLARME" else "OK") m Hu Hm ltac:(key_in) ltac:(other_keys)).
  - injection Hc as <-.
    exact (setter_mirrors "sharing_xml"
             (fun f => {| autoconsumo_enabled := autoconsumo_enabled f;
                          service_active := service_active f;
                          macchina_allarme := macchina_allarme f;
                          debito_energetico := debito_energetico f;
                          sharing_enabled := b |})
             now (ConfigManager.bit b) m Hu Hm ltac:(key_in) ltac:(other_keys)).
  - destruct file as [|mtime [j|]]; cbn in Hc, Hh.
    + injection Hc as <-. auto.
    + destruct (negb (Qeq_bool mtime (ConfigManager._last_mtime m)));
        injection Hc as <-; [|auto].
      destruct (sync_flag_files_mirrors now
                  (ConfigManager._load j (ConfigManager.print ConfigManager.LogChanged m)) Hh)
        as (U & _ & M).
      exact (conj U M).
    + destruct (negb (Qeq_bool mtime (ConfigManager._last_mtime m)));
        [discriminate|]. injection Hc as <-. auto.
Qed.

Lemma calls_mirror cs : forall m m',
  usable join m -> mirrored join m -> harmless_calls join m cs ->
  ConfigManager.calls join m cs = Some m' ->
  usable join m' /\ mirrored join m'.
Proof.
  induction cs as [|c cs IH]; intros m m' Hu Hm Hh Hc; cbn in Hc.
  - injection Hc as <-. auto.
  - destruct Hh as [Hh Hrest].
    destruct (ConfigManager.call join m c) as [m1|] eqn:E; [|discriminate].
    destruct (call_mirrors m c m1 Hu Hm Hh E) as [U1 M1].
    exact (IH m1 m' U1 M1 Hrest Hc).
Qed.

Section Readers.

Variable py_int : string -> option Z.
Hypothesis int_0 : py_int "0" = Some 0.
Hypothesis int_1 : py_int "1" = Some 1.

(** The scripts read the flags of the manager from mirrored files. *)
Lemma mirrored_reads m :
  usable join m -> mirrored join m ->
  script_reads join Legacy.read_guardrail_autoconsumo "guardrail_txt" m
  = Some (ConfigManager.is_autoconsumo_enabled m)
  /\ script_reads join Legacy.read_service_active "service_status_txt" m
     = Some (ConfigManager.is_service_active m)
  /\ script_reads join Legacy.read_energy_debt "debito_txt" m
     = Some (ConfigManager.is_debito_energetico m)
  /\ script_reads_sharing join py_int m = Some (ConfigManager.is_sharing_enabled m).
Proof.
  intros Hu Hm.
  assert (forall k, k ∈ legacy_keys ->
            exists p now, ConfigManager.path join k m = Some p
                          /\ ConfigManager.dir m !! p
                             = Some (expected k (ConfigManager.cflags m) now)) as H.
  { intros k Hk. destruct Hu as [Hdef _]. destruct (Hdef k Hk) as (rel & Hp & Hne & _).
    assert (ConfigManager.path join k m = Some (join (ConfigManager.base_path m) rel)) as P.
    { unfold ConfigManager.path. rewrite Hp. apply String.eqb_neq in Hne.
      rewrite Hne. reflexivity. }
    destruct (Hm k _ Hk P) as [now Hn]. eauto. }
  destruct (H "guardrail_txt"%string ltac:(key_in)) as (pg & ng & Pg & Dg).
  destruct (H "service_status_txt"%string ltac:(key_in)) as (ps & ns & Ps & Ds).
  destruct (H "debito_txt"%string ltac:(key_in)) as (pd & nd & Pd & Dd).
  destruct (H "sharing_xml"%string ltac:(key_in)) as (px & nx & Px & Dx).
  unfold script_reads, script_reads_sharing,
    ConfigManager.is_autoconsumo_enabled, ConfigManager.is_service_active,
    ConfigManager.is_debito_energetico, ConfigManager.is_sharing_enabled.
  rewrite Pg, Ps, Pd, Px, Dg, Ds, Dd, Dx.
  change (expected "guardrail_txt" (ConfigManager.cflags m) ng)
    with (ConfigManager.TextFile
            ("AUTOCONSUMO="
             ++ ConfigManager.bit (autoconsumo_enabled (ConfigManager.cflags m)))).
  change (expected "service_status_txt" (ConfigManager.cflags m) ns)
    with (ConfigManager.TextFile
            ("SERVICE=" ++ ConfigManager.bit (service_active (ConfigManager.cflags m)))).
  change (expected "debito_txt" (ConfigManager.cflags m) nd)
    with (ConfigManager.TextFile
            ("DebitoEnergetico="
             ++ ConfigManager.bit (debito_energetico (ConfigManager.cflags m)))).
  change (expected "sharing_xml" (ConfigManager.cflags m) nx)
    with (ConfigManager.XmlFile
            [("DATA", nx);
             ("sharing", ConfigManager.bit (sharing_enabled (ConfigManager.cflags m)))]).
  repeat split.
  - destruct (autoconsumo_enabled (ConfigManager.cflags m)); reflexivity.
  - destruct (service_active (ConfigManager.cflags m)); reflexivity.
  - destruct (debito_energetico (ConfigManager.cflags m)); reflexivity.
  - destruct (sharing_enabled (ConfigManager.cflags m)); cbn.
    + change (rstrip (if is_space "1" then "" else "1")) with "1"%string.
      rewrite int_1. reflexivity.
    + change (rstrip (if is_space "0" then "" else "0")) with "0"%string.
      rewrite int_0. reflexivity.
Qed.

End Readers.

End Mirror.

(** Five distinct, non-empty relative paths under one base directory where
    nothing is locked are usable, when joining keeps them distinct. *)
Ltac usable_by_computation :=
  split;
  [ let k := fresh "k" in let Hk := fresh "Hk" in
    intros k Hk; each_key Hk;
    (eexists; split; [reflexivity | split; [discriminate | exact (not_elem_of_empty (C := gset string) _)]])
  | let H1 := fresh "H1" in let H2 := fresh "H2" in
    let E1 := fresh "E1" in let E2 := fresh "E2" in let Hne := fresh "Hne" in
    intros ? ? ? ? H1 H2 Hne E1 E2; each_key H1; each_key H2;
    try (exfalso; apply Hne; reflexivity);
    vm_compute in E1, E2; injection E1 as <-; injection E2 as <-; discriminate ].

(** X22: once [sync_flag_files] has run on usable paths, the five legacy
    files agree with the flags in memory after every further setter call and
    every reload of a configuration with usable paths, and what the
    stand-alone scripts read from the files of the manager (guardrail,
    service status, energy debt, sharing) is the value of the flag. *)
Theorem X22_legacy_files_follow_the_flags
  (join : string -> string -> string) (py_int : string -> option Z)
  (now : string) (m : ConfigManager.t) (cs : list ConfigManager.Call)
  (m' : ConfigManager.t) :
  py_int "0" = Some 0 -> py_int "1" = Some 1 ->
  usable join m ->
  harmless_calls join (ConfigManager.sync_flag_files join now m) cs ->
  ConfigManager.calls join (ConfigManager.sync_flag_files join now m) cs = Some m' ->
  mirrored join m'
  /\ script_reads join Legacy.read_guardrail_autoconsumo "guardrail_txt" m'
     = Some (ConfigManager.is_autoconsumo_enabled m')
  /\ script_reads join Legacy.read_service_active "service_status_txt" m'
     = Some (ConfigManager.is_service_active m')
  /\ script_reads join Legacy.read_energy_debt "debito_txt" m'
     = Some (ConfigManager.is_debito_energetico m')
  /\ script_reads_sharing join py_int m' = Some (ConfigManager.is_sharing_enabled m').
Proof.
  intros I0 I1 Hu Hh Hc.
  destruct (sync_flag_files_mirrors join now m Hu) as (U0 & _ & M0).
  destruct (calls_mirror join cs _ m' U0 M0 Hh Hc) as [U M].
  split; [exact M|]. exact (mirrored_reads join py_int I0 I1 m' U M).
Qed.

(** A first start in an empty directory, then a service that stops the
    local self-consumption, then a configuration moved to another directory
    with a service marked active: the scripts read the flags of the new
    configuration from the files of the new directory. *)
Lemma X22_witness :
  match ConfigManager.calls MoreExamples.join_slash
          (ConfigManager.sync_flag_files MoreExamples.join_slash "07/12/2025 10:00:00"
             ConfigManager.fresh)
          MoreExamples.flag_calls with
  | Some m' =>
      ConfigManager.base_path m' = "/data"%string
      /\ script_reads MoreExamples.join_slash Legacy.read_guardrail_autoconsumo
           "guardrail_txt" m' = Some true
      /\ script_reads MoreExamples.join_slash Legacy.read_service_active
           "service_status_txt" m' = Some true
      /\ script_reads MoreExamples.join_slash Legacy.read_energy_debt "debito_txt" m'
         = Some true
      /\ script_reads_sharing MoreExamples.join_slash Dec.int m' = Some false
  | None => False
  end.
Proof.
  destruct (ConfigManager.calls MoreExamples.join_slash
              (ConfigManager.sync_flag_files MoreExamples.join_slash "07/12/2025 10:00:00"
                 ConfigManager.fresh)
              MoreExamples.flag_calls) as [m'|] eqn:E; [|vm_compute in E; discriminate].
  destruct (X22_legacy_files_follow_the_flags MoreExamples.join_slash Dec.int
              "07/12/2025 10:00:00" ConfigManager.fresh MoreExamples.flag_calls m')
    as (_ & Hg & Hs & Hd & Hx).
  - reflexivity.
  - reflexivity.
  - usable_by_computation.
  - unfold MoreExamples.flag_calls.
    cbn [harmless_calls harmless ConfigManager.call].
    split; [exact I|].
    split; [|destruct (ConfigManager.reload_if_changed _ _ _ _); exact I].
    usable_by_computation.
  - exact E.
  - assert (ConfigManager.cflags m' = MoreExamples.flags_moved
            /\ ConfigManager.base_path m' = "/data"%string) as [F B].
    { vm_compute in E. injection E as <-. split; reflexivity. }
    unfold ConfigManager.is_autoconsumo_enabled, ConfigManager.is_service_active,
      ConfigManager.is_debito_energetico, ConfigManager.is_sharing_enabled in *.
    rewrite F in *. exact (conj B (conj Hg (conj Hs (conj Hd Hx)))).
Defined.

(** X23: the stand-alone scripts agree on the format of the flag files: what
    one script writes for a flag, the reader of the other script returns,
    for the guardrail, the energy debt and the service status; a write that
    fails leaves the reader with what the file held before. *)
Theorem X23_scripts_agree_on_flag_files (b : bool) (old : File) :
  Legacy.read_guardrail_autoconsumo (Legacy.write_guardrail_autoconsumo b true old) = b
  /\ Legacy.read_energy_debt (Legacy.write_energy_debt b true old) = b
  /\ Legacy.read_service_active (Legacy.write_service_status b true old) = b
  /\ Legacy.read_guardrail_autoconsumo (Legacy.write_guardrail_autoconsumo b false old)
     = Legacy.read_guardrail_autoconsumo old
  /\ Legacy.read_energy_debt (Legacy.write_energy_debt b false old)
     = Legacy.read_energy_debt old
  /\ Legacy.read_service_active (Legacy.write_service_status b false old)
     = Legacy.read_service_active old.
Proof. destruct b; repeat split. Qed.

(** ** The stand-alone scripts and the unified controller *)

Lemma watchdog_tick_stato_in_step stato l d u w :
  watchdogs_in_step l d u w ->
  watchdogs_in_step (LegacyReset.tick_stato stato l d).1 (LegacyReset.tick_stato stato l d).2
    (Reset.tick_stato stato u w).1 (Reset.tick_stato stato u w).2.
Proof.
  intros (Ha & Hm & Hal & Hw & Hs & Hl).
  unfold LegacyReset.tick_stato, Reset.tick_stato.
  destruct (stato =? 2).
  - cbn [LegacyReset.set_reset_attempts LegacyReset.alarm_active
           Reset.set_reset_attempts Reset.alarm_active].
    rewrite <- Hal. destruct (LegacyReset.alarm_active l) eqn:E.
    + unfold watchdogs_in_step, LegacyReset.write_alarm_message, alarm_shown.
      rewrite Hw. cbn. repeat split; auto; congruence.
    + unfold watchdogs_in_step. cbn. rewrite ?E. repeat split; auto; congruence.
  - destruct ((stato =? 0) || (stato =? 1)).
    + rewrite <- Hal, <- Ha, <- Hm. destruct (LegacyReset.alarm_active l) eqn:E.
      * unfold watchdogs_in_step. cbn. repeat split; auto; congruence.
      * destruct (LegacyReset.reset_attempts l <? LegacyReset.max_attempts l).
        -- unfold watchdogs_in_step, LegacyReset.update_toi_dea, toi_write.
           destruct (ToiDea.write_register 1103 10 (toidea_xml w) (toi w)) as [t f].
           destruct (LegacyReset.to_file d) as [| |doc wr]; cbn; rewrite ?Hl, ?E;
             repeat split; auto; congruence.
        -- unfold watchdogs_in_step, LegacyReset.write_alarm_message, alarm_shown.
           rewrite Hw. cbn. repeat split; auto; congruence.
    + unfold watchdogs_in_step. cbn. repeat split; auto; congruence.
Qed.

(** X24: the unified watchdog is a faithful port of
    [controllo_reset_macchina.py]: started in step and fed the same
    snapshots of FromiDea.xml, the two stay in step, so they send the same
    reset commands, count the same attempts, raise and clear the alarm on the
    same ticks, and the alarm file of the script says what the flag
    [macchina_allarme] of the unified controller says. *)
Theorem X24_unified_watchdog_follows_the_script
  (py_float : string -> option Q) (snapshots : list File)
  (l : LegacyReset.t) (d : LegacyReset.Disk) (u : Reset.t) (w : World) :
  watchdogs_in_step l d u w ->
  watchdogs_in_step
    (LegacyReset.run py_float snapshots l d).1 (LegacyReset.run py_float snapshots l d).2
    (Reset.run py_float snapshots u w).1 (Reset.run py_float snapshots u w).2.
Proof.
  revert l d u w. induction snapshots as [|f rest IH]; intros l d u w H; [exact H|].
  cbn [LegacyReset.run Reset.run].
  destruct (LegacyReset.tick py_float f l d) as [l1 d1] eqn:E1.
  destruct (Reset.tick py_float f u w) as [u1 w1] eqn:E2.
  apply IH.
  unfold LegacyReset.tick, Reset.tick, LegacyReset.read_state_1070,
    Reset._read_state_1070 in E1, E2.
  destruct f as [| |txt].
  - injection E1 as <- <-. injection E2 as <- <-. exact H.
  - injection E1 as <- <-. injection E2 as <- <-. exact H.
  - cbn [LegacyReset.set_v1070 LegacyReset.v1070 Reset.set_v1070 Reset.v1070] in E1, E2.
    set (stato := int_of_float (_get_value_from_tag py_float txt "1070")) in *.
    pose proof (watchdog_tick_stato_in_step stato
                  (LegacyReset.set_v1070 (_get_value_from_tag py_float txt "1070") l) d
                  (Reset.set_v1070 (_get_value_from_tag py_float txt "1070") u) w) as S.
    rewrite E1, E2 in S. apply S. exact H.
Qed.

(** A machine in error for seven ticks, then back in operation: five resets
    from both, the alarm raised and cleared on the same ticks. *)
Lemma X24_witness :
  let snapshots := replicate 7 Examples.machine_error
                   ++ [Examples.snapshot "500" "0" "2" "5000"] in
  LegacyReset.sent (LegacyReset.run Dec.float snapshots LegacyReset.init Examples.disk0).2
  = issued (Reset.run Dec.float snapshots Reset.init Examples.world0).2.
Proof.
  cbv zeta.
  destruct (X24_unified_watchdog_follows_the_script Dec.float
              (replicate 7 Examples.machine_error
               ++ [Examples.snapshot "500" "0" "2" "5000"])
              LegacyReset.init Examples.disk0 Reset.init Examples.world0)
    as (_ & _ & _ & _ & _ & H).
  - repeat split.
  - exact H.
Defined.

(** *** controller_idea.py *)

Lemma update_toi_dea_desk ind val id d :
  let d' := (Scripts.update_toi_dea ind val id d).2 in
  Scripts.guardrail d' = Scripts.guardrail d
  /\ Scripts.guardrail_writable d' = Scripts.guardrail_writable d
  /\ Scripts.debt d' = Scripts.debt d
  /\ Scripts.debt_writable d' = Scripts.debt_writable d
  /\ Scripts.service_status d' = Scripts.service_status d
  /\ Scripts.service_status_writable d' = Scripts.service_status_writable d
  /\ Scripts.sharing d' = Scripts.sharing d
  /\ Scripts.sent d' = Scripts.sent d ++ [(ind, val)].
Proof.
  unfold Scripts.update_toi_dea. destruct (Scripts.to_file d); cbn; repeat split.
Qed.

Lemma idea_send_in_step py_int sp l d u w :
  Scripts.Idea.params l = Autocons.params u ->
  Legacy.read_guardrail_autoconsumo (Scripts.guardrail d) = is_autoconsumo_enabled w ->
  Legacy.read_energy_debt (Scripts.debt d) = is_debito_energetico w ->
  Legacy.read_sharing_flag py_int (Scripts.sharing d) = is_sharing_enabled w ->
  Scripts.debt_writable d = true ->
  Scripts.sent d = issued w ->
  idea_in_step py_int
    (Scripts.Idea.send 1101 sp (Scripts.Idea.set_setpoint sp l) d).1
    (Scripts.Idea.send 1101 sp (Scripts.Idea.set_setpoint sp l) d).2
    (Autocons.set_setpoint sp u) (toi_write 1101 sp w).
Proof.
  intros Hp Hg Hd Hs Hw Hl. unfold Scripts.Idea.send.
  pose proof (update_toi_dea_desk 1101 sp
                (Scripts.Idea.current_id (Scripts.Idea.set_setpoint sp l)) d) as U.
  destruct (Scripts.update_toi_dea 1101 sp _ d) as [id d'].
  cbv zeta in U. cbn [snd fst] in U |- *.
  destruct U as (G & _ & D & DW & _ & _ & S & L).
  unfold idea_in_step, is_autoconsumo_enabled, is_debito_energetico, is_sharing_enabled.
  rewrite G, D, DW, S, L, toi_write_issued, toi_write_flags, Hl.
  repeat split; auto.
Qed.

Section IdeaPort.

Variable py_float : string -> option Q.
Variable py_int : string -> option Z.

Lemma balance_energy_in_step local1090 remote1090 l d u w :
  idea_in_step py_int l d u w ->
  idea_in_step py_int
    (Scripts.Idea.balance_energy local1090 remote1090 l d).1
    (Scripts.Idea.balance_energy local1090 remote1090 l d).2
    (Autocons._balance_energy local1090 remote1090 u w).1
    (Autocons._balance_energy local1090 remote1090 u w).2.
Proof.
  intros H. pose proof H as (Hp & Hsp & Hg & Hd & Hs & Hw & Hl).
  unfold Scripts.Idea.balance_energy, Autocons._balance_energy.
  rewrite Hp, Hsp.
  repeat match goal with
         | |- context [if ?b then (l, d) else _] => destruct b; [exact H|]
         end.
  apply idea_send_in_step; assumption.
Qed.

Lemma debt_file_written b d :
  Scripts.debt_writable d = true ->
  Legacy.read_energy_debt (Scripts.debt (Scripts.write_energy_debt b d)) = b.
Proof.
  intros H. unfold Scripts.write_energy_debt, Legacy.write_energy_debt. cbn. rewrite H.
  destruct b; reflexivity.
Qed.

Lemma regolazione_in_step sensor1090 l d u w :
  idea_in_step py_int l d u w ->
  idea_in_step py_int
    (Scripts.Idea.regolazione_autoconsumo_locale sensor1090 l d).1
    (Scripts.Idea.regolazione_autoconsumo_locale sensor1090 l d).2
    (Autocons._regolazione_autoconsumo_locale sensor1090 u w).1
    (Autocons._regolazione_autoconsumo_locale sensor1090 u w).2.
Proof.
  intros H. pose proof H as (Hp & Hsp & Hg & Hd & Hs & Hw & Hl).
  unfold Scripts.Idea.regolazione_autoconsumo_locale,
    Autocons._regolazione_autoconsumo_locale.
  rewrite Hp, Hsp.
  destruct ((int_of_float sensor1090 <? 0) || (int_of_float sensor1090 >? 10000));
    [exact H|].
  cbv zeta.
  match goal with
  | |- context [Scripts.Idea.set_setpoint ?sp l] => set (sp' := sp)
  end.
  match goal with
  | |- context [Scripts.write_energy_debt ?b d] => set (debito := b)
  end.
  replace (if debito then set_debito_energetico true w
           else set_debito_energetico false w)
    with (set_debito_energetico debito w) by (destruct debito; reflexivity).
  change (Scripts.Idea.send 1101 sp'
            (Scripts.Idea.set_energy_debt debito (Scripts.Idea.set_setpoint sp' l))
            (Scripts.write_energy_debt debito d))
    with (Scripts.Idea.send 1101 sp'
            (Scripts.Idea.set_setpoint sp' (Scripts.Idea.set_energy_debt debito l))
            (Scripts.write_energy_debt debito d)).
  apply idea_send_in_step.
  - exact Hp.
  - exact Hg.
  - rewrite debt_file_written by exact Hw. reflexivity.
  - exact Hs.
  - exact Hw.
  - exact Hl.
Qed.

End IdeaPort.

(** X25: the unified self-consumption controller is a faithful port of
    [controller_idea.py]: in step before a tick on the same FromiDea.xml
    and FromiDea_remoto.xml (same parameters and set-point, flag files that
    read as the flags, a writable debt file), the two are in step after it;
    they choose the same mode, send the same value to 1101 and leave the same
    energy debt. *)
Theorem X25_unified_autoconsumo_follows_the_script
  (py_float : string -> option Q) (py_int : string -> option Z)
  (from_local from_remote : File)
  (l : Scripts.Idea.t) (d : Scripts.Desk) (u : Autocons.t) (w : World) :
  idea_in_step py_int l d u w ->
  idea_in_step py_int
    (Scripts.Idea.tick py_float py_int from_local from_remote l d).1
    (Scripts.Idea.tick py_float py_int from_local from_remote l d).2
    (Autocons.tick py_float from_local from_remote u w).1
    (Autocons.tick py_float from_local from_remote u w).2.
Proof.
  intros H. pose proof H as (Hp & Hsp & Hg & Hd & Hs & Hw & Hl).
  unfold Scripts.Idea.tick, Autocons.tick. rewrite Hg.
  destruct (is_autoconsumo_enabled w); [|exact H]. cbn [negb].
  unfold Scripts.Idea.read_local_from_idea, Autocons._read_local_fromidea.
  destruct from_local as [| |txt]; [exact H | exact H |].
  cbv zeta.
  cbn [Scripts.Idea.set_values Scripts.Idea.v1090 Scripts.Idea.v1040 Scripts.Idea.params
       Autocons.set_values Autocons.values Autocons.v1090 Autocons.v1040].
  set (soc := _get_value_from_tag py_float txt "1040").
  set (sensor := _get_value_from_tag py_float txt "1090").
  destruct (ltb sensor 0 || ltb 10000 sensor); [exact H|].
  unfold Autocons.community_predicate.
  cbn [Autocons.set_values Autocons.values Autocons.v1090 Autocons.v1040 Autocons.params].
  rewrite Hd, Hs, Hp.
  change (Scripts.Idea.read_remote_1090 py_float from_remote)
    with (Autocons._read_remote_1090 py_float from_remote).
  match goal with
  | |- context [Scripts.Idea.set_sharing_active ?b _] => set (active := b)
  end.
  destruct active.
  - apply balance_energy_in_step. exact H.
  - apply regolazione_in_step. exact H.
Qed.

(** *** carica_forzata_dso.py *)

Ltac desk_cases d :=
  unfold Scripts.Dso.finish_event, Scripts.Dso.send, Scripts.update_toi_dea,
    Scripts.write_guardrail_autoconsumo, Scripts.write_service_status,
    Legacy.write_guardrail_autoconsumo, Legacy.write_service_status,
    Scripts.Dso.with_service, Scripts.with_to_file;
  cbn [fst snd Scripts.to_file Scripts.guardrail Scripts.guardrail_writable Scripts.debt
       Scripts.debt_writable Scripts.service_status Scripts.service_status_writable
       Scripts.sharing Scripts.sent Scripts.Dso.service Scripts.Dso.current_id];
  destruct (Scripts.to_file d) as [| |? [|]];
  cbn [fst snd Scripts.to_file Scripts.guardrail Scripts.guardrail_writable Scripts.debt
       Scripts.debt_writable Scripts.service_status Scripts.service_status_writable
       Scripts.sharing Scripts.sent Scripts.Dso.service Scripts.Dso.current_id].

Ltac dso_related H d :=
  let Hu := fresh "Hu" in let Hg := fresh "Hg" in let Hs := fresh "Hs" in
  let Hgw := fresh "Hgw" in let Hsw := fresh "Hsw" in let Hl := fresh "Hl" in
  pose proof H as (Hu & Hg & Hs & Hgw & Hsw & Hl);
  unfold dso_in_step, is_autoconsumo_enabled, is_service_active;
  flags_norm; issued_norm;
  desk_cases d;
  rewrite ?Hgw, ?Hsw, ?Hl, <- ?app_assoc;
  repeat split; auto.

(** X26: the unified DSO charge service is a faithful port of
    [carica_forzata_dso.py]: in step before a tick at the same instant on
    the same FromiDea.xml (same state and event, flag files that read as the
    flags and can be written), the two are in step after it: same state,
    same register writes, and the guardrail and service-status files say what
    the flags say. *)
Theorem X26_unified_dso_charge_follows_the_script
  (py_float : string -> option Q) (now : Z) (from_local : File)
  (l : Scripts.Dso.t) (d : Scripts.Desk) (u : Service) (w : World) :
  dso_in_step l d u w ->
  dso_in_step
    (Scripts.Dso.tick py_float now from_local l d).1
    (Scripts.Dso.tick py_float now from_local l d).2
    (dso_carica_tick py_float now from_local u w).1
    (dso_carica_tick py_float now from_local u w).2.
Proof.
  intros H. destruct H as (<- & H). 
  assert (dso_in_step l d (Scripts.Dso.service l) w) as H' by (split; [reflexivity|exact H]).
  clear H. rename H' into H.
  unfold Scripts.Dso.tick, dso_carica_tick, dso_carica_finish_event.
  destruct (negb (active (Scripts.Dso.service l))); [exact H|].
  destruct ((now >=? event_end (Scripts.Dso.service l))
            && negb (state_eqb (state (Scripts.Dso.service l)) DONE)).
  { dso_related H d. }
  unfold Scripts.Dso.read_from_idea, service_read_fromidea.
  destruct from_local as [| |txt]; [exact H | exact H |].
  cbn [Scripts.Dso.with_service Scripts.Dso.service].
  set (s := set_soc (_get_value_from_tag py_float txt "1040") (Scripts.Dso.service l)).
  destruct (now <? event_start s).
  - destruct (ltb 50 (soc_1040 s)).
    + dso_related H d.
    + destruct (negb (state_eqb (state s) WAIT_EVENT)).
      * dso_related H d.
      * dso_related H d.
  - destruct ((event_start s <=? now) && (now <? event_end s)).
    + dso_related H d.
    + dso_related H d.
Qed.

(** The first tick of both on a snapshot with the grid sensor at 4800. *)
Lemma X25_witness :
  Scripts.sent
    (Scripts.Idea.tick Dec.float Dec.int (Examples.snapshot "500" "0" "2" "4800") NoFile
       Scripts.Idea.attributes ScriptExamples.desk0).2
  = issued
      (Autocons.tick Dec.float (Examples.snapshot "500" "0" "2" "4800") NoFile
         (Autocons.init Scripts.Idea.script_params) Examples.world0).2.
Proof.
  destruct (X25_unified_autoconsumo_follows_the_script Dec.float Dec.int
              (Examples.snapshot "500" "0" "2" "4800") NoFile
              Scripts.Idea.attributes ScriptExamples.desk0
              (Autocons.init Scripts.Idea.script_params) Examples.world0)
    as (_ & _ & _ & _ & _ & _ & H).
  - repeat split.
  - exact H.
Defined.

(** A tick during the event: both force the charge. *)
Lemma X26_witness :
  Scripts.sent
    (Scripts.Dso.tick Dec.float 50 (Examples.snapshot "600" "0" "2" "5000")
       ScriptExamples.dso0 ScriptExamples.desk_service).2
  = issued
      (dso_carica_tick Dec.float 50 (Examples.snapshot "600" "0" "2" "5000")
         (Scripts.Dso.service ScriptExamples.dso0) Examples.world_service).2.
Proof.
  destruct (X26_unified_dso_charge_follows_the_script Dec.float 50
              (Examples.snapshot "600" "0" "2" "5000")
              ScriptExamples.dso0 ScriptExamples.desk_service
              (Scripts.Dso.service ScriptExamples.dso0) Examples.world_service)
    as (_ & _ & _ & _ & _ & H).
  - repeat split.
  - exact H.
Defined.
